(** * Intent telemetry intelligence layer: session reconstruction,
      friction classification and insight generation

    A shallow embedding of the Python sources under
    [intelligence/src/] (models/event.py, models/session.py,
    analysis/session_reconstructor.py, analysis/friction_classifier.py,
    analysis/intent_inferrer.py, analysis/insight_generator.py, and the
    routes of api/routes/events.py and api/routes/insights.py), followed by
    the properties of the design document that are stated about them and
    by further properties read off the code.

    Conventions of the embedding.
    - A Python class is a module holding a record [t] and its methods.
    - [datetime] values are integers (microseconds since the epoch); the
      clock read by [datetime.now()] is an explicit argument [now].
    - Python numbers found in event payloads and severities are exact
      rationals ([Q]); binary floating point rounding is not modelled,
      but the [OverflowError] of a true division whose result is too
      large for a float is.
    - A Python [dict] is a [gmap]; the iteration order of a [dict] is not
      represented.
    - Raised exceptions are values of [Exception] carried by [result].
    - Methods that read or write [self] of a long-lived object are state
      transformers [State S A]. *)

From Stdlib Require Import Ascii QArith Qabs Qround Qminmax Lqa Sorting.Sorted.
From stdpp Require Import gmap strings list fin_maps sorting pretty.

Abbreviation datetime := Z (only parsing).

(** ** Exceptions and the two small monads *)

Inductive Exception :=
| ValueError (msg : string)
| AttributeError (msg : string)
| TypeError (msg : string)
| IndexError (msg : string)
| ValidationError (msg : string)
| OverflowError (msg : string)
| ServiceError (msg : string).

Inductive result (A : Type) :=
| Ok (a : A)
| Raise (e : Exception).
Arguments Ok {A} a.
Arguments Raise {A} e.

#[global] Instance result_ret : MRet result := λ A a, Ok a.
#[global] Instance result_bind : MBind result :=
  λ A B f m, match m with Ok a => f a | Raise e => Raise e end.

(** [try: body except Exception: handler] *)
Definition try_except {A} (body : result A) (handler : Exception → result A) : result A :=
  match body with
  | Ok a => Ok a
  | Raise e => handler e
  end.

Definition State (S A : Type) : Type := S → A * S.

#[global] Instance State_ret {S} : MRet (State S) := λ A a s, (a, s).
#[global] Instance State_bind {S} : MBind (State S) :=
  λ A B f m s, let '(a, s') := m s in f a s'.

Definition gets {S A} (f : S → A) : State S A := λ s, (f s, s).
Definition modify {S} (f : S → S) : State S unit := λ s, (tt, f s).

(** [for x in xs: body x], run for its effect on the state *)
Fixpoint for_each {S A} (xs : list A) (body : A → State S unit) : State S unit :=
  match xs with
  | [] => mret tt
  | x :: xs' => _ ← body x; for_each xs' body
  end.

(** A loop that appends to a local list and may raise: [body acc x] gives
    the list after the iteration for [x]. *)
Fixpoint for_fold {A B} (xs : list A) (acc : B) (body : B → A → result B) : result B :=
  match xs with
  | [] => Ok acc
  | x :: xs' => acc' ← body acc x; for_fold xs' acc' body
  end.

(** ** Python values and builtins *)

(** The values an event payload ([Dict[str, Any]]) holds, as far as the
    analysis tells them apart: numbers, strings and [None]. A boolean
    counts as the number 0 or 1, as it does in Python arithmetic; lists and
    nested dictionaries fail in arithmetic the way strings do. *)
Inductive PyValue :=
| PNum (q : Q)
| PStr (s : string)
| PNone.

(** [str(v)] as used by f-strings on payload values. The textual form Python
    gives a number is left open. *)
Class PyFormat := py_str : PyValue → string.

(** [d.get(key, default)] *)
Definition dict_get {V} (d : gmap string V) (key : string) (default : V) : V :=
  match d !! key with
  | Some v => v
  | None => default
  end.

(** Numeric operators applied to a payload value; a non-number raises
    [TypeError] as the interpreter does. *)
Definition as_number (v : PyValue) : result Q :=
  match v with
  | PNum q => Ok q
  | PStr _ => Raise (TypeError "unsupported operand type: str")
  | PNone => Raise (TypeError "unsupported operand type: NoneType")
  end.

Definition Qltb (x y : Q) : bool := negb (Qle_bool y x).

(** The least magnitude that no longer fits a float: a quotient of
    integers this large would round to 2^1024, and the interpreter raises
    [OverflowError] instead. A float operand cannot get there under a
    division by one of the constants of this code, a float being smaller
    than this bound already. *)
Definition float_overflow : Q := inject_Z (2 ^ 1024 - 2 ^ 970).

(** [a / b] for a divisor that is not zero. (Two floats with a quotient
    beyond the bound give [inf], which the rationals do not hold; an
    integer beyond the bound next to a float fails in its conversion. In
    the model all of these raise.) *)
Definition py_truediv (a b : Q) : result Q :=
  let quotient := (a / b)%Q in
  if Qle_bool float_overflow (Qabs quotient)
  then Raise (OverflowError "integer division result too large for a float")
  else Ok quotient.

(** [v > c], [v < c] and [v / c] for a constant [c] *)
Definition py_gt (v : PyValue) (c : Q) : result bool := q ← as_number v; mret (Qltb c q).
Definition py_lt (v : PyValue) (c : Q) : result bool := q ← as_number v; mret (Qltb q c).
Definition py_div (v : PyValue) (c : Q) : result Q := q ← as_number v; py_truediv q c.

(** [min(a, b)]: the first argument unless the second is strictly smaller *)
Definition py_min (a b : Q) : Q := if Qltb b a then b else a.

(** [max(xs)] of a non-empty iterable: the first largest item *)
Definition py_max (x : Q) (xs : list Q) : Q :=
  foldl (λ m y, if Qltb m y then y else m) x xs.

(** [l[-1]] *)
Definition py_last {A} (l : list A) : result A :=
  match last l with
  | Some x => Ok x
  | None => Raise (IndexError "list index out of range")
  end.

(** [sum(xs)] *)
Definition py_sum (xs : list Q) : Q := foldl Qplus 0%Q xs.

(** [round(x, 2)]: to the nearest multiple of 1/100, ties to the even one.
    The rounding is that of the exact value; Python rounds the binary
    float it holds, which near a tie may give the neighbouring hundredth. *)
Definition round_half_even (x : Q) : Z :=
  let f := Qfloor x in
  let r := (x - inject_Z f)%Q in
  if Qltb r (1 # 2) then f
  else if Qltb (1 # 2) r then (f + 1)%Z
  else if Z.even f then f else (f + 1)%Z.

Definition py_round2 (x : Q) : Q := (inject_Z (round_half_even (x * 100)) / 100)%Q.

(** [sorted(l, key=key)]: stable, ascending. Items are inserted from the
    right end, each one in front of the first item whose key is not
    smaller, so equal keys keep their order of arrival. *)
Section Sorted.
Context {A : Type} (key : A → Z).

Fixpoint insert_by (x : A) (l : list A) : list A :=
  match l with
  | [] => [x]
  | y :: l' => if (key x <=? key y)%Z then x :: y :: l' else y :: insert_by x l'
  end.

Definition sorted (l : list A) : list A := foldr insert_by [] l.
End Sorted.

(** ** models/event.py *)

Inductive EventType :=
| SESSION_START | SESSION_RESUME | SESSION_PAUSE | SESSION_END
| VIEW_TRANSITION | NAVIGATION_BACK | NAVIGATION_FORWARD
| ACTION_CLICK | ACTION_SUBMIT | ACTION_FOCUS | ACTION_INPUT
| PERFORMANCE_LOAD | PERFORMANCE_LATENCY
| FRICTION_RAPID_CLICK | FRICTION_NAVIGATION_REVERSAL
| FRICTION_ERROR | FRICTION_FORM_ABANDONMENT.

#[global] Instance EventType_eq_dec : EqDecision EventType.
Proof. solve_decision. Defined.

Module EventType.
Definition value (t : EventType) : string :=
  match t with
  | SESSION_START => "session.start"
  | SESSION_RESUME => "session.resume"
  | SESSION_PAUSE => "session.pause"
  | SESSION_END => "session.end"
  | VIEW_TRANSITION => "view.transition"
  | NAVIGATION_BACK => "navigation.back"
  | NAVIGATION_FORWARD => "navigation.forward"
  | ACTION_CLICK => "action.click"
  | ACTION_SUBMIT => "action.submit"
  | ACTION_FOCUS => "action.focus"
  | ACTION_INPUT => "action.input"
  | PERFORMANCE_LOAD => "performance.load"
  | PERFORMANCE_LATENCY => "performance.latency"
  | FRICTION_RAPID_CLICK => "friction.rapid_click"
  | FRICTION_NAVIGATION_REVERSAL => "friction.navigation_reversal"
  | FRICTION_ERROR => "friction.error"
  | FRICTION_FORM_ABANDONMENT => "friction.form_abandonment"
  end.
End EventType.

Module DeviceInfo.
Record t := mk { type : string; touchEnabled : bool }.
End DeviceInfo.

Module Viewport.
Record t := mk { width : Z; height : Z }.
End Viewport.

Module EventContext.
Record t := mk {
  url : option string;
  pageTitle : option string;
  viewport : Viewport.t;
  device : DeviceInfo.t;
  userAgent : option string;
}.
End EventContext.

(** The model class sets [use_enum_values = True]: a validated event
    keeps, under [type], the wire name of its type, a [str] that compares
    equal to the member of [EventType] of that name. The field is kept
    here as the member it is equal to. *)
Module TelemetryEvent.
Record t := mk {
  schemaVersion : string;
  type : EventType;
  eventId : string;
  sessionId : string;
  timestamp : datetime;
  sequenceNumber : Z;
  context : EventContext.t;
  data : gmap string PyValue;
}.
End TelemetryEvent.

(** ** analysis/session_reconstructor.py *)

Module ReconstructedSession.
Import TelemetryEvent.

Record t := mk {
  session_id : string;
  events : list TelemetryEvent.t;
  start_time : datetime;
  end_time : option datetime;
}.

(** The constructor sorts a copy of its argument into [self.events] and
    reads the two times off the argument list [events] itself. *)
Definition __init__ (now : datetime) (session_id : string)
    (events : list TelemetryEvent.t) : t :=
  {| session_id := session_id;
     events := sorted sequenceNumber events;
     start_time := match head events with
                   | Some e => timestamp e
                   | None => now
                   end;
     end_time := match last events with
                 | Some e => Some (timestamp e)
                 | None => None
                 end |}.

(** [int((end - start).total_seconds() * 1000)]: truncation toward zero,
    here of the exact number of milliseconds; the product of floats that
    Python truncates may lie just below a whole number that the exact
    product reaches. *)
Definition get_duration_ms (self : t) : Z :=
  match end_time self with
  | None => 0
  | Some e => ((e - start_time self) ÷ 1000)%Z
  end.

Definition get_events_by_type (self : t) (event_type : EventType) : list TelemetryEvent.t :=
  filter (λ e, type e = event_type) (events self).

Definition get_page_views (self : t) : nat :=
  length (get_events_by_type self VIEW_TRANSITION).

Definition get_interactions (self : t) : nat :=
  let interaction_types := [ACTION_CLICK; ACTION_SUBMIT; ACTION_INPUT] in
  foldl Nat.add 0 ((λ t, length (get_events_by_type self t)) <$> interaction_types).

Definition get_friction_events (self : t) : list TelemetryEvent.t :=
  let friction_types :=
    [FRICTION_RAPID_CLICK; FRICTION_NAVIGATION_REVERSAL;
     FRICTION_ERROR; FRICTION_FORM_ABANDONMENT] in
  filter (λ e, type e ∈ friction_types) (events self).

(** One item of [get_event_sequence]: the dictionary with the keys
    "type", "timestamp", "sequence", "data" and "context". The inner
    dictionary always has both of its keys, with [None] for an absent
    url or title. *)
Record SequenceItem := mkItem {
  item_type : string;
  item_timestamp : datetime;
  item_sequence : Z;
  item_data : gmap string PyValue;
  item_context : gmap string (option string);
}.

(** [s.name] for a [str]: of the attributes this code asks for, a [str]
    has none. *)
Definition str_getattr (s : string) (name : string) : result string :=
  Raise (AttributeError ("'str' object has no attribute '" +:+ name +:+ "'")).

(** The list comprehension builds one item per event, in order, and stops
    at the first item that raises. What [event.type] gives is the wire
    name the event holds, a [str], and the comprehension asks it for
    [.value]. *)
Definition get_event_sequence (self : t) : result (list SequenceItem) :=
  for_fold (events self) [] (λ items event,
    item_type ← str_getattr (EventType.value (type event)) "value";
    mret (items ++ [
      {| item_type := item_type;
         item_timestamp := timestamp event;
         item_sequence := sequenceNumber event;
         item_data := data event;
         item_context :=
           <["pageTitle" := EventContext.pageTitle (context event)]>
             (<["url" := EventContext.url (context event)]> ∅) |}])).
End ReconstructedSession.

Module SessionReconstructor.
Import TelemetryEvent.

Record t := mk { sessions : gmap string (list TelemetryEvent.t) }.

Definition __init__ : t := mk ∅.

(** The body of the loop of [add_events] *)
Definition add_event (event : TelemetryEvent.t) : State t unit :=
  known ← gets (λ self, bool_decide (is_Some (sessions self !! sessionId event)));
  _ ← (if known : bool then mret tt
       else modify (λ self, mk (<[sessionId event := []]> (sessions self))));
  modify (λ self,
    mk (alter (λ buffered, buffered ++ [event]) (sessionId event) (sessions self))).

Definition add_events (events : list TelemetryEvent.t) : State t unit :=
  for_each events add_event.

(** [self.sessions.get(session_id, [])] only reads the mapping. The list it
    yields is the buffered list itself; the constructor reads it and builds
    its own sorted list, so the buffer is not written through the view. *)
Definition get_session (now : datetime) (session_id : string)
    : State t ReconstructedSession.t :=
  events ← gets (λ self, dict_get (sessions self) session_id []);
  mret (ReconstructedSession.__init__ now session_id events).

Definition get_all_sessions (now : datetime) : State t (list ReconstructedSession.t) :=
  items ← gets (λ self, map_to_list (sessions self));
  mret ((λ '(sid, events), ReconstructedSession.__init__ now sid events) <$> items).

Definition get_session_count : State t nat :=
  gets (λ self, size (sessions self)).
End SessionReconstructor.

(** ** String methods used by the analysis (ASCII letters only; other bytes
    are left as they are) *)

Definition is_upper (c : ascii) : bool :=
  let n := nat_of_ascii c in (65 <=? n)%nat && (n <=? 90)%nat.
Definition is_lower (c : ascii) : bool :=
  let n := nat_of_ascii c in (97 <=? n)%nat && (n <=? 122)%nat.
Definition to_lower (c : ascii) : ascii :=
  if is_upper c then ascii_of_nat (nat_of_ascii c + 32) else c.
Definition to_upper (c : ascii) : ascii :=
  if is_lower c then ascii_of_nat (nat_of_ascii c - 32) else c.

(** [s.lower()] *)
Fixpoint str_lower (s : string) : string :=
  match s with
  | EmptyString => EmptyString
  | String c s' => String (to_lower c) (str_lower s')
  end.

(** [s.title()]: a letter that follows a letter is lowered, any other letter
    is raised *)
Fixpoint str_title_from (prev_cased : bool) (s : string) : string :=
  match s with
  | EmptyString => EmptyString
  | String c s' =>
      if is_upper c || is_lower c
      then String (if prev_cased then to_lower c else to_upper c) (str_title_from true s')
      else String c (str_title_from false s')
  end.
Definition str_title (s : string) : string := str_title_from false s.

(** [needle in s] *)
Fixpoint str_contains (needle s : string) : bool :=
  String.prefix needle s ||
  match s with
  | EmptyString => false
  | String _ s' => str_contains needle s'
  end.

(** [s.replace(old, new)] for a non-empty [old]: occurrences are replaced
    from the left and do not overlap; [skip] counts the characters of a
    replaced occurrence still to be dropped. *)
Fixpoint str_replace_from (skip : nat) (old new s : string) : string :=
  match s with
  | EmptyString => EmptyString
  | String c s' =>
      match skip with
      | S k => str_replace_from k old new s'
      | O =>
          if String.prefix old s
          then new +:+ str_replace_from (String.length old - 1) old new s'
          else String c (str_replace_from 0 old new s')
      end
  end.
Definition str_replace (old new s : string) : string := str_replace_from 0 old new s.

Definition newline : string := String (ascii_of_nat 10) EmptyString.

(** [sep.join(lines)] *)
Fixpoint str_join (sep : string) (lines : list string) : string :=
  match lines with
  | [] => EmptyString
  | [l] => l
  | l :: rest => l +:+ sep +:+ str_join sep rest
  end.

(** ** models/session.py *)

Module FrictionPattern.
Record t := mk {
  pattern_type : string;
  severity : Q;
  timestamp : datetime;
  description : string;
  event_id : string;
}.
End FrictionPattern.

Module IntentHypothesis.
Record t := mk {
  hypothesis : string;
  confidence : Q;
  supporting_evidence : list string;
  timestamp : datetime;
}.

(** The keyword constructor of the model. All four fields are required
    (none has a default), so a call that leaves [timestamp] out is
    rejected by validation. *)
Definition new (hypothesis : string) (confidence : Q)
    (supporting_evidence : list string) (timestamp : option datetime) : result t :=
  match timestamp with
  | Some ts => Ok (mk hypothesis confidence supporting_evidence ts)
  | None => Raise (ValidationError "timestamp: field required")
  end.
End IntentHypothesis.

Module InsightSummary.
Record t := mk {
  session_id : string;
  timestamp : datetime;
  intent_hypotheses : list IntentHypothesis.t;
  friction_patterns : list FrictionPattern.t;
  recommendations : list string;
  confidence_score : Q;
}.
End InsightSummary.

(** [session.end_time or session.start_time] *)
Definition end_or_start (session : ReconstructedSession.t) : datetime :=
  match ReconstructedSession.end_time session with
  | Some e => e
  | None => ReconstructedSession.start_time session
  end.

(** [session.metrics]: the class ReconstructedSession defines no attribute
    of that name, neither in its constructor nor as a method or property,
    so the attribute access raises. *)
Definition session_metrics (session : ReconstructedSession.t) : result (gmap string PyValue) :=
  Raise (AttributeError "'ReconstructedSession' object has no attribute 'metrics'").

(** ** analysis/friction_classifier.py *)

Module FrictionClassifier.
Import TelemetryEvent.

(** [self.patterns]: every finding of every call so far *)
Record t := mk { patterns : list FrictionPattern.t }.

Definition __init__ : t := mk [].

Section Rules.
Context `{PyFormat}.

Definition _detect_performance_degradation (session : ReconstructedSession.t)
    : result (list FrictionPattern.t) :=
  (* Check for slow page loads *)
  let load_events := ReconstructedSession.get_events_by_type session PERFORMANCE_LOAD in
  patterns ← for_fold load_events [] (λ patterns event,
    let load_time := dict_get (data event) "loadTime" (PNum 0) in
    slow ← py_gt load_time 3000;
    if slow : bool then
      scaled ← py_div load_time 10000;
      let severity := py_min 1 scaled in
      mret (patterns ++ [
        {| FrictionPattern.pattern_type := "performance_degradation";
           FrictionPattern.severity := severity;
           FrictionPattern.timestamp := timestamp event;
           FrictionPattern.description :=
             "Slow page load detected: " +:+ py_str load_time +:+ "ms";
           FrictionPattern.event_id := eventId event |}])
    else mret patterns);
  (* Check for high latency interactions *)
  let latency_events := ReconstructedSession.get_events_by_type session PERFORMANCE_LATENCY in
  for_fold latency_events patterns (λ patterns event,
    let latency := dict_get (data event) "latency" (PNum 0) in
    let operation := dict_get (data event) "operation" (PStr "unknown") in
    scaled ← py_div latency 5000;
    let severity := py_min 1 scaled in
    mret (patterns ++ [
      {| FrictionPattern.pattern_type := "performance_degradation";
         FrictionPattern.severity := severity;
         FrictionPattern.timestamp := timestamp event;
         FrictionPattern.description :=
           "High latency for " +:+ py_str operation +:+ ": " +:+ py_str latency +:+ "ms";
         FrictionPattern.event_id := eventId event |}])).

Definition _detect_affordance_confusion (session : ReconstructedSession.t)
    : result (list FrictionPattern.t) :=
  (* Rapid clicks indicate unclear feedback *)
  let rapid_click_events :=
    ReconstructedSession.get_events_by_type session FRICTION_RAPID_CLICK in
  patterns ← for_fold rapid_click_events [] (λ patterns event,
    let click_count := dict_get (data event) "clickCount" (PNum 0) in
    let target := dict_get (data event) "target" (PStr "unknown") in
    scaled ← py_div click_count 10;
    let severity := py_min 1 scaled in
    mret (patterns ++ [
      {| FrictionPattern.pattern_type := "affordance_confusion";
         FrictionPattern.severity := severity;
         FrictionPattern.timestamp := timestamp event;
         FrictionPattern.description :=
           "Rapid clicking on '" +:+ py_str target
           +:+ "' suggests unclear affordance or missing feedback";
         FrictionPattern.event_id := eventId event |}]));
  (* Navigation reversals can indicate confusion *)
  let reversal_events :=
    ReconstructedSession.get_events_by_type session FRICTION_NAVIGATION_REVERSAL in
  for_fold reversal_events patterns (λ patterns event,
    let time_on_page := dict_get (data event) "timeOnPage" (PNum 0) in
    quick ← py_lt time_on_page 2000;
    if quick : bool then
      mret (patterns ++ [
        {| FrictionPattern.pattern_type := "affordance_confusion";
           FrictionPattern.severity := 0.7;
           FrictionPattern.timestamp := timestamp event;
           FrictionPattern.description :=
             "Quick navigation reversal suggests user didn't find expected content";
           FrictionPattern.event_id := eventId event |}])
    else mret patterns).

Definition _detect_cognitive_overload (session : ReconstructedSession.t)
    : result (list FrictionPattern.t) :=
  (* Form abandonment indicates complexity/frustration *)
  let abandon_events :=
    ReconstructedSession.get_events_by_type session FRICTION_FORM_ABANDONMENT in
  for_fold abandon_events [] (λ patterns event,
    let fields_completed := dict_get (data event) "fieldsCompleted" (PNum 0) in
    let total_fields := dict_get (data event) "totalFields" (PNum 1) in
    some_fields ← py_gt total_fields 0;
    completion_rate ←
      (if some_fields : bool then
         done ← as_number fields_completed;
         total ← as_number total_fields;
         py_truediv done total
       else mret 0%Q);
    let severity := (1 - completion_rate)%Q in
    mret (patterns ++ [
      {| FrictionPattern.pattern_type := "cognitive_overload";
         FrictionPattern.severity := severity;
         FrictionPattern.timestamp := timestamp event;
         FrictionPattern.description :=
           "Form abandoned after completing " +:+ py_str fields_completed
           +:+ "/" +:+ py_str total_fields +:+ " fields";
         FrictionPattern.event_id := eventId event |}])).

Definition _detect_expectation_mismatch (session : ReconstructedSession.t)
    : result (list FrictionPattern.t) :=
  (* Errors indicate broken expectations *)
  let error_events := ReconstructedSession.get_events_by_type session FRICTION_ERROR in
  patterns ← for_fold error_events [] (λ patterns event,
    let error_type := dict_get (data event) "errorType" (PStr "unknown") in
    mret (patterns ++ [
      {| FrictionPattern.pattern_type := "expectation_mismatch";
         FrictionPattern.severity := 0.8;
         FrictionPattern.timestamp := timestamp event;
         FrictionPattern.description := "Error encountered: " +:+ py_str error_type;
         FrictionPattern.event_id := eventId event |}]));
  (* Multiple navigation reversals suggest confusion *)
  let reversals :=
    ReconstructedSession.get_events_by_type session FRICTION_NAVIGATION_REVERSAL in
  if bool_decide (3 ≤ length reversals) then
    last_reversal ← py_last reversals;
    mret (patterns ++ [
      {| FrictionPattern.pattern_type := "expectation_mismatch";
         FrictionPattern.severity := 0.6;
         FrictionPattern.timestamp := timestamp last_reversal;
         FrictionPattern.description :=
           "Multiple navigation reversals (" +:+ pretty (length reversals)
           +:+ ") suggest unmet expectations";
         FrictionPattern.event_id := eventId last_reversal |}])
  else mret patterns.

(** The four rules in order; the findings are added to the history only
    when all four have returned. *)
Definition analyze_session (session : ReconstructedSession.t)
    : State t (result (list FrictionPattern.t)) :=
  λ self,
    let found :=
      patterns ← mret [];
      performance ← _detect_performance_degradation session;
      let patterns := patterns ++ performance in
      affordance ← _detect_affordance_confusion session;
      let patterns := patterns ++ affordance in
      cognitive ← _detect_cognitive_overload session;
      let patterns := patterns ++ cognitive in
      expectation ← _detect_expectation_mismatch session;
      mret (patterns ++ expectation) in
    match found with
    | Ok patterns => (Ok patterns, mk (FrictionClassifier.patterns self ++ patterns))
    | Raise e => (Raise e, self)
    end.
End Rules.

(** The average is the exact one; Python divides the float sum. *)
Record SeveritySummary := mkSummary { average : Q; max : Q; count : nat }.

Definition get_severity_summary (self : t) : SeveritySummary :=
  match FrictionPattern.severity <$> patterns self with
  | [] => mkSummary 0 0 0
  | s :: rest =>
      mkSummary (py_sum (s :: rest) / inject_Z (Z.of_nat (length (s :: rest))))
                (py_max s rest) (length (s :: rest))
  end.
End FrictionClassifier.

(** ** analysis/intent_inferrer.py *)

Module IntentInferrer.
(** What the prompt interpolates into its fixed text *)
Record Prompt := mkPrompt {
  prompt_duration_ms : Z;
  prompt_page_views : nat;
  prompt_interactions : nat;
  prompt_friction_events : nat;
  prompt_event_summary : string;
  prompt_friction_summary : string;
}.

(** One entry of the "hypotheses" array of the reply *)
Record Reply := mkReply {
  intent : string;
  reply_confidence : Q;
  evidence : list string;
}.

(** [completions] stands for the remote service behind
    [client.chat.completions.create] together with the decoding of its
    reply: for a prompt it yields the "hypotheses" entries or fails. *)
Record t := mk {
  _api_key : option string;
  model : string;
  completions : Prompt → result (list Reply);
}.

(** [api_key or os.getenv("OPENAI_API_KEY")] *)
Definition __init__ (api_key : option string) (env_api_key : option string)
    (completions : Prompt → result (list Reply)) : t :=
  {| _api_key := match api_key with
                 | Some k => if bool_decide (k = "") then env_api_key else Some k
                 | None => env_api_key
                 end;
     model := "gpt-4o-mini";
     completions := completions |}.

(** The [client] property: the handle is made on first use, and only
    for a usable key. *)
Definition client (self : t) : result (Prompt → result (list Reply)) :=
  match _api_key self with
  | None => Raise (ValueError "Valid OPENAI_API_KEY required for intent inference")
  | Some k =>
      if bool_decide (k = "") || bool_decide (k = "sk-dummy-key-for-testing")
      then Raise (ValueError "Valid OPENAI_API_KEY required for intent inference")
      else Ok (completions self)
  end.

(** The lines [_prepare_event_summary] makes of the sequence before it
    joins them *)
Definition _event_summary_lines (sequence : list ReconstructedSession.SequenceItem)
    : list string :=
  let summary_lines :=
    imap (λ i event,
      let event_type := str_title (str_replace "_" " " (ReconstructedSession.item_type event)) in
      let page_title :=
        dict_get (ReconstructedSession.item_context event) "pageTitle" (Some "Unknown") in
      pretty (i + 1) +:+ ". " +:+ event_type +:+ " - " +:+ default "None" page_title)
      (take 20 sequence) in
  if bool_decide (20 < length sequence)
  then summary_lines ++ ["... and " +:+ pretty (length sequence - 20) +:+ " more events"]
  else summary_lines.

Definition _prepare_event_summary (session : ReconstructedSession.t) : result string :=
  sequence ← ReconstructedSession.get_event_sequence session;
  mret (str_join newline (_event_summary_lines sequence)).

Definition severity_label (severity : Q) : string :=
  if Qltb 0.7 severity then "High"
  else if Qltb 0.4 severity then "Medium" else "Low".

Definition _prepare_friction_summary (patterns : list FrictionPattern.t) : string :=
  match patterns with
  | [] => "No friction detected"
  | _ =>
      str_join newline
        (imap (λ i pattern,
           pretty (i + 1) +:+ ". [" +:+ severity_label (FrictionPattern.severity pattern)
           +:+ "] " +:+ FrictionPattern.pattern_type pattern +:+ ": "
           +:+ FrictionPattern.description pattern) patterns)
  end.

Definition infer_intent (self : t) (session : ReconstructedSession.t)
    (friction_patterns : list FrictionPattern.t) : result (list IntentHypothesis.t) :=
  (* Prepare event sequence summary: before the [try] *)
  event_summary ← _prepare_event_summary session;
  let friction_summary := _prepare_friction_summary friction_patterns in
  let prompt :=
    {| prompt_duration_ms := ReconstructedSession.get_duration_ms session;
       prompt_page_views := ReconstructedSession.get_page_views session;
       prompt_interactions := ReconstructedSession.get_interactions session;
       prompt_friction_events := length friction_patterns;
       prompt_event_summary := event_summary;
       prompt_friction_summary := friction_summary |} in
  try_except
    (create ← client self;
     hypotheses_json ← create prompt;
     for_fold hypotheses_json [] (λ hypotheses h,
       hypothesis ← IntentHypothesis.new (intent h) (reply_confidence h) (evidence h)
                      (Some (end_or_start session));
       mret (hypotheses ++ [hypothesis])))
    (λ e,
       (* Return fallback hypothesis *)
       hypothesis ← IntentHypothesis.new "Unable to determine intent (analysis error)" 0
                      ["Error during analysis"] (Some (end_or_start session));
       mret [hypothesis]).
End IntentInferrer.

(** ** analysis/insight_generator.py *)

(** What the generator asks of its collaborator: an [infer_intent] method
    that returns hypotheses or raises. *)
Class Inferrer (I : Type) :=
  infer_intent : I → ReconstructedSession.t → list FrictionPattern.t
                 → result (list IntentHypothesis.t).

#[global] Instance IntentInferrer_Inferrer : Inferrer IntentInferrer.t :=
  IntentInferrer.infer_intent.

(** A collaborator given directly by its behaviour *)
#[global] Instance function_Inferrer
  : Inferrer (ReconstructedSession.t → list FrictionPattern.t → result (list IntentHypothesis.t)) :=
  λ f, f.

Module InsightGenerator.
Record t (I : Type) := mk {
  intent_inferrer : I;
  friction_classifier : FrictionClassifier.t;
}.
Arguments mk {I} _ _.
Arguments intent_inferrer {I} _.
Arguments friction_classifier {I} _.

Definition __init__ {I} (intent_inferrer : I) : t I :=
  mk intent_inferrer FrictionClassifier.__init__.

Definition rec_critical_performance : string :=
  "🚀 Critical: Optimize page load performance and reduce interaction latency".
Definition rec_monitor_performance : string :=
  "⚡ Monitor and improve performance metrics for better user experience".
Definition rec_visual_feedback : string :=
  "🎯 Improve visual feedback for interactive elements (consider: loading states, hover effects, click acknowledgment)".
Definition rec_simplify_forms : string :=
  "🧠 Simplify forms and reduce cognitive load (consider: progressive disclosure, better labels, inline validation)".
Definition rec_align_ui : string :=
  "✨ Align UI behavior with user expectations (consider: clearer error messages, better navigation cues)".
Definition rec_struggling (hypothesis : string) : string :=
  "🎓 User appears to be struggling with: " +:+ str_replace "user " "" (str_lower hypothesis).
Definition rec_smooth : string :=
  "✅ Session appears smooth with no major friction detected".
Definition rec_high_friction : string :=
  "⚠️ High friction detected across multiple areas - prioritize UX improvements".

(** Group friction by type *)
Definition group_by_type (friction_patterns : list FrictionPattern.t)
    : gmap string (list FrictionPattern.t) :=
  foldl (λ friction_by_type pattern,
    let key := FrictionPattern.pattern_type pattern in
    let friction_by_type :=
      if bool_decide (is_Some (friction_by_type !! key)) then friction_by_type
      else <[key := []]> friction_by_type in
    alter (λ group, group ++ [pattern]) key friction_by_type)
    ∅ friction_patterns.

Definition _generate_recommendations (session : ReconstructedSession.t)
    (friction_patterns : list FrictionPattern.t)
    (intent_hypotheses : list IntentHypothesis.t) : list string :=
  let recommendations := [] in
  let friction_by_type := group_by_type friction_patterns in
  (* Performance recommendations; the mean is the exact one *)
  let recommendations :=
    match friction_by_type !! "performance_degradation" with
    | Some patterns =>
        let avg_severity :=
          (py_sum (FrictionPattern.severity <$> patterns)
           / inject_Z (Z.of_nat (length patterns)))%Q in
        if Qltb 0.7 avg_severity
        then recommendations ++ [rec_critical_performance]
        else recommendations ++ [rec_monitor_performance]
    | None => recommendations
    end in
  (* Affordance confusion recommendations *)
  let recommendations :=
    if bool_decide (is_Some (friction_by_type !! "affordance_confusion"))
    then recommendations ++ [rec_visual_feedback] else recommendations in
  (* Cognitive overload recommendations *)
  let recommendations :=
    if bool_decide (is_Some (friction_by_type !! "cognitive_overload"))
    then recommendations ++ [rec_simplify_forms] else recommendations in
  (* Expectation mismatch recommendations *)
  let recommendations :=
    if bool_decide (is_Some (friction_by_type !! "expectation_mismatch"))
    then recommendations ++ [rec_align_ui] else recommendations in
  (* Intent-based recommendations *)
  let recommendations :=
    foldl (λ recommendations hypothesis,
      if Qltb 0.7 (IntentHypothesis.confidence hypothesis) then
        let lowered := str_lower (IntentHypothesis.hypothesis hypothesis) in
        if str_contains "abandon" lowered || str_contains "unable" lowered
        then recommendations ++ [rec_struggling (IntentHypothesis.hypothesis hypothesis)]
        else recommendations
      else recommendations)
      recommendations intent_hypotheses in
  (* General recommendations *)
  if bool_decide (length friction_patterns = 0)
  then recommendations ++ [rec_smooth]
  else if bool_decide (5 ≤ length friction_patterns)
  then recommendations ++ [rec_high_friction]
  else recommendations.

Definition _calculate_confidence (intent_hypotheses : list IntentHypothesis.t)
    (friction_patterns : list FrictionPattern.t) : Q :=
  (* Base confidence on intent hypotheses *)
  let intent_confidence :=
    match IntentHypothesis.confidence <$> intent_hypotheses with
    | c :: rest => py_max c rest
    | [] => 0%Q
    end in
  (* More friction patterns = more certainty in analysis *)
  let friction_factor :=
    py_min 1 (inject_Z (Z.of_nat (length friction_patterns)) / 10) in
  (* Weighted average *)
  let confidence := ((intent_confidence * 0.7) + (friction_factor * 0.3))%Q in
  py_round2 confidence.

Section Generate.
Context `{PyFormat} {I : Type} `{Inferrer I}.

(** The placeholder built by the handler around the inference call *)
Definition placeholder_hypotheses (session : ReconstructedSession.t)
    : result (list IntentHypothesis.t) :=
  let events_line :=
    "Session included " +:+ pretty (length (ReconstructedSession.events session))
    +:+ " events" in
  metrics ← session_metrics session;
  let pages_line :=
    "User visited " +:+ py_str (dict_get metrics "page_views" (PNum 0)) +:+ " pages" in
  hypothesis ← IntentHypothesis.new
    "User interacted with the application (AI inference unavailable - OpenAI API key not configured)"
    0.5 [events_line; pages_line] None;
  mret [hypothesis].

Definition generate_insights (session : ReconstructedSession.t)
    : State (t I) (result InsightSummary.t) :=
  λ self,
    (* 1. Classify friction patterns *)
    let '(classified, classifier) :=
      FrictionClassifier.analyze_session session (friction_classifier self) in
    let self := mk (intent_inferrer self) classifier in
    (friction_patterns ← classified;
     (* 2. Infer intent *)
     intent_hypotheses ←
       try_except (infer_intent (intent_inferrer self) session friction_patterns)
                  (λ e, placeholder_hypotheses session);
     (* 3. Generate recommendations *)
     let recommendations :=
       _generate_recommendations session friction_patterns intent_hypotheses in
     (* 4. Calculate overall confidence score *)
     let confidence_score := _calculate_confidence intent_hypotheses friction_patterns in
     mret {| InsightSummary.session_id := ReconstructedSession.session_id session;
             InsightSummary.timestamp := end_or_start session;
             InsightSummary.intent_hypotheses := intent_hypotheses;
             InsightSummary.friction_patterns := friction_patterns;
             InsightSummary.recommendations := recommendations;
             InsightSummary.confidence_score := confidence_score |},
     self).
End Generate.
End InsightGenerator.

(** ** api/routes/events.py and api/routes/insights.py *)

(** [str(e)] of a caught exception, as the handlers put it in their details *)
Class ExceptionFormat := exc_str : Exception → string.

Module HTTPException.
Record t := mk { status_code : nat; detail : string }.
End HTTPException.

(** What a route hands back: its return value, or the HTTPException it
    raised *)
Inductive Response (A : Type) :=
| Return (a : A)
| Abort (e : HTTPException.t).
Arguments Return {A} a.
Arguments Abort {A} e.

Module EventBatch.
Record t := mk {
  schemaVersion : string;
  batchId : string;
  timestamp : datetime;
  events : list TelemetryEvent.t;
}.
End EventBatch.

(** The module-level objects the routes share: the reconstructor of
    events.py, imported by insights.py, and the generator of insights.py *)
Module Globals.
Record t (I : Type) := mk {
  session_reconstructor : SessionReconstructor.t;
  insight_generator : InsightGenerator.t I;
}.
Arguments mk {I} _ _.
Arguments session_reconstructor {I} _.
Arguments insight_generator {I} _.
End Globals.

Module routes_events.
(** The dictionary [ingest_batch] returns *)
Record IngestReply := mkReply {
  status : string;
  batch_id : string;
  events_received : nat;
  total_sessions : nat;
}.

Section Routes.
Context `{ExceptionFormat}.

Definition ingest_batch (batch : EventBatch.t)
    : State SessionReconstructor.t (Response IngestReply) :=
  λ session_reconstructor,
    let '(_, session_reconstructor) :=
      SessionReconstructor.add_events (EventBatch.events batch) session_reconstructor in
    let '(count, session_reconstructor) :=
      SessionReconstructor.get_session_count session_reconstructor in
    let body : result IngestReply :=
      Ok {| status := "success";
            batch_id := EventBatch.batchId batch;
            events_received := length (EventBatch.events batch);
            total_sessions := count |} in
    (match body with
     | Ok reply => Return reply
     | Raise e =>
         Abort (HTTPException.mk 400 ("Failed to process batch: " +:+ exc_str e))
     end, session_reconstructor).

(** [get_stats]: the dictionary with the one key "total_sessions" *)
Definition get_stats : State SessionReconstructor.t nat :=
  SessionReconstructor.get_session_count.
End Routes.
End routes_events.

Module routes_insights.
Section Routes.
Context `{PyFormat} `{ExceptionFormat} {I : Type} `{Inferrer I}.

(** The HTTPException for a session without events passes through the
    handler for HTTPException; any other exception becomes status 500. *)
Definition get_session_insights (now : datetime) (session_id : string)
    : State (Globals.t I) (Response InsightSummary.t) :=
  λ globals,
    (* Reconstruct session *)
    let '(session, session_reconstructor) :=
      SessionReconstructor.get_session now session_id
        (Globals.session_reconstructor globals) in
    if bool_decide (ReconstructedSession.events session = []) then
      (Abort (HTTPException.mk 404 "Session not found"),
       Globals.mk session_reconstructor (Globals.insight_generator globals))
    else
      (* Generate insights *)
      let '(generated, insight_generator) :=
        InsightGenerator.generate_insights session (Globals.insight_generator globals) in
      (match generated with
       | Ok insights => Return insights
       | Raise e =>
           Abort (HTTPException.mk 500 ("Failed to generate insights: " +:+ exc_str e))
       end, Globals.mk session_reconstructor insight_generator).
End Routes.
End routes_insights.

(** ** Vocabulary of the stated properties *)

Definition key_le {A} (key : A → Z) (a b : A) : Prop := (key a ≤ key b)%Z.

(** Ascending sequence numbers, ascending timestamps *)
Definition seq_le : relation TelemetryEvent.t := key_le TelemetryEvent.sequenceNumber.
Definition time_le : relation TelemetryEvent.t := key_le TelemetryEvent.timestamp.

(** Several calls of [add_events], one per batch, in order *)
Definition add_batches (batches : list (list TelemetryEvent.t))
    : State SessionReconstructor.t unit :=
  for_each batches SessionReconstructor.add_events.

(** The events of one session in their order of arrival *)
Definition arrivals (batches : list (list TelemetryEvent.t)) (session_id : string)
    : list TelemetryEvent.t :=
  filter (λ e, TelemetryEvent.sessionId e = session_id) (concat batches).

(** The three parts of the invariant on the times of a session *)
Definition starts_at_first (s : ReconstructedSession.t) : Prop :=
  TelemetryEvent.timestamp <$> head (ReconstructedSession.events s)
  = Some (ReconstructedSession.start_time s).

Definition ends_at_last (s : ReconstructedSession.t) : Prop :=
  TelemetryEvent.timestamp <$> last (ReconstructedSession.events s)
  = ReconstructedSession.end_time s.

Definition times_bound_events (s : ReconstructedSession.t) : Prop :=
  ∀ e, e ∈ ReconstructedSession.events s →
    (ReconstructedSession.start_time s ≤ TelemetryEvent.timestamp e)%Z ∧
    ∃ t_end, ReconstructedSession.end_time s = Some t_end ∧
             (TelemetryEvent.timestamp e ≤ t_end)%Z.

(** Sample data *)
Definition sample_context (title : option string) : EventContext.t :=
  {| EventContext.url := None;
     EventContext.pageTitle := title;
     EventContext.viewport := Viewport.mk 1280 720;
     EventContext.device := DeviceInfo.mk "desktop" false;
     EventContext.userAgent := None |}.

Definition sample_event (type : EventType) (event_id : string) (timestamp sequence : Z)
    (data : list (string * PyValue)) : TelemetryEvent.t :=
  {| TelemetryEvent.schemaVersion := "1.0";
     TelemetryEvent.type := type;
     TelemetryEvent.eventId := event_id;
     TelemetryEvent.sessionId := "s1";
     TelemetryEvent.timestamp := timestamp;
     TelemetryEvent.sequenceNumber := sequence;
     TelemetryEvent.context := sample_context (Some ("page " +:+ event_id));
     TelemetryEvent.data := list_to_map data |}.

(** Payload numbers *)
Definition is_number (v : PyValue) : bool :=
  match v with PNum _ => true | _ => false end.

Definition number_of (v : PyValue) : Q :=
  match v with PNum q => q | _ => 0%Q end.

#[global] Instance Qlt_decision (x y : Q) : Decision (x < y)%Q.
Proof.
  destruct (Qlt_le_dec x y) as [Hlt|Hle]; [by left|right].
  by apply Qle_not_lt.
Defined.

#[global] Instance Qeq_decision (x y : Q) : Decision (x == y)%Q := Qeq_dec x y.

Definition in_unit_interval (q : Q) : Prop := (0 <= q)%Q ∧ (q <= 1)%Q.

(** The payload fields the rules read, with the defaults of the rules *)
Definition load_time (e : TelemetryEvent.t) : PyValue :=
  dict_get (TelemetryEvent.data e) "loadTime" (PNum 0).
Definition latency (e : TelemetryEvent.t) : PyValue :=
  dict_get (TelemetryEvent.data e) "latency" (PNum 0).
Definition click_count (e : TelemetryEvent.t) : PyValue :=
  dict_get (TelemetryEvent.data e) "clickCount" (PNum 0).
Definition time_on_page (e : TelemetryEvent.t) : PyValue :=
  dict_get (TelemetryEvent.data e) "timeOnPage" (PNum 0).
Definition fields_completed (e : TelemetryEvent.t) : PyValue :=
  dict_get (TelemetryEvent.data e) "fieldsCompleted" (PNum 0).
Definition total_fields (e : TelemetryEvent.t) : PyValue :=
  dict_get (TelemetryEvent.data e) "totalFields" (PNum 1).

(** A load that takes more than three seconds *)
Definition slow_load (e : TelemetryEvent.t) : Prop :=
  (3000 < number_of (load_time e))%Q.

Section Findings.
Context `{PyFormat}.

(** The finding for a slow page load, as the table of rules gives it *)
Definition load_finding (e : TelemetryEvent.t) : FrictionPattern.t :=
  {| FrictionPattern.pattern_type := "performance_degradation";
     FrictionPattern.severity := py_min 1 (number_of (load_time e) / 10000);
     FrictionPattern.timestamp := TelemetryEvent.timestamp e;
     FrictionPattern.description :=
       "Slow page load detected: " +:+ py_str (load_time e) +:+ "ms";
     FrictionPattern.event_id := TelemetryEvent.eventId e |}.

Definition latency_finding (e : TelemetryEvent.t) : FrictionPattern.t :=
  {| FrictionPattern.pattern_type := "performance_degradation";
     FrictionPattern.severity := py_min 1 (number_of (latency e) / 5000);
     FrictionPattern.timestamp := TelemetryEvent.timestamp e;
     FrictionPattern.description :=
       "High latency for "
       +:+ py_str (dict_get (TelemetryEvent.data e) "operation" (PStr "unknown"))
       +:+ ": " +:+ py_str (latency e) +:+ "ms";
     FrictionPattern.event_id := TelemetryEvent.eventId e |}.

Definition error_finding (e : TelemetryEvent.t) : FrictionPattern.t :=
  {| FrictionPattern.pattern_type := "expectation_mismatch";
     FrictionPattern.severity := 0.8;
     FrictionPattern.timestamp := TelemetryEvent.timestamp e;
     FrictionPattern.description :=
       "Error encountered: "
       +:+ py_str (dict_get (TelemetryEvent.data e) "errorType" (PStr "unknown"));
     FrictionPattern.event_id := TelemetryEvent.eventId e |}.

(** The finding for repeated reversals, anchored to the reversal [r] *)
Definition repeated_reversal_finding (count : nat) (r : TelemetryEvent.t)
    : FrictionPattern.t :=
  {| FrictionPattern.pattern_type := "expectation_mismatch";
     FrictionPattern.severity := 0.6;
     FrictionPattern.timestamp := TelemetryEvent.timestamp r;
     FrictionPattern.description :=
       "Multiple navigation reversals (" +:+ pretty count
       +:+ ") suggest unmet expectations";
     FrictionPattern.event_id := TelemetryEvent.eventId r |}.
End Findings.

(** An expectation-mismatch finding of severity 0.6 *)
Definition is_repeated_reversal (p : FrictionPattern.t) : Prop :=
  FrictionPattern.pattern_type p = "expectation_mismatch" ∧
  (FrictionPattern.severity p == 0.6)%Q.

#[global] Instance is_repeated_reversal_dec p : Decision (is_repeated_reversal p).
Proof. unfold is_repeated_reversal. apply _. Defined.

(** A way of printing payload values, for the sample runs *)
Definition sample_format : PyFormat :=
  λ v, match v with
       | PNum q => pretty (Qnum q) +:+ "/" +:+ pretty (Zpos (Qden q))
       | PStr s => s
       | PNone => "None"
       end.

(** A session of one page load that took [q] milliseconds *)
Definition load_event (q : Q) : TelemetryEvent.t :=
  sample_event PERFORMANCE_LOAD "load" 1000 1 [("loadTime", PNum q)].
Definition load_session (q : Q) : ReconstructedSession.t :=
  ReconstructedSession.__init__ 0 "s1" [load_event q].

(** Sessions of one event, to look at a rule on chosen payload numbers *)
Definition latency_session (q : Q) : ReconstructedSession.t :=
  ReconstructedSession.__init__ 0 "s1"
    [sample_event PERFORMANCE_LATENCY "lat" 1000 1 [("latency", PNum q)]].
Definition click_session (q : Q) : ReconstructedSession.t :=
  ReconstructedSession.__init__ 0 "s1"
    [sample_event FRICTION_RAPID_CLICK "click" 1000 1 [("clickCount", PNum q)]].
Definition abandonment_session (completed total : Q) : ReconstructedSession.t :=
  ReconstructedSession.__init__ 0 "s1"
    [sample_event FRICTION_FORM_ABANDONMENT "form" 1000 1
       [("fieldsCompleted", PNum completed); ("totalFields", PNum total)]].
(** One event of the given type with an empty payload *)
Definition bare_session (type : EventType) : ReconstructedSession.t :=
  ReconstructedSession.__init__ 0 "s1" [sample_event type "bare" 1000 1 []].

(** The rule returned findings of these severities, in this order *)
Definition severities_are (found : result (list FrictionPattern.t)) (expected : list Q)
    : Prop :=
  match found with
  | Ok patterns => Forall2 Qeq (FrictionPattern.severity <$> patterns) expected
  | Raise _ => False
  end.

(** A hypothesis that triggers the struggling-user recommendation *)
Definition is_struggling (h : IntentHypothesis.t) : Prop :=
  Qltb 0.7 (IntentHypothesis.confidence h)
  && (str_contains "abandon" (str_lower (IntentHypothesis.hypothesis h))
      || str_contains "unable" (str_lower (IntentHypothesis.hypothesis h))).

#[global] Instance is_struggling_dec h : Decision (is_struggling h).
Proof. unfold is_struggling. apply _. Defined.

Definition struggling_recommendations (hs : list IntentHypothesis.t) : list string :=
  (λ h, InsightGenerator.rec_struggling (IntentHypothesis.hypothesis h))
  <$> filter is_struggling hs.

(** The recommendations tied to a type of friction *)
Definition type_recommendations : list string :=
  [InsightGenerator.rec_critical_performance; InsightGenerator.rec_monitor_performance;
   InsightGenerator.rec_visual_feedback; InsightGenerator.rec_simplify_forms;
   InsightGenerator.rec_align_ui].

(** A session without friction, and a collaborator that answers with one
    confident hypothesis about an abandoned checkout *)
Definition smooth_session : ReconstructedSession.t :=
  ReconstructedSession.__init__ 0 "s1"
    [sample_event VIEW_TRANSITION "v1" 10 1 []; sample_event ACTION_CLICK "c1" 20 2 []].

Definition abandoned_checkout_collaborator
    : ReconstructedSession.t → list FrictionPattern.t → result (list IntentHypothesis.t) :=
  λ session _,
    Ok [IntentHypothesis.mk "User abandoned the checkout" 0.9 ["left at payment"]
          (end_or_start session)].

(** A session without events *)
Definition empty_session : ReconstructedSession.t :=
  ReconstructedSession.__init__ 0 "s1" [].

(** An inferrer without a key, and a collaborator that fails *)
Definition unconfigured_inferrer : IntentInferrer.t :=
  IntentInferrer.__init__ None None (λ _, Raise (ServiceError "unreachable")).

Definition failing_collaborator
    : ReconstructedSession.t → list FrictionPattern.t → result (list IntentHypothesis.t) :=
  λ _ _, Raise (ServiceError "timed out").

(** The hypothesis [infer_intent] itself answers with when its call fails *)
Definition inferrer_fallback (session : ReconstructedSession.t) : IntentHypothesis.t :=
  {| IntentHypothesis.hypothesis := "Unable to determine intent (analysis error)";
     IntentHypothesis.confidence := 0;
     IntentHypothesis.supporting_evidence := ["Error during analysis"];
     IntentHypothesis.timestamp := end_or_start session |}.

Definition no_metrics_error : Exception :=
  AttributeError "'ReconstructedSession' object has no attribute 'metrics'".

(** What [event.type.value] raises *)
Definition no_value_error : Exception :=
  AttributeError "'str' object has no attribute 'value'".

(** A session of 21 page views numbered 1 to 21, titled "page 1" to
    "page 21" *)
Definition numbered_event (i : nat) : TelemetryEvent.t :=
  sample_event VIEW_TRANSITION (pretty i) (Z.of_nat i * 1000) (Z.of_nat i) [].

Definition long_session : ReconstructedSession.t :=
  ReconstructedSession.__init__ 0 "s1" (numbered_event <$> seq 1 21).

(** More sample data: a reconstructor that has seen one page view; two
    events in order, out of order, and in order with the clock running
    backwards; loads and a latency event; three reversals and an error *)
Definition one_view_reconstructor : SessionReconstructor.t :=
  (add_batches [[sample_event VIEW_TRANSITION "a" 10 1 []]] SessionReconstructor.__init__).2.

Definition ordered_events : list TelemetryEvent.t :=
  [sample_event VIEW_TRANSITION "a" 10 1 []; sample_event ACTION_CLICK "b" 20 2 []].
Definition out_of_order_events : list TelemetryEvent.t :=
  [sample_event ACTION_CLICK "b" 20 2 []; sample_event VIEW_TRANSITION "a" 10 1 []].
Definition clock_skew_events : list TelemetryEvent.t :=
  [sample_event VIEW_TRANSITION "a" 20 1 []; sample_event ACTION_CLICK "b" 10 2 []].

Definition loads_session : ReconstructedSession.t :=
  ReconstructedSession.__init__ 0 "s1"
    [sample_event PERFORMANCE_LOAD "l2" 30 3 [("loadTime", PNum 12000)];
     sample_event PERFORMANCE_LOAD "l1" 20 2 [("loadTime", PNum 3000)];
     sample_event PERFORMANCE_LATENCY "t1" 10 1 []].

Definition reversal_events : list TelemetryEvent.t :=
  [sample_event FRICTION_NAVIGATION_REVERSAL "r3" 30 3 [];
   sample_event FRICTION_ERROR "x" 15 4 [];
   sample_event FRICTION_NAVIGATION_REVERSAL "r1" 10 1 [];
   sample_event FRICTION_NAVIGATION_REVERSAL "r2" 20 2 []].

(** The event ids of the findings a rule returned *)
Definition finding_ids (found : result (list FrictionPattern.t)) : list string :=
  match found with
  | Ok patterns => FrictionPattern.event_id <$> patterns
  | Raise _ => []
  end.

(** Payload numbers as a client measures them: nothing negative, and no
    more fields completed than there are *)
Definition plausible_payload (e : TelemetryEvent.t) : Prop :=
  (0 <= number_of (latency e))%Q ∧
  (0 <= number_of (click_count e))%Q ∧
  (0 <= number_of (fields_completed e))%Q ∧
  (number_of (fields_completed e) <= number_of (total_fields e))%Q.

(** The types [get_interactions] and [get_friction_events] look for *)
Definition interaction_types : list EventType :=
  [ACTION_CLICK; ACTION_SUBMIT; ACTION_INPUT].
Definition friction_types : list EventType :=
  [FRICTION_RAPID_CLICK; FRICTION_NAVIGATION_REVERSAL;
   FRICTION_ERROR; FRICTION_FORM_ABANDONMENT].

(** A reversal after less than two seconds on the page *)
Definition quick_reversal (e : TelemetryEvent.t) : Prop :=
  (number_of (time_on_page e) < 2000)%Q.

(** A magnitude far from the bound of the floats *)
Definition ordinary_size (q : Q) : Prop := (Qabs q < inject_Z (2 ^ 1000))%Q.

(** The payload of a form abandonment can be computed with: the total is a
    number, and when it is positive (otherwise the count of completed
    fields is not computed with) that count is a number too, and the two
    numbers and their quotient are of ordinary size *)
Definition abandonment_computable (e : TelemetryEvent.t) : Prop :=
  is_number (total_fields e) ∧
  ((0 < number_of (total_fields e))%Q →
   is_number (fields_completed e) ∧
   ordinary_size (number_of (fields_completed e)) ∧
   ordinary_size (number_of (total_fields e)) ∧
   ordinary_size (number_of (fields_completed e) / number_of (total_fields e))).

(** The share of completed fields as the rule computes it *)
Definition completion_rate (e : TelemetryEvent.t) : Q :=
  if Qltb 0 (number_of (total_fields e))
  then (number_of (fields_completed e) / number_of (total_fields e))%Q
  else 0%Q.

Section MoreFindings.
Context `{PyFormat}.

Definition click_finding (e : TelemetryEvent.t) : FrictionPattern.t :=
  {| FrictionPattern.pattern_type := "affordance_confusion";
     FrictionPattern.severity := py_min 1 (number_of (click_count e) / 10);
     FrictionPattern.timestamp := TelemetryEvent.timestamp e;
     FrictionPattern.description :=
       "Rapid clicking on '"
       +:+ py_str (dict_get (TelemetryEvent.data e) "target" (PStr "unknown"))
       +:+ "' suggests unclear affordance or missing feedback";
     FrictionPattern.event_id := TelemetryEvent.eventId e |}.

Definition quick_reversal_finding (e : TelemetryEvent.t) : FrictionPattern.t :=
  {| FrictionPattern.pattern_type := "affordance_confusion";
     FrictionPattern.severity := 0.7;
     FrictionPattern.timestamp := TelemetryEvent.timestamp e;
     FrictionPattern.description :=
       "Quick navigation reversal suggests user didn't find expected content";
     FrictionPattern.event_id := TelemetryEvent.eventId e |}.

Definition abandonment_finding (e : TelemetryEvent.t) : FrictionPattern.t :=
  {| FrictionPattern.pattern_type := "cognitive_overload";
     FrictionPattern.severity := 1 - completion_rate e;
     FrictionPattern.timestamp := TelemetryEvent.timestamp e;
     FrictionPattern.description :=
       "Form abandoned after completing " +:+ py_str (fields_completed e)
       +:+ "/" +:+ py_str (total_fields e) +:+ " fields";
     FrictionPattern.event_id := TelemetryEvent.eventId e |}.
End MoreFindings.

(** Sessions for the samples: reversals after 1999 ms and after 2000 ms, a
    burst of 25 clicks; a form with no fields, one whose total is not
    positive while the completed count is text, and a completed form *)
Definition affordance_session : ReconstructedSession.t :=
  ReconstructedSession.__init__ 0 "s1"
    [sample_event FRICTION_NAVIGATION_REVERSAL "slow" 30 3 [("timeOnPage", PNum 2000)];
     sample_event FRICTION_RAPID_CLICK "burst" 20 2 [("clickCount", PNum 25)];
     sample_event FRICTION_NAVIGATION_REVERSAL "quick" 10 1 [("timeOnPage", PNum 1999)]].

Definition abandonment_sample_session : ReconstructedSession.t :=
  ReconstructedSession.__init__ 0 "s1"
    [sample_event FRICTION_FORM_ABANDONMENT "none" 10 1
       [("fieldsCompleted", PStr "n/a"); ("totalFields", PNum 0)];
     sample_event FRICTION_FORM_ABANDONMENT "all" 20 2
       [("fieldsCompleted", PNum 4); ("totalFields", PNum 4)]].

(** The event types the friction rules look at *)
Definition classified_types : list EventType :=
  [PERFORMANCE_LOAD; PERFORMANCE_LATENCY; FRICTION_RAPID_CLICK;
   FRICTION_NAVIGATION_REVERSAL; FRICTION_ERROR; FRICTION_FORM_ABANDONMENT].

(** The four kinds of finding *)
Definition pattern_types : list string :=
  ["performance_degradation"; "affordance_confusion";
   "cognitive_overload"; "expectation_mismatch"].

(** The event carries, under a key its rule computes with, something that
    is not a number *)
Definition unreadable_payload (e : TelemetryEvent.t) : bool :=
  match TelemetryEvent.type e with
  | PERFORMANCE_LOAD => negb (is_number (load_time e))
  | PERFORMANCE_LATENCY => negb (is_number (latency e))
  | FRICTION_RAPID_CLICK => negb (is_number (click_count e))
  | FRICTION_NAVIGATION_REVERSAL => negb (is_number (time_on_page e))
  | FRICTION_FORM_ABANDONMENT => negb (is_number (total_fields e))
  | _ => false
  end.

(** What a rule can raise on a payload: [TypeError] on something that is
    not a number, [OverflowError] on a number too large to divide *)
Definition is_payload_error (e : Exception) : Prop :=
  match e with TypeError _ | OverflowError _ => True | _ => False end.

(** A number the rules can divide: its magnitude is below the bound of
    the floats *)
Definition divisible (v : PyValue) : Prop :=
  is_number v ∧ (Qabs (number_of v) < float_overflow)%Q.

(** The finding is anchored to the event *)
Definition anchored_to (p : FrictionPattern.t) (e : TelemetryEvent.t) : Prop :=
  FrictionPattern.event_id p = TelemetryEvent.eventId e ∧
  FrictionPattern.timestamp p = TelemetryEvent.timestamp e.

(** A session of a load of nine seconds and a latency event whose latency
    arrived as text *)
Definition nine_second_load : TelemetryEvent.t :=
  sample_event PERFORMANCE_LOAD "l" 10 1 [("loadTime", PNum 9000)].

Definition text_latency_session : ReconstructedSession.t :=
  ReconstructedSession.__init__ 0 "s1"
    [nine_second_load;
     sample_event PERFORMANCE_LATENCY "t" 20 2 [("latency", PStr "n/a")]].

(** A session whose click count arrived as text *)
Definition text_count_session : ReconstructedSession.t :=
  ReconstructedSession.__init__ 0 "s1"
    [sample_event PERFORMANCE_LOAD "l" 10 1 [("loadTime", PNum 9000)];
     sample_event FRICTION_RAPID_CLICK "c" 20 2 [("clickCount", PStr "many")]].

(** A key the [client] property accepts *)
Definition usable_key (key : option string) : bool :=
  match key with
  | Some k => negb (bool_decide (k = "")) && negb (bool_decide (k = "sk-dummy-key-for-testing"))
  | None => false
  end.

(** The key in force: the explicit one unless it is missing or empty *)
Definition effective_key (api_key env_api_key : option string) : option string :=
  match api_key with
  | Some "" | None => env_api_key
  | Some k => Some k
  end.

(** What [infer_intent] sends to the service for a session whose
    narrative is [event_summary] *)
Definition prompt_of (session : ReconstructedSession.t)
    (friction_patterns : list FrictionPattern.t) (event_summary : string)
    : IntentInferrer.Prompt :=
  {| IntentInferrer.prompt_duration_ms := ReconstructedSession.get_duration_ms session;
     IntentInferrer.prompt_page_views := ReconstructedSession.get_page_views session;
     IntentInferrer.prompt_interactions := ReconstructedSession.get_interactions session;
     IntentInferrer.prompt_friction_events := length friction_patterns;
     IntentInferrer.prompt_event_summary := event_summary;
     IntentInferrer.prompt_friction_summary :=
       IntentInferrer._prepare_friction_summary friction_patterns |}.

(** The hypothesis made of one entry of the reply *)
Definition hypothesis_of_reply (session : ReconstructedSession.t)
    (reply : IntentInferrer.Reply) : IntentHypothesis.t :=
  {| IntentHypothesis.hypothesis := IntentInferrer.intent reply;
     IntentHypothesis.confidence := IntentInferrer.reply_confidence reply;
     IntentHypothesis.supporting_evidence := IntentInferrer.evidence reply;
     IntentHypothesis.timestamp := end_or_start session |}.

(** The patterns of one type, and their mean severity *)
Definition of_type (pattern_type : string) (fps : list FrictionPattern.t)
    : list FrictionPattern.t :=
  filter (λ p, FrictionPattern.pattern_type p = pattern_type) fps.

Definition mean_severity (fps : list FrictionPattern.t) : Q :=
  (py_sum (FrictionPattern.severity <$> fps) / inject_Z (Z.of_nat (length fps)))%Q.

(** The recommendation for a type of friction, if the type is present *)
Definition recommend_if_present (pattern_type recommendation : string)
    (fps : list FrictionPattern.t) : list string :=
  match of_type pattern_type fps with
  | [] => []
  | _ => [recommendation]
  end.

Definition performance_recommendation (fps : list FrictionPattern.t) : list string :=
  match of_type "performance_degradation" fps with
  | [] => []
  | group =>
      if Qltb 0.7 (mean_severity group)
      then [InsightGenerator.rec_critical_performance]
      else [InsightGenerator.rec_monitor_performance]
  end.

Definition general_recommendation (fps : list FrictionPattern.t) : list string :=
  if bool_decide (length fps = 0) then [InsightGenerator.rec_smooth]
  else if bool_decide (5 ≤ length fps) then [InsightGenerator.rec_high_friction]
  else [].

(** An inferrer with a key whose service overstates its confidence *)
Definition overconfident_inferrer : IntentInferrer.t :=
  IntentInferrer.__init__ None (Some "sk-live")
    (λ _, Ok [IntentInferrer.mkReply "Compare prices" 1.5 ["two tabs"];
              IntentInferrer.mkReply "Buy" 0.2 []]).

(** Globals for the samples: one buffered page view, and the generator
    around an inferrer without a key, or around a collaborator that fails *)
Definition sample_globals : Globals.t IntentInferrer.t :=
  Globals.mk one_view_reconstructor (InsightGenerator.__init__ unconfigured_inferrer).

Definition failing_globals
    : Globals.t (ReconstructedSession.t → list FrictionPattern.t
                 → result (list IntentHypothesis.t)) :=
  Globals.mk one_view_reconstructor (InsightGenerator.__init__ failing_collaborator).

(** A way of printing exceptions, for the sample runs *)
Definition sample_exception_format : ExceptionFormat :=
  λ e, match e with
       | ValueError msg | AttributeError msg | TypeError msg | IndexError msg
       | ValidationError msg | OverflowError msg | ServiceError msg => msg
       end.

Definition sample_batch : EventBatch.t :=
  {| EventBatch.schemaVersion := "1.0";
     EventBatch.batchId := "b1";
     EventBatch.timestamp := 50;
     EventBatch.events :=
       [sample_event VIEW_TRANSITION "a" 10 1 []; sample_event ACTION_CLICK "b" 20 2 []] |}.

(** * Properties *)

(** ** The small monads *)

Ltac run_state :=
  unfold mbind, mret, State_bind, State_ret, gets, modify; cbn.

Ltac run_result :=
  unfold mbind, mret, result_bind, result_ret; cbn.

Lemma for_each_cons {S A} (x : A) (xs : list A) (body : A → State S unit) (s : S) :
  for_each (x :: xs) body s = for_each xs body (body x s).2.
Proof. cbn. unfold mbind, State_bind. by destruct (body x s). Qed.

Lemma for_each_app {S A} (xs ys : list A) (body : A → State S unit) (s : S) :
  for_each (xs ++ ys) body s = for_each ys body (for_each xs body s).2.
Proof.
  revert s. induction xs as [|x xs IH]; intros s; [done|].
  by rewrite <- app_comm_cons, !for_each_cons, IH.
Qed.

(** ** [sorted] is a stable ascending sort *)

Section SortedFacts.
Context {A : Type} (key : A → Z).

Lemma insert_by_Permutation x l : insert_by key x l ≡ₚ x :: l.
Proof.
  induction l as [|y l IH]; simpl; [done|].
  destruct (key x <=? key y)%Z; [done|].
  rewrite IH. apply perm_swap.
Qed.

Lemma sorted_Permutation l : sorted key l ≡ₚ l.
Proof.
  induction l as [|x l IH]; simpl; [done|].
  rewrite insert_by_Permutation. by f_equiv.
Qed.

Lemma insert_by_HdRel y x l :
  key_le key y x → HdRel (key_le key) y l → HdRel (key_le key) y (insert_by key x l).
Proof.
  intros Hyx Hhd. destruct l as [|z l]; simpl; [by constructor|].
  inversion_clear Hhd. destruct (key x <=? key z)%Z; by constructor.
Qed.

Lemma insert_by_Sorted x l :
  Sorted (key_le key) l → Sorted (key_le key) (insert_by key x l).
Proof.
  induction 1 as [|y l Hs IH Hhd]; simpl; [by repeat constructor|].
  destruct (Z.leb_spec (key x) (key y)) as [Hle|Hlt].
  - constructor; [by constructor | by constructor].
  - constructor; [done|]. apply insert_by_HdRel; [|done]. unfold key_le. lia.
Qed.

Lemma sorted_Sorted l : Sorted (key_le key) (sorted key l).
Proof. induction l; simpl; [constructor | by apply insert_by_Sorted]. Qed.

(** Items of equal key keep their relative order. *)
Lemma filter_insert_by k x l :
  filter (λ a, key a = k) (insert_by key x l) = filter (λ a, key a = k) (x :: l).
Proof.
  induction l as [|y l IH]; simpl; [done|].
  destruct (Z.leb_spec (key x) (key y)) as [Hle|Hlt]; [done|].
  rewrite (filter_cons _ y), IH, !filter_cons.
  repeat case_decide; try done. lia.
Qed.

Lemma sorted_stable k l :
  filter (λ a, key a = k) (sorted key l) = filter (λ a, key a = k) l.
Proof.
  induction l as [|x l IH]; simpl; [done|].
  by rewrite filter_insert_by, !filter_cons, IH.
Qed.

(** A list that is already in order is returned as it is. *)
Lemma sorted_id l : Sorted (key_le key) l → sorted key l = l.
Proof.
  induction 1 as [|x l Hs IH Hhd]; simpl; [done|].
  rewrite IH. destruct Hhd as [|y l Hxy]; simpl; [done|].
  unfold key_le in Hxy. by destruct (Z.leb_spec (key x) (key y)); [|lia].
Qed.

Lemma sorted_nil_inv l : sorted key l = [] → l = [].
Proof.
  intros Hnil. apply Permutation_nil_r. rewrite <- Hnil. by rewrite sorted_Permutation.
Qed.

(** The last item of a list in order has the largest key. *)
Lemma Sorted_last_max l x y :
  Sorted (key_le key) l → last l = Some y → x ∈ l → key_le key x y.
Proof.
  intros Hs%Sorted_StronglySorted; [|intros a b c; unfold key_le; lia].
  intros Hlast Hin. apply last_Some in Hlast as [l' ->].
  apply elem_of_app in Hin as [Hin|Hin%list_elem_of_singleton].
  - by eapply StronglySorted_app_1_elem_of; [done..|apply list_elem_of_singleton].
  - subst. unfold key_le. lia.
Qed.

(** The first item of a list in order has the smallest key. *)
Lemma Sorted_head_min l x y :
  Sorted (key_le key) l → head l = Some x → y ∈ l → key_le key x y.
Proof.
  intros Hs%Sorted_StronglySorted; [|intros a b c; unfold key_le; lia].
  destruct l as [|z l]; [done|]. intros [= ->] Hin.
  apply StronglySorted_inv in Hs as [_ Hall].
  apply elem_of_cons in Hin as [->|Hin]; [unfold key_le; lia|].
  by eapply Forall_forall in Hall.
Qed.
End SortedFacts.

(** ** Session reconstructor *)

Section Reconstructor.
Import TelemetryEvent.
Implicit Types (self : SessionReconstructor.t) (e : TelemetryEvent.t).

Lemma dict_get_insert_eq {V} (d : gmap string V) k v default :
  dict_get (<[k := v]> d) k default = v.
Proof. unfold dict_get. by rewrite lookup_insert_eq. Qed.

Lemma dict_get_insert_ne {V} (d : gmap string V) k k' v default :
  k ≠ k' → dict_get (<[k := v]> d) k' default = dict_get d k' default.
Proof. intros Hne. unfold dict_get. by rewrite lookup_insert_ne. Qed.

(** One iteration of [add_events] puts the event at the end of the buffer
    of its session, which starts empty. *)
Lemma add_event_sessions e self :
  SessionReconstructor.sessions (SessionReconstructor.add_event e self).2
  = <[sessionId e :=
        dict_get (SessionReconstructor.sessions self) (sessionId e) [] ++ [e]]>
      (SessionReconstructor.sessions self).
Proof.
  destruct self as [m]. unfold SessionReconstructor.add_event, dict_get.
  run_state. case_bool_decide as Hknown; cbn.
  - destruct Hknown as [l Hl]. rewrite Hl.
    apply map_eq; intros k. destruct (decide (sessionId e = k)) as [<-|Hne].
    + by rewrite lookup_alter_eq, lookup_insert_eq, Hl.
    + by rewrite lookup_alter_ne, lookup_insert_ne.
  - apply eq_None_not_Some in Hknown. rewrite Hknown.
    by rewrite alter_insert_eq.
Qed.

Lemma add_events_buffer events self sid :
  dict_get (SessionReconstructor.sessions (SessionReconstructor.add_events events self).2) sid []
  = dict_get (SessionReconstructor.sessions self) sid []
    ++ filter (λ e, sessionId e = sid) events.
Proof.
  unfold SessionReconstructor.add_events.
  revert self. induction events as [|e events IH]; intros self.
  - by rewrite filter_nil, app_nil_r.
  - rewrite for_each_cons, IH, add_event_sessions, filter_cons.
    case_decide as Hsid.
    + subst sid. by rewrite dict_get_insert_eq, <- app_assoc.
    + by rewrite dict_get_insert_ne.
Qed.

Lemma add_batches_buffer batches self sid :
  dict_get (SessionReconstructor.sessions (add_batches batches self).2) sid []
  = dict_get (SessionReconstructor.sessions self) sid [] ++ arrivals batches sid.
Proof.
  unfold add_batches, arrivals.
  revert self. induction batches as [|b batches IH]; intros self.
  - by rewrite app_nil_r.
  - rewrite for_each_cons, IH, add_events_buffer. cbn [concat].
    by rewrite filter_app, app_assoc.
Qed.

Lemma get_session_events now sid self :
  ReconstructedSession.events (SessionReconstructor.get_session now sid self).1
  = sorted sequenceNumber (dict_get (SessionReconstructor.sessions self) sid []).
Proof. done. Qed.

(** C4. Whatever the order of arrival, and over any number of calls of
    [add_events], the events [get_session] returns for a session id are
    in ascending order of sequence number, are exactly the events that
    arrived for that id, and events of equal sequence number stand in
    their order of arrival. The functions are total, so nothing is
    raised for ties. *)
Theorem get_session_sorted_stable (batches : list (list TelemetryEvent.t))
    (now : Z) (sid : string) :
  let self := (add_batches batches SessionReconstructor.__init__).2 in
  let session := (SessionReconstructor.get_session now sid self).1 in
  Sorted seq_le (ReconstructedSession.events session) ∧
  ReconstructedSession.events session ≡ₚ arrivals batches sid ∧
  ∀ n, filter (λ e, sequenceNumber e = n) (ReconstructedSession.events session)
       = filter (λ e, sequenceNumber e = n) (arrivals batches sid).
Proof.
  intros self session. subst session self.
  rewrite get_session_events, add_batches_buffer. cbn [app dict_get].
  unfold SessionReconstructor.__init__, dict_get; cbn.
  rewrite lookup_empty; cbn.
  split_and!.
  - apply sorted_Sorted.
  - apply sorted_Permutation.
  - intros n. apply sorted_stable.
Qed.

(** The same from any state of the buffer: what was buffered before comes
    first among equal sequence numbers. *)
Lemma buffered_then_arrivals_sorted self batches now sid :
  let buffered := dict_get (SessionReconstructor.sessions self) sid [] in
  let session :=
    (SessionReconstructor.get_session now sid (add_batches batches self).2).1 in
  ReconstructedSession.events session
  = sorted sequenceNumber (buffered ++ arrivals batches sid).
Proof. cbn zeta. by rewrite get_session_events, add_batches_buffer. Qed.

(** Two calls, out of order, with a tie on sequence number 2: "b" arrived
    before "c" and stays before it. *)
Example get_session_ties :
  eventId <$> ReconstructedSession.events
    (SessionReconstructor.get_session 0 "s1"
       (add_batches [[sample_event ACTION_CLICK "d" 40 3 [];
                      sample_event ACTION_CLICK "b" 20 2 []];
                     [sample_event ACTION_CLICK "c" 30 2 [];
                      sample_event VIEW_TRANSITION "a" 10 1 []]]
          SessionReconstructor.__init__).2).1
  = ["a"; "b"; "c"; "d"].
Proof. vm_compute. reflexivity. Qed.

(** C10. The three queries return the reconstructor as they found it;
    for an id that was never buffered [get_session] gives a session
    without events and adds no entry, and the session count is the same
    after the call as before. *)
Theorem queries_leave_buffer_unchanged self (now : Z) (sid : string) :
  (SessionReconstructor.get_session now sid self).2 = self ∧
  (SessionReconstructor.get_all_sessions now self).2 = self ∧
  (SessionReconstructor.get_session_count self).2 = self ∧
  (SessionReconstructor.get_session_count
     (SessionReconstructor.get_session now sid self).2).1
  = (SessionReconstructor.get_session_count self).1 ∧
  (SessionReconstructor.sessions self !! sid = None →
     ReconstructedSession.events (SessionReconstructor.get_session now sid self).1 = [] ∧
     SessionReconstructor.sessions (SessionReconstructor.get_session now sid self).2 !! sid
     = None).
Proof.
  split_and!; try done.
  intros Hunknown. split; [|done].
  rewrite get_session_events. unfold dict_get. by rewrite Hunknown.
Qed.

Lemma queries_leave_buffer_unchanged_witness :
  ReconstructedSession.events
    (SessionReconstructor.get_session 0 "other" one_view_reconstructor).1 = [] ∧
  (SessionReconstructor.get_session_count
     (SessionReconstructor.get_session 0 "other" one_view_reconstructor).2).1 = 1.
Proof.
  destruct (queries_leave_buffer_unchanged one_view_reconstructor 0 "other")
    as (_ & _ & _ & Hcount & Hunknown).
  split.
  - apply Hunknown. vm_compute. reflexivity.
  - rewrite Hcount. vm_compute. reflexivity.
Defined.
End Reconstructor.

(** ** Times of a reconstructed session *)

Section SessionTimes.
Import TelemetryEvent.

Lemma init_events_in_order now sid evs :
  Sorted seq_le evs →
  ReconstructedSession.events (ReconstructedSession.__init__ now sid evs) = evs.
Proof. intros Hs. cbn. by apply sorted_id. Qed.

(** C1, as far as the constructor supports it. When the events are handed
    over in ascending order of sequence number, a non-empty session starts
    at the timestamp of the first event of its ordered sequence and ends
    at the timestamp of the last one; when moreover the timestamps ascend
    along that sequence, every event lies between the two times. *)
Theorem session_times_in_order (now : Z) (sid : string) (evs : list TelemetryEvent.t) :
  evs ≠ [] →
  Sorted seq_le evs →
  let s := ReconstructedSession.__init__ now sid evs in
  starts_at_first s ∧ ends_at_last s ∧
  (Sorted time_le (ReconstructedSession.events s) → times_bound_events s).
Proof.
  intros Hne Hseq s.
  assert (Hev : ReconstructedSession.events s = evs) by by apply init_events_in_order.
  unfold starts_at_first, ends_at_last, times_bound_events. rewrite Hev.
  destruct (head evs) as [first|] eqn:Hhead; [|by destruct evs].
  destruct (last evs) as [final|] eqn:Hlast;
    [|by apply last_None in Hlast].
  cbn. rewrite Hhead, Hlast.
  split_and!; [done..|].
  intros Htime e Hin. split.
  - by apply (Sorted_head_min timestamp evs first e).
  - exists (timestamp final). split; [done|].
    by apply (Sorted_last_max timestamp evs e final).
Qed.

Lemma session_times_in_order_witness :
  starts_at_first (ReconstructedSession.__init__ 0 "s1" ordered_events) ∧
  ends_at_last (ReconstructedSession.__init__ 0 "s1" ordered_events) ∧
  times_bound_events (ReconstructedSession.__init__ 0 "s1" ordered_events).
Proof.
  assert (Hseq : Sorted seq_le ordered_events).
  { repeat constructor. unfold seq_le, key_le. vm_compute. discriminate. }
  assert (Hne : ordered_events ≠ []) by discriminate.
  destruct (session_times_in_order 0 "s1" ordered_events Hne Hseq)
    as (Hfirst & Hlast & Hbound).
  split_and!; [exact Hfirst | exact Hlast |].
  apply Hbound. repeat constructor. unfold time_le, key_le. vm_compute. discriminate.
Defined.

(** C1 as stated fails in two ways. Events that arrive out of order: the
    session takes its times from the first and the last arrival, not from
    the ordered sequence. Events that arrive in order but whose timestamps
    do not ascend: the two times do not bound the events. *)
Lemma session_times_counterexample :
  (eventId <$> ReconstructedSession.events
                 (ReconstructedSession.__init__ 0 "s1" out_of_order_events) = ["a"; "b"] ∧
   timestamp <$> ReconstructedSession.events
                   (ReconstructedSession.__init__ 0 "s1" out_of_order_events) = [10%Z; 20%Z] ∧
   ReconstructedSession.start_time
     (ReconstructedSession.__init__ 0 "s1" out_of_order_events) = 20%Z ∧
   ReconstructedSession.end_time
     (ReconstructedSession.__init__ 0 "s1" out_of_order_events) = Some 10%Z ∧
   ¬ starts_at_first (ReconstructedSession.__init__ 0 "s1" out_of_order_events) ∧
   ¬ ends_at_last (ReconstructedSession.__init__ 0 "s1" out_of_order_events) ∧
   ¬ times_bound_events (ReconstructedSession.__init__ 0 "s1" out_of_order_events)) ∧
  (Sorted seq_le clock_skew_events ∧
   ¬ times_bound_events (ReconstructedSession.__init__ 0 "s1" clock_skew_events)).
Proof.
  split; split_and!; try (vm_compute; reflexivity); try (vm_compute; discriminate).
  - intros Hbound.
    destruct (Hbound (sample_event VIEW_TRANSITION "a" 10 1 [])) as [Hstart _].
    + vm_compute. apply list_elem_of_here.
    + vm_compute in Hstart. by apply Hstart.
  - repeat constructor. unfold seq_le, key_le. vm_compute. discriminate.
  - intros Hbound.
    destruct (Hbound (sample_event ACTION_CLICK "b" 10 2 [])) as [Hstart _].
    + vm_compute. apply list_elem_of_further, list_elem_of_here.
    + vm_compute in Hstart. by apply Hstart.
Qed.
End SessionTimes.

(** ** Numbers *)

Lemma Qltb_lt (x y : Q) : Qltb x y = true ↔ (x < y)%Q.
Proof.
  unfold Qltb. rewrite negb_true_iff, <- not_true_iff_false, Qle_bool_iff.
  split; [apply Qnot_le_lt | apply Qlt_not_le].
Qed.

Lemma Qltb_decide (x y : Q) : Qltb x y = bool_decide (x < y)%Q.
Proof.
  case_bool_decide as Hlt; [by apply Qltb_lt|].
  apply not_true_iff_false. by rewrite Qltb_lt.
Qed.

Lemma py_min_le_l (a b : Q) : (py_min a b <= a)%Q.
Proof.
  unfold py_min. destruct (Qltb b a) eqn:Hlt; [|apply Qle_refl].
  by apply Qlt_le_weak, Qltb_lt.
Qed.

Lemma py_min_ge (a b c : Q) : (c <= a)%Q → (c <= b)%Q → (c <= py_min a b)%Q.
Proof. intros Ha Hb. unfold py_min. by destruct (Qltb b a). Qed.

Lemma py_min_Qmin (a b : Q) : (py_min a b == Qmin a b)%Q.
Proof.
  unfold py_min. destruct (Qltb b a) eqn:Hlt.
  - apply Qltb_lt in Hlt. symmetry. by apply Q.min_r, Qlt_le_weak.
  - symmetry. apply Q.min_l. apply Qnot_lt_le. intros Hba%Qltb_lt. congruence.
Qed.

(** ** Loops that collect findings *)

Lemma for_fold_emit {A P} (xs : list A) (acc : list P)
    (body : list P → A → result (list P)) (emit : A → list P) :
  (∀ acc x, x ∈ xs → body acc x = Ok (acc ++ emit x)) →
  for_fold xs acc body = Ok (acc ++ (xs ≫= emit)).
Proof.
  revert acc. induction xs as [|x xs IH]; intros acc Hbody; cbn.
  - by rewrite app_nil_r.
  - rewrite Hbody by apply list_elem_of_here. run_result.
    rewrite IH; [by rewrite <- app_assoc|].
    intros acc' y Hy. apply Hbody. by apply list_elem_of_further.
Qed.

Lemma bind_filter_fmap {A P} (keep : A → Prop) `{∀ x, Decision (keep x)}
    (f : A → P) (xs : list A) :
  xs ≫= (λ x, if decide (keep x) then [f x] else []) = f <$> filter keep xs.
Proof.
  induction xs as [|x xs IH]; [done|].
  rewrite filter_cons, bind_cons, IH. by case_decide.
Qed.

Lemma bind_singleton_fmap {A P} (f : A → P) (xs : list A) :
  xs ≫= (λ x, [f x]) = f <$> xs.
Proof. induction xs as [|x xs IH]; [done|]. by rewrite bind_cons, IH. Qed.

(** A loop whose iterations keep a property of the collected findings *)
Lemma for_fold_Forall {A P} (keeps : P → Prop) (xs : list A) (acc : list P)
    (body : list P → A → result (list P)) (out : list P) :
  (∀ acc x acc', x ∈ xs → body acc x = Ok acc' → Forall keeps acc → Forall keeps acc') →
  Forall keeps acc →
  for_fold xs acc body = Ok out →
  Forall keeps out.
Proof.
  revert acc. induction xs as [|x xs IH]; intros acc Hbody Hacc; cbn.
  - by intros [= <-].
  - destruct (body acc x) as [acc'|err] eqn:Hstep; run_result; [|done].
    apply IH.
    + intros acc0 y acc1 Hy. apply Hbody. by apply list_elem_of_further.
    + eapply Hbody; [apply list_elem_of_here|done..].
Qed.

(** ** True division *)

Lemma py_truediv_Ok_inv (a b r : Q) : py_truediv a b = Ok r → r = (a / b)%Q.
Proof. unfold py_truediv. cbn zeta. case_match; [done|]. by intros [= <-]. Qed.

Lemma py_truediv_Raise (a b : Q) (e : Exception) :
  py_truediv a b = Raise e → is_payload_error e.
Proof. unfold py_truediv. cbn zeta. case_match; [|done]. by intros [= <-]. Qed.

Lemma py_truediv_below (a b : Q) :
  (Qabs (a / b) < float_overflow)%Q → py_truediv a b = Ok (a / b)%Q.
Proof.
  intros Hlt. unfold py_truediv. cbn zeta.
  destruct (Qle_bool _ _) eqn:Hle; [|done].
  apply Qle_bool_iff in Hle. by apply Qle_not_lt in Hle.
Qed.

Lemma Qabs_div_le (q c : Q) : (1 <= c)%Q → (Qabs (q / c) <= Qabs q)%Q.
Proof.
  intros Hc. unfold Qdiv. rewrite Qabs_Qmult.
  rewrite (Qabs_pos (/ c)) by (apply Qinv_le_0_compat; lra).
  apply Qle_shift_div_r; [lra|].
  pose proof (Qabs_nonneg q) as Hq.
  pose proof (Qmult_le_0_compat _ _ Hq (proj1 (Qle_minus_iff 1 c) Hc)) as Hprod.
  lra.
Qed.

(** A number below the bound of the floats divides by the constants of the
    rules without raising. *)
Lemma py_div_divisible (v : PyValue) (c : Q) :
  (1 <= c)%Q → divisible v → py_div v c = Ok (number_of v / c)%Q.
Proof.
  intros Hc [Hnum Hsize]. destruct v as [q| |]; [|done..].
  unfold py_div. cbn. apply py_truediv_below.
  eapply Qle_lt_trans; [by apply Qabs_div_le|done].
Qed.

(** A loop whose iterations, when they return, append what [emit] gives *)
Lemma for_fold_emitted {A P} (xs : list A) (acc out : list P)
    (body : list P → A → result (list P)) (emit : A → list P) :
  (∀ acc x acc', x ∈ xs → body acc x = Ok acc' → acc' = acc ++ emit x) →
  for_fold xs acc body = Ok out →
  out = acc ++ (xs ≫= emit).
Proof.
  revert acc. induction xs as [|x xs IH]; intros acc Hbody; cbn.
  - intros [= <-]. by rewrite app_nil_r.
  - destruct (body acc x) as [acc'|err] eqn:Hstep; run_result; [|done].
    apply Hbody in Hstep as ->; [|apply list_elem_of_here].
    intros Hrest. apply IH in Hrest as ->; [by rewrite <- app_assoc|].
    intros acc0 y acc1 Hy. apply Hbody. by apply list_elem_of_further.
Qed.

(** ** Friction classifier: performance rule *)

Section PerformanceRule.
Context `{PyFormat}.
Import TelemetryEvent.

Lemma is_number_inv (v : PyValue) : is_number v → v = PNum (number_of v).
Proof. by destruct v. Qed.

(** Whenever the rule returns, it returns one finding for each load above
    3000 ms followed by one for each latency event. *)
Lemma detect_performance_degradation_returned (session : ReconstructedSession.t)
    (found : list FrictionPattern.t) :
  let loads := ReconstructedSession.get_events_by_type session PERFORMANCE_LOAD in
  let latencies := ReconstructedSession.get_events_by_type session PERFORMANCE_LATENCY in
  FrictionClassifier._detect_performance_degradation session = Ok found →
  found = (load_finding <$> filter slow_load loads) ++ (latency_finding <$> latencies).
Proof.
  intros loads latencies.
  unfold FrictionClassifier._detect_performance_degradation.
  fold loads latencies.
  destruct (for_fold loads [] _) as [slow|err] eqn:Hloads; run_result; [|done].
  apply (for_fold_emitted _ _ _ _
           (λ e, if decide (slow_load e) then [load_finding e] else [])) in Hloads.
  - intros Hlatencies.
    apply (for_fold_emitted _ _ _ _ (λ e, [latency_finding e])) in Hlatencies.
    + by rewrite Hlatencies, Hloads, bind_filter_fmap, bind_singleton_fmap.
    + intros acc e acc' _. unfold latency_finding. fold (latency e).
      destruct (latency e) as [q| |]; run_result; [|done..].
      unfold py_div. run_result.
      destruct (py_truediv q 5000) as [scaled|] eqn:Hdiv; run_result; [|done].
      apply py_truediv_Ok_inv in Hdiv as ->. by intros [= <-].
  - intros acc e acc' _. unfold load_finding, slow_load. fold (load_time e).
    destruct (load_time e) as [q| |]; run_result; [|done..].
    rewrite Qltb_decide. case_bool_decide; case_decide; try done.
    + unfold py_div. run_result.
      destruct (py_truediv q 10000) as [scaled|] eqn:Hdiv; run_result; [|done].
      apply py_truediv_Ok_inv in Hdiv as ->. by intros [= <-].
    + intros [= <-]. by rewrite app_nil_r.
Qed.

(** With numbers (or nothing) in "loadTime" and "latency" that are below
    the bound of the floats, the rule returns. *)
Lemma detect_performance_degradation_numeric (session : ReconstructedSession.t) :
  let loads := ReconstructedSession.get_events_by_type session PERFORMANCE_LOAD in
  let latencies := ReconstructedSession.get_events_by_type session PERFORMANCE_LATENCY in
  Forall (λ e, divisible (load_time e)) loads →
  Forall (λ e, divisible (latency e)) latencies →
  FrictionClassifier._detect_performance_degradation session
  = Ok ((load_finding <$> filter slow_load loads) ++ (latency_finding <$> latencies)).
Proof.
  intros loads latencies Hloads Hlatencies.
  unfold FrictionClassifier._detect_performance_degradation.
  fold loads latencies.
  rewrite (for_fold_emit loads [] _
             (λ e, if decide (slow_load e) then [load_finding e] else [])).
  - cbn [mbind result_bind app].
    rewrite (for_fold_emit latencies _ _ (λ e, [latency_finding e])).
    + by rewrite bind_filter_fmap, bind_singleton_fmap.
    + intros acc e He. eapply Forall_forall in Hlatencies; [|done].
      unfold latency_finding. fold (latency e).
      by rewrite (py_div_divisible (latency e) 5000).
  - intros acc e He. eapply Forall_forall in Hloads; [|done].
    unfold load_finding, slow_load. fold (load_time e).
    rewrite (py_div_divisible (load_time e) 10000) by done.
    destruct Hloads as [Hnum _]. apply is_number_inv in Hnum.
    rewrite Hnum at 1. run_result.
    rewrite Qltb_decide. case_bool_decide; case_decide; try done.
    by rewrite app_nil_r.
Qed.

Lemma load_session_events (q : Q) :
  ReconstructedSession.get_events_by_type (load_session q) PERFORMANCE_LOAD = [load_event q]
  ∧ ReconstructedSession.get_events_by_type (load_session q) PERFORMANCE_LATENCY = [].
Proof. done. Qed.

Lemma load_event_load_time (q : Q) : load_time (load_event q) = PNum q.
Proof. done. Qed.

(** C6, for the runs of the rule that return. Whenever
    [_detect_performance_degradation] returns, a "performance load" event
    gives a finding exactly when its loadTime is above 3000 ms; the
    finding has severity min(1, loadTime / 10000) and there is one per
    such event, in order, before the findings of the latency events. The
    rule returns when what it reads under "loadTime" and "latency" are
    numbers (or missing) below the bound of the floats. A session of one
    load of 2999 or of 3000 gives no finding, one of 3001 gives one of
    severity 0.3001. *)
Theorem slow_load_findings (session : ReconstructedSession.t) :
  let loads := ReconstructedSession.get_events_by_type session PERFORMANCE_LOAD in
  let latencies := ReconstructedSession.get_events_by_type session PERFORMANCE_LATENCY in
  (∀ found,
     FrictionClassifier._detect_performance_degradation session = Ok found →
     found = (load_finding <$> filter slow_load loads) ++ (latency_finding <$> latencies)) ∧
  (Forall (λ e, divisible (load_time e)) loads →
   Forall (λ e, divisible (latency e)) latencies →
   FrictionClassifier._detect_performance_degradation session
   = Ok ((load_finding <$> filter slow_load loads) ++ (latency_finding <$> latencies))) ∧
  (∀ e, slow_load e ↔ (3000 < number_of (load_time e))%Q) ∧
  (∀ e, (FrictionPattern.severity (load_finding e)
         == Qmin 1 (number_of (load_time e) / 10000))%Q) ∧
  (∀ q, (Qabs q < float_overflow)%Q →
        FrictionClassifier._detect_performance_degradation (load_session q)
        = Ok (if decide (3000 < q)%Q then [load_finding (load_event q)] else [])) ∧
  FrictionClassifier._detect_performance_degradation (load_session 2999) = Ok [] ∧
  FrictionClassifier._detect_performance_degradation (load_session 3000) = Ok [] ∧
  FrictionClassifier._detect_performance_degradation (load_session 3001)
  = Ok [load_finding (load_event 3001)] ∧
  (FrictionPattern.severity (load_finding (load_event 3001)) == 0.3001)%Q.
Proof.
  intros loads latencies.
  assert (Hone : ∀ q, (Qabs q < float_overflow)%Q →
            FrictionClassifier._detect_performance_degradation (load_session q)
            = Ok (if decide (3000 < q)%Q then [load_finding (load_event q)] else [])).
  { intros q Hq. rewrite detect_performance_degradation_numeric.
    - destruct (load_session_events q) as [-> ->].
      rewrite filter_cons, filter_nil. unfold slow_load.
      rewrite load_event_load_time. cbn [number_of]. by case_decide.
    - destruct (load_session_events q) as [-> _]. by repeat constructor.
    - destruct (load_session_events q) as [_ ->]. constructor. }
  split_and!.
  - intros found. apply detect_performance_degradation_returned.
  - apply detect_performance_degradation_numeric.
  - done.
  - intros e. apply py_min_Qmin.
  - done.
  - by rewrite Hone.
  - by rewrite Hone.
  - by rewrite Hone.
  - done.
Qed.
End PerformanceRule.

Lemma slow_load_findings_witness :
  finding_ids (@FrictionClassifier._detect_performance_degradation sample_format loads_session)
  = ["l2"; "t1"].
Proof.
  destruct (@slow_load_findings sample_format loads_session) as (_ & Hfound & _).
  rewrite Hfound.
  - vm_compute. reflexivity.
  - repeat constructor.
  - repeat constructor.
Defined.

(** C6 as stated fails where the rule does not return: a load of nine
    seconds gets no finding when a latency event of the same session
    carries text under "latency", since the rule raises on the text after
    it has looked at the load. *)
Lemma slow_load_without_finding :
  nine_second_load
  ∈ ReconstructedSession.get_events_by_type text_latency_session PERFORMANCE_LOAD ∧
  slow_load nine_second_load ∧
  (∃ message,
     @FrictionClassifier._detect_performance_degradation sample_format text_latency_session
     = Raise (TypeError message)) ∧
  (∃ message,
     @FrictionClassifier.analyze_session sample_format text_latency_session
       FrictionClassifier.__init__
     = (Raise (TypeError message), FrictionClassifier.__init__)) ∧
  ¬ ∃ found,
      @FrictionClassifier._detect_performance_degradation sample_format text_latency_session
      = Ok found.
Proof.
  split_and!.
  - change (nine_second_load ∈ [nine_second_load]). apply list_elem_of_here.
  - apply (bool_decide_unpack _). vm_compute. reflexivity.
  - eexists. vm_compute. reflexivity.
  - eexists. vm_compute. reflexivity.
  - intros [found Hfound]. vm_compute in Hfound. discriminate.
Qed.

(** ** Friction classifier: expectation rule *)

Lemma StronglySorted_filter {A} (R : relation A) (keep : A → Prop)
    `{∀ x, Decision (keep x)} (l : list A) :
  StronglySorted R l → StronglySorted R (filter keep l).
Proof.
  induction 1 as [|x l Hs IH Hall]; [constructor|].
  rewrite filter_cons. case_decide; [|done].
  constructor; [done|].
  apply Forall_forall. intros y [_ Hy]%list_elem_of_filter.
  by eapply Forall_forall in Hall.
Qed.

Lemma Sorted_key_filter {A} (key : A → Z) (keep : A → Prop)
    `{∀ x, Decision (keep x)} (l : list A) :
  Sorted (key_le key) l → Sorted (key_le key) (filter keep l).
Proof.
  intros Hs. apply StronglySorted_Sorted, StronglySorted_filter.
  apply Sorted_StronglySorted; [|done]. intros a b c. unfold key_le. lia.
Qed.

Lemma filter_none {A} (keep : A → Prop) `{∀ x, Decision (keep x)} (l : list A) :
  Forall (λ x, ¬ keep x) l → filter keep l = [].
Proof.
  induction 1 as [|x l Hx Hl IH]; [done|].
  by rewrite filter_cons_False.
Qed.

(** Destructs the monadic steps of one iteration of a collecting loop. *)
Ltac finding_step :=
  let Hstep := fresh "Hstep" in
  intros ? ? ? _ Hstep ?; revert Hstep; run_result;
  repeat (case_match; try done);
  intros [= <-]; try done;
  apply Forall_app; (split; [done|]); by repeat constructor.

Section ExpectationRule.
Context `{PyFormat}.
Import TelemetryEvent.

(** The rule never raises: one finding per error event, then the single
    finding for three or more reversals. *)
Lemma detect_expectation_mismatch_eq (session : ReconstructedSession.t) :
  let errors := ReconstructedSession.get_events_by_type session FRICTION_ERROR in
  let reversals :=
    ReconstructedSession.get_events_by_type session FRICTION_NAVIGATION_REVERSAL in
  FrictionClassifier._detect_expectation_mismatch session
  = Ok ((error_finding <$> errors) ++
        match last reversals with
        | Some r =>
            if bool_decide (3 ≤ length reversals)
            then [repeated_reversal_finding (length reversals) r] else []
        | None => []
        end).
Proof.
  intros errors reversals.
  unfold FrictionClassifier._detect_expectation_mismatch. fold errors reversals.
  rewrite (for_fold_emit errors [] _ (λ e, [error_finding e])) by done.
  rewrite bind_singleton_fmap. cbn [mbind result_bind app].
  case_bool_decide as Hcount.
  - unfold py_last. destruct (last reversals) as [r|] eqn:Hlast; [done|].
    apply last_None in Hlast. rewrite Hlast in Hcount. cbn in Hcount. lia.
  - run_result. destruct (last reversals); by rewrite app_nil_r.
Qed.

Lemma error_findings_not_repeated (errors : list TelemetryEvent.t) :
  filter is_repeated_reversal (error_finding <$> errors) = [].
Proof.
  apply filter_none, Forall_fmap, Forall_forall.
  intros e _ [_ Hsev]. cbn in Hsev. by apply Qeq_bool_neq in Hsev.
Qed.

Lemma performance_findings_type session found :
  FrictionClassifier._detect_performance_degradation session = Ok found →
  Forall (λ p, FrictionPattern.pattern_type p = "performance_degradation") found.
Proof.
  unfold FrictionClassifier._detect_performance_degradation.
  destruct (for_fold _ [] _) as [loads|err] eqn:Hloads; run_result; [|done].
  apply for_fold_Forall; [finding_step|].
  revert Hloads. apply for_fold_Forall; [finding_step|constructor].
Qed.

Lemma affordance_findings_type session found :
  FrictionClassifier._detect_affordance_confusion session = Ok found →
  Forall (λ p, FrictionPattern.pattern_type p = "affordance_confusion") found.
Proof.
  unfold FrictionClassifier._detect_affordance_confusion.
  destruct (for_fold _ [] _) as [clicks|err] eqn:Hclicks; run_result; [|done].
  apply for_fold_Forall; [finding_step|].
  revert Hclicks. apply for_fold_Forall; [finding_step|constructor].
Qed.

Lemma cognitive_findings_type session found :
  FrictionClassifier._detect_cognitive_overload session = Ok found →
  Forall (λ p, FrictionPattern.pattern_type p = "cognitive_overload") found.
Proof.
  unfold FrictionClassifier._detect_cognitive_overload. cbn zeta.
  apply for_fold_Forall; [finding_step|constructor].
Qed.

(** What [analyze_session] returns is the four rules' findings in order,
    and these are what it adds to the history. *)
Lemma analyze_session_Ok session self found :
  (FrictionClassifier.analyze_session session self).1 = Ok found →
  ∃ performance affordance cognitive expectation,
    FrictionClassifier._detect_performance_degradation session = Ok performance ∧
    FrictionClassifier._detect_affordance_confusion session = Ok affordance ∧
    FrictionClassifier._detect_cognitive_overload session = Ok cognitive ∧
    FrictionClassifier._detect_expectation_mismatch session = Ok expectation ∧
    found = performance ++ affordance ++ cognitive ++ expectation ∧
    FrictionClassifier.patterns (FrictionClassifier.analyze_session session self).2
    = FrictionClassifier.patterns self ++ found.
Proof.
  unfold FrictionClassifier.analyze_session. run_result.
  destruct (FrictionClassifier._detect_performance_degradation session) as [p1|]; [|done].
  destruct (FrictionClassifier._detect_affordance_confusion session) as [p2|]; [|done].
  destruct (FrictionClassifier._detect_cognitive_overload session) as [p3|]; [|done].
  destruct (FrictionClassifier._detect_expectation_mismatch session) as [p4|]; [|done].
  cbn. intros [= <-]. exists p1, p2, p3, p4.
  by rewrite <- !app_assoc.
Qed.
End ExpectationRule.

Section RepeatedReversals.
Context `{PyFormat}.
Import TelemetryEvent.

Lemma init_reversals_in_order now sid evs :
  Sorted seq_le
    (ReconstructedSession.get_events_by_type
       (ReconstructedSession.__init__ now sid evs) FRICTION_NAVIGATION_REVERSAL).
Proof.
  unfold ReconstructedSession.get_events_by_type. cbn.
  apply (Sorted_key_filter sequenceNumber), sorted_Sorted.
Qed.

Lemma filter_repeated_reversal_finding count r :
  filter is_repeated_reversal [repeated_reversal_finding count r]
  = [repeated_reversal_finding count r].
Proof. by rewrite filter_cons_True. Qed.

Lemma other_type_not_repeated (type : string) (found : list FrictionPattern.t) :
  type ≠ "expectation_mismatch" →
  Forall (λ p, FrictionPattern.pattern_type p = type) found →
  filter is_repeated_reversal found = [].
Proof.
  intros Hne Hall. apply filter_none. eapply Forall_impl; [done|].
  intros p Hp [Htype _]. congruence.
Qed.

(** C7. For every session the expectation rule returns, besides the error
    findings, exactly one expectation-mismatch finding of severity 0.6 when
    the session has three or more "navigation reversal" events, and it
    carries the event id and the timestamp of the last reversal of the
    ordered sequence, whose sequence number is the highest among the
    reversals; with fewer than three reversals there is no such finding.
    The other three rules add none, so the same holds of what
    [analyze_session] returns. *)
Theorem repeated_reversal_finding_once (now : Z) (sid : string)
    (evs : list TelemetryEvent.t) (self : FrictionClassifier.t) :
  let session := ReconstructedSession.__init__ now sid evs in
  let reversals :=
    ReconstructedSession.get_events_by_type session FRICTION_NAVIGATION_REVERSAL in
  ∃ found,
    FrictionClassifier._detect_expectation_mismatch session = Ok found ∧
    (3 ≤ length reversals →
       ∃ r p, last reversals = Some r ∧
              (∀ e, e ∈ reversals → seq_le e r) ∧
              filter is_repeated_reversal found = [p] ∧
              FrictionPattern.severity p = 0.6%Q ∧
              FrictionPattern.event_id p = eventId r ∧
              FrictionPattern.timestamp p = timestamp r) ∧
    (length reversals < 3 → filter is_repeated_reversal found = []) ∧
    (∀ patterns,
       (FrictionClassifier.analyze_session session self).1 = Ok patterns →
       filter is_repeated_reversal patterns = filter is_repeated_reversal found).
Proof.
  intros session reversals.
  eexists. split; [apply detect_expectation_mismatch_eq|].
  fold reversals. rewrite filter_app, error_findings_not_repeated. cbn [app].
  split_and!.
  - intros Hcount.
    destruct (last reversals) as [r|] eqn:Hlast.
    + exists r, (repeated_reversal_finding (length reversals) r).
      rewrite bool_decide_true by done.
      split_and!; try done.
      intros e He. eapply (Sorted_last_max sequenceNumber); [|done..].
      apply init_reversals_in_order.
    + apply last_None in Hlast. rewrite Hlast in Hcount. cbn in Hcount. lia.
  - intros Hcount. destruct (last reversals); [|done].
    by rewrite bool_decide_false by lia.
  - intros patterns (p1 & p2 & p3 & p4 & Hp1 & Hp2 & Hp3 & Hp4 & -> & _)%analyze_session_Ok.
    rewrite !filter_app.
    rewrite (other_type_not_repeated "performance_degradation" p1);
      [|done|by apply (performance_findings_type session)].
    rewrite (other_type_not_repeated "affordance_confusion" p2);
      [|done|by apply (affordance_findings_type session)].
    rewrite (other_type_not_repeated "cognitive_overload" p3);
      [|done|by apply (cognitive_findings_type session)].
    cbn [app]. rewrite detect_expectation_mismatch_eq in Hp4.
    injection Hp4 as <-. fold reversals.
    by rewrite filter_app, error_findings_not_repeated.
Qed.
End RepeatedReversals.

Lemma repeated_reversal_finding_once_witness :
  ∃ found p,
    @FrictionClassifier._detect_expectation_mismatch sample_format
      (ReconstructedSession.__init__ 0 "s1" reversal_events) = Ok found ∧
    filter is_repeated_reversal found = [p] ∧
    FrictionPattern.event_id p = "r3" ∧ FrictionPattern.timestamp p = 30%Z.
Proof.
  destruct (@repeated_reversal_finding_once sample_format 0 "s1" reversal_events
              FrictionClassifier.__init__)
    as (found & Hfound & Hthree & _ & _).
  destruct Hthree as (r & p & Hlast & _ & Hp & _ & Hid & Hts).
  - vm_compute. lia.
  - exists found, p. split_and!; [exact Hfound | exact Hp | |].
    + rewrite Hid. vm_compute in Hlast. injection Hlast as <-. reflexivity.
    + rewrite Hts. vm_compute in Hlast. injection Hlast as <-. reflexivity.
Defined.

(** ** Severities *)

Section Severities.
Context `{PyFormat}.

(** C3, where the classifier departs from it. A payload number that is
    missing is read as 0 (as 1 for totalFields) and no rule raises on it,
    but the severities are bounded from above only, and for form
    abandonment not at all: a negative latency or click count gives a
    negative severity, more completed fields than total fields give a
    negative severity, and a negative count of completed fields gives a
    severity above 1. *)
Theorem severity_outside_unit_interval :
  (* missing fields *)
  severities_are (FrictionClassifier._detect_performance_degradation
                    (bare_session PERFORMANCE_LOAD)) [] ∧
  severities_are (FrictionClassifier._detect_performance_degradation
                    (bare_session PERFORMANCE_LATENCY)) [0%Q] ∧
  severities_are (FrictionClassifier._detect_affordance_confusion
                    (bare_session FRICTION_RAPID_CLICK)) [0%Q] ∧
  severities_are (FrictionClassifier._detect_affordance_confusion
                    (bare_session FRICTION_NAVIGATION_REVERSAL)) [0.7%Q] ∧
  severities_are (FrictionClassifier._detect_cognitive_overload
                    (bare_session FRICTION_FORM_ABANDONMENT)) [1%Q] ∧
  (* numbers that take the severity out of the interval *)
  severities_are (FrictionClassifier._detect_performance_degradation
                    (latency_session (-5000))) [(-1)%Q] ∧
  severities_are (FrictionClassifier._detect_affordance_confusion
                    (click_session (-10))) [(-1)%Q] ∧
  severities_are (FrictionClassifier._detect_cognitive_overload
                    (abandonment_session 5 3)) [(-2 # 3)%Q] ∧
  severities_are (FrictionClassifier._detect_cognitive_overload
                    (abandonment_session (-1) 1)) [2%Q] ∧
  ¬ in_unit_interval (-1) ∧ ¬ in_unit_interval (-2 # 3) ∧ ¬ in_unit_interval 2.
Proof.
  split_and!.
  all: try (cbn; repeat (constructor; [reflexivity|]); constructor).
  all: by intros [Hlow Hhigh]; vm_compute in Hlow, Hhigh.
Qed.

(** What does hold of the clamped rules: the severity is never above 1,
    and is not below 0 when the number read is not. *)
Lemma clamped_severity_bounds (q c : Q) :
  (0 < c)%Q → (py_min 1 (q / c) <= 1)%Q ∧ ((0 <= q)%Q → (0 <= py_min 1 (q / c))%Q).
Proof.
  intros Hc. split; [apply py_min_le_l|].
  intros Hq. apply py_min_ge; [done|].
  apply Qle_shift_div_l; [done|]. by rewrite Qmult_0_l.
Qed.

Lemma clamped_in_unit_interval (q c : Q) :
  (0 < c)%Q → (0 <= q)%Q → in_unit_interval (py_min 1 (q / c)).
Proof.
  intros Hc Hq. destruct (clamped_severity_bounds q c Hc) as [Hhigh Hlow].
  split; [by apply Hlow|done].
Qed.

Lemma completion_in_unit_interval (completed total : Q) :
  (0 < total)%Q → (0 <= completed)%Q → (completed <= total)%Q →
  in_unit_interval (1 - completed / total).
Proof.
  intros Htotal Hlow Hhigh.
  assert (0 <= completed / total)%Q.
  { apply Qle_shift_div_l; [done|]. by rewrite Qmult_0_l. }
  assert (completed / total <= 1)%Q.
  { apply Qle_shift_div_r; [done|]. by rewrite Qmult_1_l. }
  split; lra.
Qed.

(** Takes the step of a true division that returned. *)
Ltac divide_step :=
  unfold py_div; run_result;
  match goal with
  | |- context [py_truediv ?a ?b] =>
      let Hdiv := fresh "Hdiv" in
      destruct (py_truediv a b) eqn:Hdiv; run_result;
      [apply py_truediv_Ok_inv in Hdiv as ->|done]
  end.

(** Extends the collected findings by one whose severity is in range. *)
Ltac severity_step :=
  apply Forall_app; (split; [done|]); apply Forall_singleton; cbn.

(** On plausible payload numbers every severity that [analyze_session]
    returns lies in the unit interval. *)
Lemma severity_in_unit_interval_on_plausible (session : ReconstructedSession.t)
    (self : FrictionClassifier.t) (found : list FrictionPattern.t) :
  Forall plausible_payload (ReconstructedSession.events session) →
  (FrictionClassifier.analyze_session session self).1 = Ok found →
  Forall (λ p, in_unit_interval (FrictionPattern.severity p)) found.
Proof.
  intros Hplausible (p1 & p2 & p3 & p4 & Hp1 & Hp2 & Hp3 & Hp4 & -> & _)%analyze_session_Ok.
  assert (Hevent : ∀ type e,
            e ∈ ReconstructedSession.get_events_by_type session type → plausible_payload e).
  { intros type e [_ He]%list_elem_of_filter. by eapply Forall_forall in Hplausible. }
  repeat (apply Forall_app; split).
  - revert Hp1. unfold FrictionClassifier._detect_performance_degradation.
    destruct (for_fold _ [] _) as [loads|err] eqn:Hloads; run_result; [|done].
    apply for_fold_Forall.
    + intros acc e acc' (Hlat & _)%Hevent. unfold latency in Hlat.
      destruct (dict_get _ "latency" _) as [q| |]; run_result; [|done..].
      divide_step.
      intros [= <-] Hacc. severity_step. by apply clamped_in_unit_interval.
    + revert Hloads. apply for_fold_Forall; [|constructor].
      intros acc e acc' _.
      destruct (dict_get _ "loadTime" _) as [q| |]; run_result; [|done..].
      destruct (Qltb 3000 q) eqn:Hslow; [divide_step|]; intros [= <-] Hacc; [|done].
      severity_step. apply clamped_in_unit_interval; [done|].
      apply Qltb_lt in Hslow. lra.
  - revert Hp2. unfold FrictionClassifier._detect_affordance_confusion.
    destruct (for_fold _ [] _) as [clicks|err] eqn:Hclicks; run_result; [|done].
    apply for_fold_Forall.
    + intros acc e acc' _.
      destruct (dict_get _ "timeOnPage" _) as [q| |]; run_result; [|done..].
      destruct (Qltb q 2000); intros [= <-] Hacc; [|done].
      severity_step. by split.
    + revert Hclicks. apply for_fold_Forall; [|constructor].
      intros acc e acc' (_ & Hclick & _)%Hevent. unfold click_count in Hclick.
      destruct (dict_get _ "clickCount" _) as [q| |]; run_result; [|done..].
      divide_step.
      intros [= <-] Hacc. severity_step. by apply clamped_in_unit_interval.
  - revert Hp3. unfold FrictionClassifier._detect_cognitive_overload. cbn zeta.
    apply for_fold_Forall; [|constructor].
    intros acc e acc' (_ & _ & Hlow & Hhigh)%Hevent.
    unfold fields_completed, total_fields in Hlow, Hhigh.
    destruct (dict_get _ "totalFields" _) as [total| |]; run_result; [|done..].
    destruct (Qltb 0 total) eqn:Htotal; run_result.
    + destruct (dict_get _ "fieldsCompleted" _) as [completed| |]; run_result; [|done..].
      divide_step.
      intros [= <-] Hacc. severity_step.
      apply completion_in_unit_interval; [by apply Qltb_lt|done..].
    + intros [= <-] Hacc. severity_step. by split.
  - rewrite detect_expectation_mismatch_eq in Hp4. injection Hp4 as <-.
    apply Forall_app. split.
    + apply Forall_fmap, Forall_forall. intros e _. by split.
    + destruct (last _); [|constructor].
      case_bool_decide; repeat constructor; done.
Qed.
End Severities.

(** ** Confidence score *)

Lemma Qltb_proper (x x' y y' : Q) : (x == x')%Q → (y == y')%Q → Qltb x y = Qltb x' y'.
Proof. intros Hx Hy. unfold Qltb. by rewrite Hx, Hy. Qed.

Lemma round_half_even_proper (x y : Q) : (x == y)%Q → round_half_even x = round_half_even y.
Proof.
  intros Hxy. unfold round_half_even. rewrite (Qfloor_comp _ _ Hxy).
  assert (Hr : (x - inject_Z (Qfloor y) == y - inject_Z (Qfloor y))%Q) by by rewrite Hxy.
  by rewrite (Qltb_proper _ _ _ _ Hr (Qeq_refl _)), (Qltb_proper _ _ _ _ (Qeq_refl _) Hr).
Qed.

Lemma py_round2_proper (x y : Q) : (x == y)%Q → py_round2 x = py_round2 y.
Proof.
  intros Hxy. unfold py_round2. f_equal. f_equal.
  apply round_half_even_proper. by rewrite Hxy.
Qed.

(** [round_half_even] picks a nearest integer. *)
Lemma round_half_even_near (x : Q) :
  (x - (1 # 2) <= inject_Z (round_half_even x))%Q ∧
  (inject_Z (round_half_even x) <= x + (1 # 2))%Q.
Proof.
  unfold round_half_even.
  pose proof (Qfloor_le x) as Hlow. pose proof (Qlt_floor x) as Hhigh.
  rewrite inject_Z_plus in Hhigh. change (inject_Z 1) with 1%Q in Hhigh.
  set (f := Qfloor x) in *.
  destruct (Qltb (x - inject_Z f) (1 # 2)) eqn:Hbelow.
  { apply Qltb_lt in Hbelow. split; lra. }
  destruct (Qltb (1 # 2) (x - inject_Z f)) eqn:Habove.
  { apply Qltb_lt in Habove. rewrite inject_Z_plus. change (inject_Z 1) with 1%Q.
    split; lra. }
  assert (¬ (x - inject_Z f < 1 # 2)%Q) as Hb by (rewrite <- Qltb_lt; congruence).
  assert (¬ (1 # 2 < x - inject_Z f)%Q) as Ha by (rewrite <- Qltb_lt; congruence).
  apply Qnot_lt_le in Hb, Ha.
  destruct (Z.even f); [|rewrite inject_Z_plus; change (inject_Z 1) with 1%Q];
    split; lra.
Qed.

(** [max] of a non-empty iterable is one of its items and bounds them all. *)
Lemma py_max_spec (x : Q) (xs : list Q) :
  py_max x xs ∈ x :: xs ∧ ∀ y, y ∈ x :: xs → (y <= py_max x xs)%Q.
Proof.
  unfold py_max. revert x. induction xs as [|z xs IH]; intros x; cbn.
  - split; [apply list_elem_of_here|].
    intros y ->%list_elem_of_singleton. apply Qle_refl.
  - destruct (Qltb x z) eqn:Hlt.
    + destruct (IH z) as [Hin Hmax]. split; [by apply list_elem_of_further|].
      intros y [->|Hy]%elem_of_cons; [|by apply Hmax].
      apply Qltb_lt in Hlt. apply Qlt_le_weak. eapply Qlt_le_trans; [done|].
      apply Hmax, list_elem_of_here.
    + destruct (IH x) as [Hin Hmax]. split.
      * apply elem_of_cons in Hin as [->|Hin]; [apply list_elem_of_here|].
        by do 2 apply list_elem_of_further.
      * intros y [->|[->|Hy]%elem_of_cons]%elem_of_cons.
        -- apply Hmax, list_elem_of_here.
        -- assert (¬ (x < z)%Q) as Hge by (rewrite <- Qltb_lt; congruence).
           apply Qnot_lt_le in Hge. eapply Qle_trans; [done|].
           apply Hmax, list_elem_of_here.
        -- by apply Hmax, list_elem_of_further.
Qed.

(** ** Recommendations *)

Section Recommendations.
Implicit Types (hs : list IntentHypothesis.t) (fps : list FrictionPattern.t).

Lemma rec_struggling_not_general (text : string) :
  InsightGenerator.rec_struggling text ≠ InsightGenerator.rec_smooth ∧
  InsightGenerator.rec_struggling text ≠ InsightGenerator.rec_high_friction.
Proof. split; intros Heq; cbn in Heq; discriminate. Qed.

Lemma type_recommendations_not_general (r : string) :
  r ∈ type_recommendations →
  r ≠ InsightGenerator.rec_smooth ∧ r ≠ InsightGenerator.rec_high_friction.
Proof.
  unfold type_recommendations. rewrite !elem_of_cons, elem_of_nil.
  intros [->|[->|[->|[->|[->|[]]]]]]; split; discriminate.
Qed.

Lemma struggling_not_general hs :
  (InsightGenerator.rec_smooth ∉ struggling_recommendations hs) ∧
  (InsightGenerator.rec_high_friction ∉ struggling_recommendations hs).
Proof.
  unfold struggling_recommendations.
  split; intros (h & Heq & _)%list_elem_of_fmap;
    by destruct (rec_struggling_not_general (IntentHypothesis.hypothesis h)).
Qed.

(** The loop over the hypotheses appends one recommendation for each
    hypothesis that is confident and mentions "abandon" or "unable". *)
Lemma intent_loop_appends (recs : list string) hs :
  foldl (λ recommendations hypothesis,
      if Qltb 0.7 (IntentHypothesis.confidence hypothesis) then
        let lowered := str_lower (IntentHypothesis.hypothesis hypothesis) in
        if str_contains "abandon" lowered || str_contains "unable" lowered
        then recommendations
             ++ [InsightGenerator.rec_struggling (IntentHypothesis.hypothesis hypothesis)]
        else recommendations
      else recommendations) recs hs
  = recs ++ struggling_recommendations hs.
Proof.
  unfold struggling_recommendations.
  revert recs. induction hs as [|h hs IH]; intros recs; cbn [foldl].
  - by rewrite app_nil_r.
  - rewrite IH, filter_cons. cbn zeta.
    destruct (decide (is_struggling h)) as [Hs|Hs]; unfold is_struggling in Hs.
    + apply andb_True in Hs as [Hconf Htext].
      apply Is_true_true in Hconf, Htext. rewrite Hconf, Htext.
      by rewrite fmap_cons, <- app_assoc.
    + apply Is_true_false, andb_false_iff in Hs as [Hconf|Htext].
      * by rewrite Hconf.
      * rewrite Htext. by destruct (Qltb _ _).
Qed.

Lemma group_by_type_nil : InsightGenerator.group_by_type [] = ∅.
Proof. done. Qed.

(** The list is made of three parts: recommendations tied to a type of
    friction (none without friction), those for struggling users, and
    at most one general recommendation. *)
Lemma generate_recommendations_shape session fps hs :
  ∃ typed,
    Forall (λ r, r ∈ type_recommendations) typed ∧
    (fps = [] → typed = []) ∧
    InsightGenerator._generate_recommendations session fps hs
    = typed ++ struggling_recommendations hs
      ++ (if bool_decide (length fps = 0) then [InsightGenerator.rec_smooth]
          else if bool_decide (5 ≤ length fps) then [InsightGenerator.rec_high_friction]
          else []).
Proof.
  unfold InsightGenerator._generate_recommendations. cbn zeta.
  rewrite intent_loop_appends.
  set (by_type := InsightGenerator.group_by_type fps).
  set (typed := (if bool_decide (is_Some (by_type !! "expectation_mismatch")) then _ else _)).
  exists typed. split_and!.
  - subst typed. unfold type_recommendations.
    repeat case_match; repeat (apply Forall_app; split); repeat constructor;
      set_solver.
  - intros ->. subst typed by_type. rewrite group_by_type_nil.
    rewrite !lookup_empty. by rewrite !bool_decide_false by (by intros [? ?]).
  - repeat case_bool_decide; by rewrite <- ?app_assoc, ?app_nil_r.
Qed.
End Recommendations.

Section GeneralRecommendations.
Context `{PyFormat} {I : Type} `{Inferrer I}.

(** What a returned summary is made of *)
Lemma generate_insights_Ok session (gen : InsightGenerator.t I) summary :
  (InsightGenerator.generate_insights session gen).1 = Ok summary →
  (FrictionClassifier.analyze_session session (InsightGenerator.friction_classifier gen)).1
  = Ok (InsightSummary.friction_patterns summary) ∧
  InsightSummary.recommendations summary
  = InsightGenerator._generate_recommendations session
      (InsightSummary.friction_patterns summary)
      (InsightSummary.intent_hypotheses summary) ∧
  InsightSummary.confidence_score summary
  = InsightGenerator._calculate_confidence
      (InsightSummary.intent_hypotheses summary)
      (InsightSummary.friction_patterns summary).
Proof.
  unfold InsightGenerator.generate_insights.
  destruct (FrictionClassifier.analyze_session _ _) as [[fps|err] classifier];
    run_result; [|done].
  destruct (try_except _ _) as [hs|err]; [|done].
  by intros [= <-].
Qed.

(** C9, with the recommendations for struggling users taken into account.
    Without friction patterns the list ends with the "smooth session"
    recommendation and holds nothing else but one struggling-user
    recommendation for each confident hypothesis that mentions "abandon"
    or "unable"; with five or more friction patterns the list holds the
    "high friction" recommendation; the two never occur together. This
    holds of every list [_generate_recommendations] returns, hence of
    every summary [generate_insights] returns. *)
Theorem general_recommendations (session : ReconstructedSession.t)
    (fps : list FrictionPattern.t) (hs : list IntentHypothesis.t) :
  let recs := InsightGenerator._generate_recommendations session fps hs in
  (length fps = 0 → recs = struggling_recommendations hs ++ [InsightGenerator.rec_smooth]) ∧
  (5 ≤ length fps → InsightGenerator.rec_high_friction ∈ recs) ∧
  ¬ (InsightGenerator.rec_smooth ∈ recs ∧ InsightGenerator.rec_high_friction ∈ recs) ∧
  (∀ (gen : InsightGenerator.t I) summary,
     (InsightGenerator.generate_insights session gen).1 = Ok summary →
     InsightSummary.recommendations summary
     = InsightGenerator._generate_recommendations session
         (InsightSummary.friction_patterns summary)
         (InsightSummary.intent_hypotheses summary)).
Proof.
  intros recs. subst recs.
  destruct (generate_recommendations_shape session fps hs)
    as (typed & Htyped & Hnone & ->).
  destruct (struggling_not_general hs) as [Hsmooth Hhigh].
  assert (Htyped' : ∀ r, r ∈ typed →
            r ≠ InsightGenerator.rec_smooth ∧ r ≠ InsightGenerator.rec_high_friction).
  { intros r Hr. apply type_recommendations_not_general.
    by eapply Forall_forall in Htyped. }
  split_and!.
  - intros Hlen. rewrite Hnone by by apply nil_length_inv.
    by rewrite bool_decide_true.
  - intros Hlen. rewrite bool_decide_false by lia. rewrite bool_decide_true by done.
    do 2 (apply elem_of_app; right). apply list_elem_of_here.
  - rewrite !elem_of_app. intros [Hs Hh].
    destruct Hs as [Hs|[Hs|Hs]]; [by destruct (Htyped' _ Hs)|done|].
    destruct Hh as [Hh|[Hh|Hh]]; [by destruct (Htyped' _ Hh)|done|].
    revert Hs Hh.
    repeat case_bool_decide; rewrite ?list_elem_of_singleton, ?elem_of_nil;
      try done; intros; discriminate.
  - intros gen summary Hrun. by apply generate_insights_Ok in Hrun as (_ & ? & _).
Qed.
End GeneralRecommendations.

Lemma general_recommendations_witness :
  InsightGenerator._generate_recommendations smooth_session [] []
  = [InsightGenerator.rec_smooth].
Proof.
  destruct (@general_recommendations sample_format IntentInferrer.t _ smooth_session [] [])
    as [Hsmooth _].
  rewrite Hsmooth; reflexivity.
Defined.

(** C9 as stated fails: a session without friction for which the
    collaborator returns a confident hypothesis about abandonment gets two
    recommendations, the struggling-user one and the "smooth session"
    one. *)
Lemma smooth_session_not_alone :
  InsightGenerator._generate_recommendations smooth_session []
    [IntentHypothesis.mk "User abandoned the checkout" 0.9 ["left at payment"] 20]
  = ["🎓 User appears to be struggling with: abandoned the checkout";
     InsightGenerator.rec_smooth] ∧
  ∃ summary,
    (@InsightGenerator.generate_insights sample_format _ _ smooth_session
       (InsightGenerator.__init__ abandoned_checkout_collaborator)).1 = Ok summary ∧
    InsightSummary.friction_patterns summary = [] ∧
    InsightSummary.recommendations summary
    = ["🎓 User appears to be struggling with: abandoned the checkout";
       InsightGenerator.rec_smooth] ∧
    InsightSummary.recommendations summary ≠ [InsightGenerator.rec_smooth].
Proof.
  split; [reflexivity|].
  eexists. split; [vm_compute; reflexivity|].
  split_and!; [reflexivity|reflexivity|discriminate].
Qed.

(** ** The sequence of events and its narrative *)

(** The first event of a session already makes [get_event_sequence]
    raise; only a session without events gets its (empty) sequence. *)
Lemma get_event_sequence_raises (session : ReconstructedSession.t) :
  ReconstructedSession.events session ≠ [] →
  ReconstructedSession.get_event_sequence session = Raise no_value_error.
Proof.
  unfold ReconstructedSession.get_event_sequence.
  by destruct (ReconstructedSession.events session).
Qed.

Lemma get_event_sequence_empty (session : ReconstructedSession.t) :
  ReconstructedSession.events session = [] →
  ReconstructedSession.get_event_sequence session = Ok [].
Proof. unfold ReconstructedSession.get_event_sequence. by intros ->. Qed.

Lemma prepare_event_summary_raises (session : ReconstructedSession.t) :
  ReconstructedSession.events session ≠ [] →
  IntentInferrer._prepare_event_summary session = Raise no_value_error.
Proof.
  intros Hevents. unfold IntentInferrer._prepare_event_summary.
  by rewrite get_event_sequence_raises.
Qed.

Lemma prepare_event_summary_empty (session : ReconstructedSession.t) :
  ReconstructedSession.events session = [] →
  IntentInferrer._prepare_event_summary session = Ok "".
Proof.
  intros Hevents. unfold IntentInferrer._prepare_event_summary.
  by rewrite get_event_sequence_empty.
Qed.

(** ** Failure of the intent inference *)

(** [infer_intent] builds the narrative before it enters its [try], so
    what the narrative raises leaves [infer_intent], whatever the key and
    the service. *)
Lemma infer_intent_raises (self : IntentInferrer.t)
    (session : ReconstructedSession.t) (patterns : list FrictionPattern.t) :
  ReconstructedSession.events session ≠ [] →
  IntentInferrer.infer_intent self session patterns = Raise no_value_error.
Proof.
  intros Hevents. unfold IntentInferrer.infer_intent.
  by rewrite prepare_event_summary_raises.
Qed.

(** For a session without events every failure of the call is caught
    inside and answered with the inferrer's own fallback. *)
Lemma infer_intent_empty_returns (self : IntentInferrer.t)
    (session : ReconstructedSession.t) (patterns : list FrictionPattern.t) :
  ReconstructedSession.events session = [] →
  ∃ hypotheses, IntentInferrer.infer_intent self session patterns = Ok hypotheses.
Proof.
  intros Hevents. unfold IntentInferrer.infer_intent.
  rewrite prepare_event_summary_empty by done. run_result.
  unfold try_except. repeat case_match; eauto.
Qed.

Lemma infer_intent_without_key (self : IntentInferrer.t)
    (session : ReconstructedSession.t) (patterns : list FrictionPattern.t) :
  ReconstructedSession.events session = [] →
  IntentInferrer._api_key self ∈ [None; Some ""; Some "sk-dummy-key-for-testing"] →
  IntentInferrer.infer_intent self session patterns = Ok [inferrer_fallback session].
Proof.
  intros Hevents Hkey. unfold IntentInferrer.infer_intent.
  rewrite prepare_event_summary_empty by done.
  unfold IntentInferrer.client. run_result.
  rewrite !elem_of_cons, elem_of_nil in Hkey.
  by destruct Hkey as [->|[->|[->|[]]]].
Qed.

Section InferenceFailure.
Context `{PyFormat}.

(** When the collaborator raises, the handler of [generate_insights]
    raises in turn while it builds the placeholder. *)
Lemma generate_insights_inference_raises {I : Type} `{Inferrer I}
    (gen : InsightGenerator.t I) (session : ReconstructedSession.t)
    (patterns : list FrictionPattern.t) (e : Exception) :
  (FrictionClassifier.analyze_session session
     (InsightGenerator.friction_classifier gen)).1 = Ok patterns →
  infer_intent (InsightGenerator.intent_inferrer gen) session patterns = Raise e →
  (InsightGenerator.generate_insights session gen).1 = Raise no_metrics_error.
Proof.
  intros Hclassified Hinfer. unfold InsightGenerator.generate_insights.
  destruct (FrictionClassifier.analyze_session _ _) as [classified classifier].
  cbn in Hclassified. subst classified. run_result.
  by rewrite Hinfer.
Qed.

(** C2, where the generator departs from it. When the collaborator
    raises, the handler of [generate_insights] raises in turn while it
    builds the placeholder, so the caller gets an AttributeError and no
    summary. The repository's own inferrer raises on every session that
    has an event, with or without a key, since it builds the narrative
    before its [try]: the generator then fails in the same way. Only for a
    session without events does the inferrer get to its own handler, and
    what it answers there is a fallback of confidence 0. *)
Theorem inference_failure_not_absorbed :
  (∀ (I : Type) (inferrer : Inferrer I) (gen : InsightGenerator.t I)
     (session : ReconstructedSession.t) (patterns : list FrictionPattern.t)
     (e : Exception),
     (FrictionClassifier.analyze_session session
        (InsightGenerator.friction_classifier gen)).1 = Ok patterns →
     infer_intent (InsightGenerator.intent_inferrer gen) session patterns = Raise e →
     (InsightGenerator.generate_insights session gen).1 = Raise no_metrics_error) ∧
  (InsightGenerator.generate_insights smooth_session
     (InsightGenerator.__init__ failing_collaborator)).1 = Raise no_metrics_error ∧
  (∀ (self : IntentInferrer.t) (session : ReconstructedSession.t)
     (patterns : list FrictionPattern.t),
     ReconstructedSession.events session ≠ [] →
     IntentInferrer.infer_intent self session patterns = Raise no_value_error) ∧
  (∀ (gen : InsightGenerator.t IntentInferrer.t) (session : ReconstructedSession.t)
     (patterns : list FrictionPattern.t),
     ReconstructedSession.events session ≠ [] →
     (FrictionClassifier.analyze_session session
        (InsightGenerator.friction_classifier gen)).1 = Ok patterns →
     (InsightGenerator.generate_insights session gen).1 = Raise no_metrics_error) ∧
  (InsightGenerator.generate_insights smooth_session
     (InsightGenerator.__init__ unconfigured_inferrer)).1 = Raise no_metrics_error ∧
  (∀ (self : IntentInferrer.t) (session : ReconstructedSession.t)
     (patterns : list FrictionPattern.t),
     ReconstructedSession.events session = [] →
     IntentInferrer._api_key self ∈ [None; Some ""; Some "sk-dummy-key-for-testing"] →
     IntentInferrer.infer_intent self session patterns = Ok [inferrer_fallback session]) ∧
  (∃ summary,
     (InsightGenerator.generate_insights empty_session
        (InsightGenerator.__init__ unconfigured_inferrer)).1 = Ok summary ∧
     InsightSummary.intent_hypotheses summary = [inferrer_fallback empty_session] ∧
     IntentHypothesis.confidence <$> InsightSummary.intent_hypotheses summary = [0%Q] ∧
     IntentHypothesis.supporting_evidence <$> InsightSummary.intent_hypotheses summary
     = [["Error during analysis"]] ∧
     ¬ (0 == 0.5)%Q).
Proof.
  split_and!.
  - intros I inferrer gen session patterns e. apply generate_insights_inference_raises.
  - reflexivity.
  - apply infer_intent_raises.
  - intros gen session patterns Hevents Hclassified.
    eapply generate_insights_inference_raises; [done|].
    by apply infer_intent_raises.
  - reflexivity.
  - apply infer_intent_without_key.
  - eexists. split; [vm_compute; reflexivity|].
    split_and!; [reflexivity|reflexivity|reflexivity|discriminate].
Qed.
End InferenceFailure.

Lemma inference_failure_not_absorbed_witness :
  (@InsightGenerator.generate_insights sample_format _ _ smooth_session
     (InsightGenerator.__init__ failing_collaborator)).1 = Raise no_metrics_error.
Proof.
  destruct (@inference_failure_not_absorbed sample_format) as [Hraise _].
  apply (Hraise _ _ (InsightGenerator.__init__ failing_collaborator) smooth_session []
           (ServiceError "timed out")); reflexivity.
Defined.

(** C8, where the inferrer departs from it. No session that has an event
    gets a narrative: [get_event_sequence] raises an AttributeError on its
    first event, and [_prepare_event_summary] with it. For the session of
    21 page views numbered 1 to 21 there are neither entries for the 20
    latest events nor a marker; the one narrative ever returned is the
    empty one of a session without events. *)
Theorem event_summary_not_produced :
  (∀ session,
     ReconstructedSession.events session ≠ [] →
     ReconstructedSession.get_event_sequence session = Raise no_value_error ∧
     IntentInferrer._prepare_event_summary session = Raise no_value_error) ∧
  (∀ session,
     ReconstructedSession.events session = [] →
     IntentInferrer._prepare_event_summary session = Ok "") ∧
  TelemetryEvent.sequenceNumber <$> ReconstructedSession.events long_session
  = Z.of_nat <$> seq 1 21 ∧
  ReconstructedSession.get_event_sequence long_session = Raise no_value_error ∧
  IntentInferrer._prepare_event_summary long_session = Raise no_value_error.
Proof.
  split_and!.
  - intros session Hevents.
    split; [by apply get_event_sequence_raises|by apply prepare_event_summary_raises].
  - apply prepare_event_summary_empty.
  - vm_compute. reflexivity.
  - by apply get_event_sequence_raises.
  - by apply prepare_event_summary_raises.
Qed.


(** * Further properties of the code *)

(** ** Buffering of events *)

Section Buffering.
Import TelemetryEvent.
Implicit Types (self : SessionReconstructor.t) (e : TelemetryEvent.t).

(** X1. After [add_events] the entry of a session id holds what it held
    before followed by the events of the call that carry the id, in the
    order of the call, each exactly once; an id that no event of the call
    carries keeps its entry, or stays absent. *)
Theorem add_events_lookup (events : list TelemetryEvent.t) self (sid : string) :
  SessionReconstructor.sessions (SessionReconstructor.add_events events self).2 !! sid
  = match filter (λ e, sessionId e = sid) events with
    | [] => SessionReconstructor.sessions self !! sid
    | arrived => Some (dict_get (SessionReconstructor.sessions self) sid [] ++ arrived)
    end.
Proof.
  unfold SessionReconstructor.add_events.
  revert self. induction events as [|e events IH]; intros self; [done|].
  rewrite for_each_cons, IH, add_event_sessions, filter_cons.
  case_decide as Hsid.
  - subst sid. rewrite dict_get_insert_eq, lookup_insert_eq.
    destruct (filter _ events); by rewrite <- ?app_assoc.
  - by rewrite dict_get_insert_ne, lookup_insert_ne.
Qed.

(** X2. How the events are cut into calls does not matter: adding batch
    after batch leaves the reconstructor as one call with all the events
    does. *)
Theorem add_batches_concat (batches : list (list TelemetryEvent.t)) self :
  (add_batches batches self).2
  = (SessionReconstructor.add_events (concat batches) self).2.
Proof.
  unfold add_batches, SessionReconstructor.add_events.
  revert self. induction batches as [|b batches IH]; intros self; [done|].
  cbn [concat]. by rewrite for_each_cons, for_each_app, IH.
Qed.

Lemma add_events_dom (events : list TelemetryEvent.t) self :
  dom (SessionReconstructor.sessions (SessionReconstructor.add_events events self).2)
  = dom (SessionReconstructor.sessions self) ∪ list_to_set (sessionId <$> events).
Proof.
  unfold SessionReconstructor.add_events.
  revert self. induction events as [|e events IH]; intros self.
  - cbn. by rewrite (right_id_L ∅ (∪)).
  - rewrite for_each_cons, IH, add_event_sessions, dom_insert_L, fmap_cons,
      list_to_set_cons.
    by rewrite (assoc_L (∪)), (comm_L (∪) (dom _) {[ _ ]}).
Qed.

Lemma size_list_to_set_length (ids : list string) :
  size (list_to_set (C := gset string) ids) ≤ length ids.
Proof.
  induction ids as [|x ids IH]; [by rewrite list_to_set_nil, size_empty|].
  rewrite list_to_set_cons, size_union_alt, size_singleton. cbn.
  apply le_n_S. etrans; [|done].
  apply subseteq_size, subseteq_difference_l. reflexivity.
Qed.

(** X3. The session count after [add_events] is the number of distinct
    session ids among those known before and those of the added events: it
    never goes down and grows by at most one per event. Counted from the
    empty reconstructor it is the number of distinct ids of the events. *)
Theorem session_count_distinct_ids (events : list TelemetryEvent.t) self :
  let count s := (SessionReconstructor.get_session_count s).1 in
  let after := (SessionReconstructor.add_events events self).2 in
  count after
  = size (dom (SessionReconstructor.sessions self)
          ∪ list_to_set (C := gset string) (sessionId <$> events)) ∧
  count self ≤ count after ≤ count self + length events ∧
  count (SessionReconstructor.add_events events SessionReconstructor.__init__).2
  = size (list_to_set (C := gset string) (sessionId <$> events)).
Proof.
  intros count after. subst count after. cbn [fst].
  unfold SessionReconstructor.get_session_count, gets. cbn [fst].
  rewrite <- !size_dom, !add_events_dom.
  split_and!.
  - done.
  - apply subseteq_size, union_subseteq_l.
  - rewrite size_union_alt.
    apply Nat.add_le_mono_l.
    etrans; [apply subseteq_size, subseteq_difference_l; reflexivity|].
    etrans; [apply size_list_to_set_length|]. by rewrite length_fmap.
  - cbn. by rewrite dom_empty_L, (left_id_L ∅ (∪)).
Qed.

(** X4. [get_all_sessions] returns one session for each buffered id and
    no other: as many as [get_session_count] says, with distinct session
    ids, each the session [get_session] builds for its id. *)
Theorem get_all_sessions_known_ids self (now : Z) :
  let all := (SessionReconstructor.get_all_sessions now self).1 in
  length all = (SessionReconstructor.get_session_count self).1 ∧
  NoDup (ReconstructedSession.session_id <$> all) ∧
  ∀ s, s ∈ all ↔
       ∃ sid, is_Some (SessionReconstructor.sessions self !! sid) ∧
              s = (SessionReconstructor.get_session now sid self).1.
Proof.
  intros all. subst all. destruct self as [m].
  unfold SessionReconstructor.get_all_sessions, SessionReconstructor.get_session,
    SessionReconstructor.get_session_count.
  run_state. split_and!.
  - by rewrite length_fmap, length_map_to_list.
  - assert (Hids : ∀ items : list (string * list TelemetryEvent.t),
              ReconstructedSession.session_id
              <$> ((λ '(sid, events), ReconstructedSession.__init__ now sid events) <$> items)
              = items.*1).
    { induction items as [|[sid events] items IH]; [done|].
      by rewrite !fmap_cons, IH. }
    rewrite Hids. apply NoDup_fst_map_to_list.
  - intros s. rewrite list_elem_of_fmap. split.
    + intros ([sid events] & -> & Hin%elem_of_map_to_list).
      exists sid. split; [by eexists|]. unfold dict_get. by rewrite Hin.
    + intros (sid & [events Hevents] & ->).
      exists (sid, events). split; [|by apply elem_of_map_to_list].
      unfold dict_get. by rewrite Hevents.
Qed.
End Buffering.

(** Settles the [decide] of a closed proposition by computation. *)
Ltac decide_closed :=
  repeat match goal with
  | |- context [decide ?P] =>
      let b := eval vm_compute in (bool_decide P) in
      match b with
      | true =>
          rewrite (decide_True (P := P))
            by (apply (bool_decide_unpack _); vm_compute; exact I)
      | false =>
          rewrite (decide_False (P := P))
            by (let Hc := fresh in
                intros Hc; apply (bool_decide_pack _) in Hc; vm_compute in Hc; exact Hc)
      end
  end.

(** ** Queries on a reconstructed session *)

Section SessionQueries.
Import TelemetryEvent.

(** X5. For a session id that was never buffered [get_session] gives the
    empty session of that id: it starts at the time of the call and has no
    end, its duration, page views and interactions are 0, and it has no
    friction events, no event sequence and an empty narrative. *)
Theorem unknown_session_is_empty (self : SessionReconstructor.t) (now : Z) (sid : string) :
  SessionReconstructor.sessions self !! sid = None →
  let s := (SessionReconstructor.get_session now sid self).1 in
  ReconstructedSession.session_id s = sid ∧
  ReconstructedSession.events s = [] ∧
  ReconstructedSession.start_time s = now ∧
  ReconstructedSession.end_time s = None ∧
  ReconstructedSession.get_duration_ms s = 0%Z ∧
  ReconstructedSession.get_page_views s = 0 ∧
  ReconstructedSession.get_interactions s = 0 ∧
  ReconstructedSession.get_friction_events s = [] ∧
  ReconstructedSession.get_event_sequence s = Ok [] ∧
  IntentInferrer._prepare_event_summary s = Ok "".
Proof.
  intros Hunknown s. subst s.
  unfold SessionReconstructor.get_session. run_state.
  unfold dict_get. rewrite Hunknown. by split_and!.
Qed.

Lemma unknown_session_is_empty_witness :
  ReconstructedSession.get_duration_ms
    (SessionReconstructor.get_session 7 "other" one_view_reconstructor).1 = 0%Z ∧
  ReconstructedSession.start_time
    (SessionReconstructor.get_session 7 "other" one_view_reconstructor).1 = 7%Z.
Proof.
  destruct (unknown_session_is_empty one_view_reconstructor 7 "other")
    as (_ & _ & Hstart & _ & Hduration & _).
  - vm_compute. reflexivity.
  - split; [exact Hduration | exact Hstart].
Defined.

Lemma interaction_count (evs : list TelemetryEvent.t) :
  length (filter (λ e, type e = ACTION_CLICK) evs)
  + length (filter (λ e, type e = ACTION_SUBMIT) evs)
  + length (filter (λ e, type e = ACTION_INPUT) evs)
  = length (filter (λ e, type e ∈ interaction_types) evs).
Proof.
  induction evs as [|e evs IH]; [done|].
  rewrite !filter_cons.
  destruct (type e); decide_closed; cbn; lia.
Qed.

(** X6. The counts of a session do not depend on the order in which its
    events were handed over: the events of a type, the page views, the
    interactions (clicks, submits and inputs together) and the friction
    events are those of the arrival list, whatever its order. *)
Theorem session_counts_of_arrivals (now : Z) (sid : string) (evs : list TelemetryEvent.t) :
  let s := ReconstructedSession.__init__ now sid evs in
  (∀ event_type,
     ReconstructedSession.get_events_by_type s event_type
     ≡ₚ filter (λ e, type e = event_type) evs) ∧
  ReconstructedSession.get_page_views s
  = length (filter (λ e, type e = VIEW_TRANSITION) evs) ∧
  ReconstructedSession.get_interactions s
  = length (filter (λ e, type e ∈ interaction_types) evs) ∧
  ReconstructedSession.get_friction_events s
  ≡ₚ filter (λ e, type e ∈ friction_types) evs ∧
  length (ReconstructedSession.events s) = length evs.
Proof.
  intros s. subst s.
  assert (Hby_type : ∀ event_type,
    ReconstructedSession.get_events_by_type (ReconstructedSession.__init__ now sid evs)
      event_type ≡ₚ filter (λ e, type e = event_type) evs).
  { intros event_type. unfold ReconstructedSession.get_events_by_type. cbn.
    by rewrite sorted_Permutation. }
  split_and!.
  - done.
  - unfold ReconstructedSession.get_page_views. by rewrite Hby_type.
  - unfold ReconstructedSession.get_interactions. cbn [fmap list_fmap foldl].
    rewrite !Hby_type, <- interaction_count. lia.
  - unfold ReconstructedSession.get_friction_events. cbn.
    by rewrite sorted_Permutation.
  - cbn. by rewrite sorted_Permutation.
Qed.

(** X7. The duration of a session is taken between its first and its
    last arrival, not between its earliest and its latest event: it is 0
    when the two carry the same timestamp, as for a single event, not
    negative when the last arrival is not older than the first, and
    negative when it is older by a millisecond or more. *)
Theorem duration_between_arrivals (now : Z) (sid : string)
    (evs : list TelemetryEvent.t) (first final : TelemetryEvent.t) :
  head evs = Some first →
  last evs = Some final →
  let duration :=
    ReconstructedSession.get_duration_ms (ReconstructedSession.__init__ now sid evs) in
  (evs = [first] → duration = 0%Z) ∧
  (timestamp first = timestamp final → duration = 0%Z) ∧
  ((timestamp first ≤ timestamp final)%Z → (0 ≤ duration)%Z) ∧
  ((timestamp final ≤ timestamp first - 1000)%Z → (duration < 0)%Z).
Proof.
  intros Hhead Hlast duration. subst duration.
  unfold ReconstructedSession.get_duration_ms. cbn. rewrite Hhead, Hlast.
  split_and!.
  - intros ->. cbn in Hlast. injection Hlast as <-. by rewrite Z.sub_diag.
  - intros ->. by rewrite Z.sub_diag.
  - intros Hle. apply Z.quot_pos; lia.
  - intros Hle.
    assert (0 < (timestamp first - timestamp final) ÷ 1000)%Z as Hpos.
    { apply Z.quot_str_pos. lia. }
    replace (timestamp final - timestamp first)%Z
      with (- (timestamp first - timestamp final))%Z by lia.
    rewrite Z.quot_opp_l by lia. lia.
Qed.

Lemma duration_between_arrivals_witness :
  (ReconstructedSession.get_duration_ms
     (ReconstructedSession.__init__ 0 "s1"
        [sample_event ACTION_CLICK "b" 5000 2 []; sample_event VIEW_TRANSITION "a" 1000 1 []])
   < 0)%Z.
Proof.
  destruct (duration_between_arrivals 0 "s1"
              [sample_event ACTION_CLICK "b" 5000 2 [];
               sample_event VIEW_TRANSITION "a" 1000 1 []]
              (sample_event ACTION_CLICK "b" 5000 2 [])
              (sample_event VIEW_TRANSITION "a" 1000 1 []))
    as (_ & _ & _ & Hnegative); [reflexivity..|].
  apply Hnegative. vm_compute. discriminate.
Defined.
End SessionQueries.

(** ** Friction classifier: affordance and cognitive rules *)

Section OtherRules.
Context `{PyFormat}.
Import TelemetryEvent.

(** X9. Whenever the affordance rule returns, it returns one finding for
    every rapid-click event, of severity min(1, clickCount / 10) and so
    exactly 1 from ten clicks on, followed by one finding of severity 0.7
    for every navigation reversal with timeOnPage strictly below 2000 ms,
    and nothing for the other reversals. The rule returns when what it
    reads under "clickCount" is a number (or missing) below the bound of
    the floats and what it reads under "timeOnPage" is a number (or
    missing). *)
Theorem affordance_findings (session : ReconstructedSession.t) :
  let clicks := ReconstructedSession.get_events_by_type session FRICTION_RAPID_CLICK in
  let reversals :=
    ReconstructedSession.get_events_by_type session FRICTION_NAVIGATION_REVERSAL in
  (∀ found,
     FrictionClassifier._detect_affordance_confusion session = Ok found →
     found = (click_finding <$> clicks)
             ++ (quick_reversal_finding <$> filter quick_reversal reversals)) ∧
  (Forall (λ e, divisible (click_count e)) clicks →
   Forall (λ e, is_number (time_on_page e)) reversals →
   FrictionClassifier._detect_affordance_confusion session
   = Ok ((click_finding <$> clicks)
         ++ (quick_reversal_finding <$> filter quick_reversal reversals))) ∧
  (∀ e, (10 <= number_of (click_count e))%Q →
        (FrictionPattern.severity (click_finding e) == 1)%Q) ∧
  (∀ e, (number_of (click_count e) <= 10)%Q →
        (FrictionPattern.severity (click_finding e) == number_of (click_count e) / 10)%Q).
Proof.
  intros clicks reversals. split_and!.
  - intros found. unfold FrictionClassifier._detect_affordance_confusion.
    fold clicks reversals.
    destruct (for_fold clicks [] _) as [clicked|err] eqn:Hclicks; run_result; [|done].
    apply (for_fold_emitted _ _ _ _ (λ e, [click_finding e])) in Hclicks.
    + intros Hreversals.
      apply (for_fold_emitted _ _ _ _
               (λ e, if decide (quick_reversal e) then [quick_reversal_finding e] else []))
        in Hreversals.
      * by rewrite Hreversals, Hclicks, bind_filter_fmap, bind_singleton_fmap.
      * intros acc e acc' _. unfold quick_reversal. fold (time_on_page e).
        destruct (time_on_page e) as [q| |]; run_result; [|done..].
        rewrite Qltb_decide. case_bool_decide; case_decide; try done.
        -- by intros [= <-].
        -- intros [= <-]. by rewrite app_nil_r.
    + intros acc e acc' _. unfold click_finding. fold (click_count e).
      destruct (click_count e) as [q| |]; run_result; [|done..].
      unfold py_div. run_result.
      destruct (py_truediv q 10) as [scaled|] eqn:Hdiv; run_result; [|done].
      apply py_truediv_Ok_inv in Hdiv as ->. by intros [= <-].
  - intros Hclicks Hreversals.
    unfold FrictionClassifier._detect_affordance_confusion. fold clicks reversals.
    rewrite (for_fold_emit clicks [] _ (λ e, [click_finding e])).
    + cbn [mbind result_bind app].
      rewrite (for_fold_emit reversals _ _
                 (λ e, if decide (quick_reversal e) then [quick_reversal_finding e] else [])).
      * by rewrite bind_filter_fmap, bind_singleton_fmap.
      * intros acc e He. eapply Forall_forall in Hreversals; [|done].
        apply is_number_inv in Hreversals. unfold quick_reversal.
        fold (time_on_page e). rewrite Hreversals. run_result.
        rewrite Qltb_decide. case_bool_decide; case_decide; try done.
        by rewrite app_nil_r.
    + intros acc e He. eapply Forall_forall in Hclicks; [|done].
      unfold click_finding. fold (click_count e).
      by rewrite (py_div_divisible (click_count e) 10).
  - intros e Hmany. cbn. rewrite py_min_Qmin. apply Q.min_l.
    apply Qle_shift_div_l; [done|]. by rewrite Qmult_1_l.
  - intros e Hfew. cbn. rewrite py_min_Qmin. apply Q.min_r.
    apply Qle_shift_div_r; [done|]. by rewrite Qmult_1_l.
Qed.

(** X10. With a computable payload the cognitive rule returns one finding
    for every form-abandonment event, of severity 1 - fieldsCompleted /
    totalFields. When totalFields is zero or negative nothing is divided,
    the completed count is not computed with, and the severity is 1; a
    form with all its fields completed still gives a finding, of severity
    0. *)
Theorem cognitive_findings (session : ReconstructedSession.t) :
  let abandoned :=
    ReconstructedSession.get_events_by_type session FRICTION_FORM_ABANDONMENT in
  Forall abandonment_computable abandoned →
  FrictionClassifier._detect_cognitive_overload session
  = Ok (abandonment_finding <$> abandoned) ∧
  (∀ e, (number_of (total_fields e) <= 0)%Q →
        (FrictionPattern.severity (abandonment_finding e) == 1)%Q) ∧
  (∀ e, (0 < number_of (total_fields e))%Q →
        (number_of (fields_completed e) == number_of (total_fields e))%Q →
        (FrictionPattern.severity (abandonment_finding e) == 0)%Q).
Proof.
  intros abandoned Hcomputable. split_and!.
  - unfold FrictionClassifier._detect_cognitive_overload. fold abandoned.
    rewrite (for_fold_emit abandoned [] _ (λ e, [abandonment_finding e])).
    + by rewrite bind_singleton_fmap.
    + intros acc e He. eapply Forall_forall in Hcomputable; [|done].
      destruct Hcomputable as [Htotal Hpositive].
      apply is_number_inv in Htotal.
      unfold abandonment_finding, completion_rate.
      fold (total_fields e) (fields_completed e). rewrite Htotal. run_result.
      destruct (Qltb 0 (number_of (total_fields e))) eqn:Hpos; [|done].
      apply Qltb_lt in Hpos.
      destruct (Hpositive Hpos) as (Hcompleted & _ & _ & Hrate).
      apply is_number_inv in Hcompleted. rewrite Hcompleted. run_result.
      rewrite py_truediv_below; [done|].
      eapply Qlt_trans; [exact Hrate|]. vm_compute. reflexivity.
  - intros e Hnone. cbn. unfold completion_rate.
    destruct (Qltb 0 (number_of (total_fields e))) eqn:Hpos; [|done].
    apply Qltb_lt in Hpos. by apply Qlt_not_le in Hpos.
  - intros e Hpos Hall. cbn. unfold completion_rate.
    rewrite (proj2 (Qltb_lt _ _) Hpos), Hall. field.
    intros Hzero. rewrite Hzero in Hpos. by apply Qlt_irrefl in Hpos.
Qed.
End OtherRules.

Lemma cognitive_findings_witness :
  severities_are (@FrictionClassifier._detect_cognitive_overload sample_format
                    abandonment_sample_session) [1%Q; 0%Q].
Proof.
  destruct (@cognitive_findings sample_format abandonment_sample_session) as [Hfound _].
  - repeat constructor; try done; intros Hpos; try (by vm_compute in Hpos).
  - rewrite Hfound. cbn. repeat (constructor; [reflexivity|]). constructor.
Defined.

Lemma affordance_findings_witness :
  finding_ids (@FrictionClassifier._detect_affordance_confusion sample_format
                 affordance_session)
  = ["burst"; "quick"].
Proof.
  destruct (@affordance_findings sample_format affordance_session) as (_ & Hfound & _).
  rewrite Hfound.
  - vm_compute. reflexivity.
  - repeat constructor.
  - repeat constructor.
Defined.

(** ** Friction classifier: the analysis as a whole *)

Lemma for_fold_Raise_inv {A B} (xs : list A) (acc : B) (body : B → A → result B)
    (e : Exception) :
  for_fold xs acc body = Raise e → ∃ acc' x, x ∈ xs ∧ body acc' x = Raise e.
Proof.
  revert acc. induction xs as [|x xs IH]; intros acc; cbn; [done|].
  destruct (body acc x) as [acc'|err] eqn:Hstep; run_result.
  - intros (acc'' & y & Hy & Hraise)%IH. exists acc'', y.
    split; [by apply list_elem_of_further|done].
  - intros [= ->]. exists acc, x. split; [apply list_elem_of_here|done].
Qed.

Lemma for_fold_Ok_inv {A B} (xs : list A) (acc : B) (body : B → A → result B)
    (out : B) (x : A) :
  for_fold xs acc body = Ok out → x ∈ xs → ∃ acc' acc'', body acc' x = Ok acc''.
Proof.
  intros Hfold Hin. revert acc Hfold.
  induction xs as [|y xs IH]; intros acc; [by apply elem_of_nil in Hin|].
  cbn. destruct (body acc y) as [acc'|err] eqn:Hstep; run_result; [|done].
  apply elem_of_cons in Hin as [->|Hin]; [by eauto|by apply IH].
Qed.

Lemma for_fold_length {A P} (xs : list A) (acc : list P)
    (body : list P → A → result (list P)) (out : list P) :
  (∀ acc x acc', body acc x = Ok acc' → length acc' ≤ S (length acc)) →
  for_fold xs acc body = Ok out →
  length out ≤ length acc + length xs.
Proof.
  intros Hbody. revert acc. induction xs as [|x xs IH]; intros acc; cbn.
  - intros [= <-]. lia.
  - destruct (body acc x) as [acc'|err] eqn:Hstep; run_result; [|done].
    intros Hrest%IH. apply Hbody in Hstep. lia.
Qed.

Lemma as_number_Raise (v : PyValue) (e : Exception) :
  as_number v = Raise e → is_payload_error e.
Proof. destruct v; cbn; [done|by intros [= <-]..]. Qed.

Lemma as_number_unreadable (v : PyValue) :
  is_number v = false → ∃ e, as_number v = Raise e.
Proof. destruct v; [done|by eexists..]. Qed.

(** Destructs the steps of one iteration that ended in an exception. *)
Ltac raise_step :=
  let Hstep := fresh "Hstep" in
  intros (? & ? & _ & Hstep); revert Hstep; run_result;
  unfold py_gt, py_lt, py_div; run_result;
  repeat match goal with
  | |- context [as_number ?v] =>
      let Hv := fresh "Hv" in
      destruct (as_number v) eqn:Hv; run_result;
      [|intros [= <-]; by eapply as_number_Raise]
  | |- context [py_truediv ?a ?b] =>
      let Hd := fresh "Hd" in
      destruct (py_truediv a b) eqn:Hd; run_result;
      [|intros [= <-]; by eapply py_truediv_Raise]
  | |- context [if ?b then _ else _] => destruct b; run_result
  end; done.

Section WholeAnalysis.
Context `{PyFormat}.
Import TelemetryEvent.

Lemma performance_Raise session e :
  FrictionClassifier._detect_performance_degradation session = Raise e → is_payload_error e.
Proof.
  unfold FrictionClassifier._detect_performance_degradation.
  destruct (for_fold _ [] _) as [loads|err] eqn:Hloads; run_result.
  - intros Hraise%for_fold_Raise_inv. revert Hraise. raise_step.
  - intros [= <-]. apply for_fold_Raise_inv in Hloads. revert Hloads. raise_step.
Qed.

Lemma affordance_Raise session e :
  FrictionClassifier._detect_affordance_confusion session = Raise e → is_payload_error e.
Proof.
  unfold FrictionClassifier._detect_affordance_confusion.
  destruct (for_fold _ [] _) as [clicks|err] eqn:Hclicks; run_result.
  - intros Hraise%for_fold_Raise_inv. revert Hraise. raise_step.
  - intros [= <-]. apply for_fold_Raise_inv in Hclicks. revert Hclicks. raise_step.
Qed.

Lemma cognitive_Raise session e :
  FrictionClassifier._detect_cognitive_overload session = Raise e → is_payload_error e.
Proof.
  unfold FrictionClassifier._detect_cognitive_overload. cbn zeta.
  intros Hraise%for_fold_Raise_inv. revert Hraise. raise_step.
Qed.

(** Whatever [analyze_session] raises is a TypeError or an OverflowError,
    and the history is then as it was. *)
Lemma analyze_session_Raise session self e :
  (FrictionClassifier.analyze_session session self).1 = Raise e →
  is_payload_error e ∧ (FrictionClassifier.analyze_session session self).2 = self.
Proof.
  unfold FrictionClassifier.analyze_session. run_result.
  destruct (FrictionClassifier._detect_performance_degradation session) eqn:H1;
    [|cbn; intros [= <-]; split; [by eapply performance_Raise|done]].
  destruct (FrictionClassifier._detect_affordance_confusion session) eqn:H2;
    [|cbn; intros [= <-]; split; [by eapply affordance_Raise|done]].
  destruct (FrictionClassifier._detect_cognitive_overload session) eqn:H3;
    [|cbn; intros [= <-]; split; [by eapply cognitive_Raise|done]].
  by rewrite detect_expectation_mismatch_eq.
Qed.

Lemma unreadable_rule_raises session e :
  e ∈ ReconstructedSession.events session →
  unreadable_payload e →
  (∃ err, FrictionClassifier._detect_performance_degradation session = Raise err) ∨
  (∃ err, FrictionClassifier._detect_affordance_confusion session = Raise err) ∨
  (∃ err, FrictionClassifier._detect_cognitive_overload session = Raise err).
Proof.
  intros Hin Hbad. unfold unreadable_payload in Hbad.
  assert (Hof_type : e ∈ ReconstructedSession.get_events_by_type session (type e))
    by by apply list_elem_of_filter.
  destruct (type e) eqn:Htype; try done;
    apply negb_True, Is_true_false in Hbad;
    destruct (as_number_unreadable _ Hbad) as [err Herr].
  - (* performance.load *)
    left. unfold FrictionClassifier._detect_performance_degradation.
    destruct (for_fold _ [] _) as [loads|err0] eqn:Hloads; run_result; [|by eexists].
    exfalso. apply (for_fold_Ok_inv _ _ _ _ e) in Hloads as (acc & acc' & Hstep); [|done].
    revert Hstep. unfold py_gt. fold (load_time e). by rewrite Herr.
  - (* performance.latency *)
    left. unfold FrictionClassifier._detect_performance_degradation.
    destruct (for_fold _ [] _) as [loads|err0]; run_result; [|by eexists].
    destruct (for_fold _ loads _) as [found|err0] eqn:Hlatencies; [|by eexists].
    exfalso. apply (for_fold_Ok_inv _ _ _ _ e) in Hlatencies as (acc & acc' & Hstep); [|done].
    revert Hstep. unfold py_div. fold (latency e). by rewrite Herr.
  - (* friction.rapid_click *)
    right; left. unfold FrictionClassifier._detect_affordance_confusion.
    destruct (for_fold _ [] _) as [clicks|err0] eqn:Hclicks; run_result; [|by eexists].
    exfalso. apply (for_fold_Ok_inv _ _ _ _ e) in Hclicks as (acc & acc' & Hstep); [|done].
    revert Hstep. unfold py_div. fold (click_count e). by rewrite Herr.
  - (* friction.navigation_reversal *)
    right; left. unfold FrictionClassifier._detect_affordance_confusion.
    destruct (for_fold _ [] _) as [clicks|err0]; run_result; [|by eexists].
    destruct (for_fold _ clicks _) as [found|err0] eqn:Hreversals; [|by eexists].
    exfalso. apply (for_fold_Ok_inv _ _ _ _ e) in Hreversals as (acc & acc' & Hstep); [|done].
    revert Hstep. unfold py_lt. fold (time_on_page e). by rewrite Herr.
  - (* friction.form_abandonment *)
    right; right. unfold FrictionClassifier._detect_cognitive_overload. cbn zeta.
    destruct (for_fold _ [] _) as [found|err0] eqn:Habandoned; [|by eexists].
    exfalso. apply (for_fold_Ok_inv _ _ _ _ e) in Habandoned as (acc & acc' & Hstep); [|done].
    revert Hstep. unfold py_gt. fold (total_fields e). by rewrite Herr.
Qed.

(** X11. When an event of the session carries something that is not a
    number (text, or a null) under the key its rule computes with,
    [analyze_session] raises, returns no findings at all, and adds nothing
    to the history of the classifier. What it raises is a TypeError, or
    the OverflowError of a number too large to divide that a rule met
    first. *)
Theorem unreadable_payload_raises (session : ReconstructedSession.t)
    (self : FrictionClassifier.t) (e : TelemetryEvent.t) :
  e ∈ ReconstructedSession.events session →
  unreadable_payload e →
  ∃ err,
    is_payload_error err ∧
    FrictionClassifier.analyze_session session self = (Raise err, self).
Proof.
  intros Hin Hbad.
  destruct (FrictionClassifier.analyze_session session self) as [outcome self'] eqn:Hrun.
  assert (∃ err, outcome = Raise err) as [err ->].
  { revert Hrun. unfold FrictionClassifier.analyze_session. run_result.
    destruct (unreadable_rule_raises session e Hin Hbad) as [[err Hr]|[[err Hr]|[err Hr]]].
    - rewrite Hr. cbn. intros [= <- _]. by eexists.
    - destruct (FrictionClassifier._detect_performance_degradation session);
        [|cbn; intros [= <- _]; by eexists].
      rewrite Hr. cbn. intros [= <- _]. by eexists.
    - destruct (FrictionClassifier._detect_performance_degradation session);
        [|cbn; intros [= <- _]; by eexists].
      destruct (FrictionClassifier._detect_affordance_confusion session);
        [|cbn; intros [= <- _]; by eexists].
      rewrite Hr. cbn. intros [= <- _]. by eexists. }
  destruct (analyze_session_Raise session self err) as [Htype Hself];
    [by rewrite Hrun|].
  rewrite Hrun in Hself. cbn in Hself. subst self'.
  by exists err.
Qed.
End WholeAnalysis.

Lemma unreadable_payload_raises_witness :
  ∃ err,
    is_payload_error err ∧
    @FrictionClassifier.analyze_session sample_format text_count_session
      FrictionClassifier.__init__
    = (Raise err, FrictionClassifier.__init__).
Proof.
  apply (@unreadable_payload_raises sample_format text_count_session
           FrictionClassifier.__init__
           (sample_event FRICTION_RAPID_CLICK "c" 20 2 [("clickCount", PStr "many")])).
  - vm_compute. apply list_elem_of_further, list_elem_of_here.
  - vm_compute. exact I.
Defined.

Section Findings.
Context `{PyFormat}.
Import TelemetryEvent.

Lemma no_events_of_type session (event_type : EventType) :
  Forall (λ e, type e ∉ classified_types) (ReconstructedSession.events session) →
  event_type ∈ classified_types →
  ReconstructedSession.get_events_by_type session event_type = [].
Proof.
  intros Hquiet Htype. apply filter_none.
  eapply Forall_impl; [done|]. intros e He Heq. apply He. by rewrite Heq.
Qed.

(** A session without events has nothing to classify. *)
Lemma analyze_session_no_events (session : ReconstructedSession.t)
    (self : FrictionClassifier.t) :
  ReconstructedSession.events session = [] →
  FrictionClassifier.analyze_session session self = (Ok [], self).
Proof.
  intros Hevents.
  unfold FrictionClassifier.analyze_session,
    FrictionClassifier._detect_performance_degradation,
    FrictionClassifier._detect_affordance_confusion,
    FrictionClassifier._detect_cognitive_overload,
    FrictionClassifier._detect_expectation_mismatch,
    ReconstructedSession.get_events_by_type.
  rewrite Hevents. cbn. rewrite bool_decide_false by lia. run_result.
  destruct self as [history]. cbn. by rewrite (app_nil_r history).
Qed.

(** X12. A session none of whose events is a page load, a latency
    measurement or a friction event gives no findings: [analyze_session]
    returns the empty list, raises nothing whatever the payloads hold, and
    leaves the history as it was. *)
Theorem quiet_session_no_findings (session : ReconstructedSession.t)
    (self : FrictionClassifier.t) :
  Forall (λ e, type e ∉ classified_types) (ReconstructedSession.events session) →
  FrictionClassifier.analyze_session session self = (Ok [], self).
Proof.
  intros Hquiet.
  assert (Hnone : ∀ event_type, event_type ∈ classified_types →
            ReconstructedSession.get_events_by_type session event_type = [])
    by (intros; by apply no_events_of_type).
  unfold FrictionClassifier.analyze_session,
    FrictionClassifier._detect_performance_degradation,
    FrictionClassifier._detect_affordance_confusion,
    FrictionClassifier._detect_cognitive_overload,
    FrictionClassifier._detect_expectation_mismatch.
  rewrite !Hnone by (apply (bool_decide_unpack _); vm_compute; exact I).
  run_result. rewrite bool_decide_false by lia.
  destruct self as [history]. cbn. by rewrite (app_nil_r history).
Qed.

(** Extends the collected findings by one that is anchored to the event of
    the iteration. *)
Ltac closed_elem := apply (bool_decide_unpack _); vm_compute; exact I.

Ltac anchored_step :=
  let Hin := fresh "Hin" in
  let Hstep := fresh "Hstep" in
  intros ? ?e ? Hin Hstep ?; revert Hstep; run_result;
  repeat (case_match; try done);
  intros [= <-]; try done;
  apply Forall_app; (split; [done|]); apply Forall_singleton;
  apply list_elem_of_filter in Hin as [Hin ?];
  (split;
   [closed_elem
   |eexists; (split_and!; [eassumption | rewrite Hin; closed_elem | by split])]).

(** X13. Every finding [analyze_session] returns is of one of the four
    pattern types and carries the event id and the timestamp of an event
    of the session, one of a type the rules look at. *)
Theorem findings_are_anchored (session : ReconstructedSession.t)
    (self : FrictionClassifier.t) (found : list FrictionPattern.t) :
  (FrictionClassifier.analyze_session session self).1 = Ok found →
  Forall (λ p, FrictionPattern.pattern_type p ∈ pattern_types ∧
               ∃ e, e ∈ ReconstructedSession.events session ∧
                    type e ∈ classified_types ∧ anchored_to p e) found.
Proof.
  intros (p1 & p2 & p3 & p4 & Hp1 & Hp2 & Hp3 & Hp4 & -> & _)%analyze_session_Ok.
  repeat (apply Forall_app; split).
  - revert Hp1. unfold FrictionClassifier._detect_performance_degradation.
    destruct (for_fold _ [] _) as [loads|err] eqn:Hloads; run_result; [|done].
    apply for_fold_Forall; [anchored_step|].
    revert Hloads. apply for_fold_Forall; [anchored_step|constructor].
  - revert Hp2. unfold FrictionClassifier._detect_affordance_confusion.
    destruct (for_fold _ [] _) as [clicks|err] eqn:Hclicks; run_result; [|done].
    apply for_fold_Forall; [anchored_step|].
    revert Hclicks. apply for_fold_Forall; [anchored_step|constructor].
  - revert Hp3. unfold FrictionClassifier._detect_cognitive_overload. cbn zeta.
    apply for_fold_Forall; [anchored_step|constructor].
  - rewrite detect_expectation_mismatch_eq in Hp4. injection Hp4 as <-.
    apply Forall_app. split.
    + apply Forall_fmap, Forall_forall.
      intros e [Htype Hin]%list_elem_of_filter.
      split; [closed_elem|].
      exists e. split_and!; [done| |by split].
      rewrite Htype. closed_elem.
    + destruct (last _) as [r|] eqn:Hlast; [|constructor].
      case_bool_decide; [|constructor]. apply Forall_singleton.
      apply last_Some_elem_of, list_elem_of_filter in Hlast as [Htype Hin].
      split; [closed_elem|].
      exists r. split_and!; [done| |by split].
      rewrite Htype. closed_elem.
Qed.

Lemma classified_count (evs : list TelemetryEvent.t) :
  length (filter (λ e, type e = PERFORMANCE_LOAD) evs)
  + length (filter (λ e, type e = PERFORMANCE_LATENCY) evs)
  + length (filter (λ e, type e = FRICTION_RAPID_CLICK) evs)
  + length (filter (λ e, type e = FRICTION_NAVIGATION_REVERSAL) evs)
  + length (filter (λ e, type e = FRICTION_FORM_ABANDONMENT) evs)
  + length (filter (λ e, type e = FRICTION_ERROR) evs)
  = length (filter (λ e, type e ∈ classified_types) evs).
Proof.
  induction evs as [|e evs IH]; [done|].
  rewrite !filter_cons.
  destruct (type e); decide_closed; cbn; lia.
Qed.

(** One iteration adds at most one finding. *)
Ltac length_step :=
  let Hstep := fresh "Hstep" in
  intros ? ? ? Hstep; revert Hstep; run_result;
  repeat (case_match; try done);
  intros [= <-]; rewrite ?length_app; cbn; lia.

(** X14. [analyze_session] returns at most one finding for each event of a
    type the rules look at, and one more when the session has three or
    more navigation reversals; so never more findings than the session has
    events, plus one. *)
Theorem findings_count_bound (session : ReconstructedSession.t)
    (self : FrictionClassifier.t) (found : list FrictionPattern.t) :
  (FrictionClassifier.analyze_session session self).1 = Ok found →
  let reversals :=
    ReconstructedSession.get_events_by_type session FRICTION_NAVIGATION_REVERSAL in
  length found
  ≤ length (filter (λ e, type e ∈ classified_types) (ReconstructedSession.events session))
    + (if bool_decide (3 ≤ length reversals) then 1 else 0) ∧
  length found ≤ length (ReconstructedSession.events session) + 1.
Proof.
  intros (p1 & p2 & p3 & p4 & Hp1 & Hp2 & Hp3 & Hp4 & -> & _)%analyze_session_Ok reversals.
  assert (length p1
          ≤ length (ReconstructedSession.get_events_by_type session PERFORMANCE_LOAD)
            + length (ReconstructedSession.get_events_by_type session PERFORMANCE_LATENCY))
    as Hlen1.
  { revert Hp1. unfold FrictionClassifier._detect_performance_degradation.
    destruct (for_fold _ [] _) as [loads|err] eqn:Hloads; run_result; [|done].
    intros Hlat%for_fold_length; [|length_step].
    apply for_fold_length in Hloads; [|length_step]. cbn in Hloads. lia. }
  assert (length p2
          ≤ length (ReconstructedSession.get_events_by_type session FRICTION_RAPID_CLICK)
            + length reversals) as Hlen2.
  { revert Hp2. unfold FrictionClassifier._detect_affordance_confusion.
    destruct (for_fold _ [] _) as [clicks|err] eqn:Hclicks; run_result; [|done].
    intros Hrev%for_fold_length; [|length_step].
    apply for_fold_length in Hclicks; [|length_step]. cbn in Hclicks.
    subst reversals. lia. }
  assert (length p3
          ≤ length (ReconstructedSession.get_events_by_type session
                      FRICTION_FORM_ABANDONMENT)) as Hlen3.
  { revert Hp3. unfold FrictionClassifier._detect_cognitive_overload. cbn zeta.
    intros Hab%for_fold_length; [|length_step]. cbn in Hab. lia. }
  assert (length p4
          = length (ReconstructedSession.get_events_by_type session FRICTION_ERROR)
            + (if bool_decide (3 ≤ length reversals) then 1 else 0)) as Hlen4.
  { rewrite detect_expectation_mismatch_eq in Hp4. injection Hp4 as <-.
    fold reversals. rewrite length_app, length_fmap.
    destruct (last reversals) as [r|] eqn:Hlast.
    - by case_bool_decide.
    - apply last_None in Hlast. rewrite Hlast. cbn. by rewrite bool_decide_false by lia. }
  pose proof (classified_count (ReconstructedSession.events session)) as Hsum.
  pose proof (length_filter (λ e, type e ∈ classified_types)
                (ReconstructedSession.events session)) as Hall.
  unfold ReconstructedSession.get_events_by_type in *. subst reversals.
  rewrite !length_app.
  split; [lia|]. case_bool_decide; lia.
Qed.
End Findings.

Lemma quiet_session_no_findings_witness :
  @FrictionClassifier.analyze_session sample_format smooth_session
    FrictionClassifier.__init__
  = (Ok [], FrictionClassifier.__init__).
Proof.
  apply (@quiet_session_no_findings sample_format smooth_session).
  apply (bool_decide_unpack _). vm_compute. exact I.
Defined.

Lemma findings_are_anchored_witness :
  ∃ found,
    (@FrictionClassifier.analyze_session sample_format loads_session
       FrictionClassifier.__init__).1 = Ok found ∧
    FrictionPattern.event_id <$> found = ["l2"; "t1"] ∧
    Forall (λ p, FrictionPattern.pattern_type p ∈ pattern_types ∧
                 ∃ e, e ∈ ReconstructedSession.events loads_session ∧
                      TelemetryEvent.type e ∈ classified_types ∧ anchored_to p e) found.
Proof.
  eexists. split; [vm_compute; reflexivity|]. split; [reflexivity|].
  apply (@findings_are_anchored sample_format loads_session FrictionClassifier.__init__).
  vm_compute. reflexivity.
Defined.

Lemma findings_count_bound_witness :
  ∃ found,
    (@FrictionClassifier.analyze_session sample_format
       (ReconstructedSession.__init__ 0 "s1" reversal_events)
       FrictionClassifier.__init__).1 = Ok found ∧
    length found = 5 ∧
    length found
    ≤ length (ReconstructedSession.events
                (ReconstructedSession.__init__ 0 "s1" reversal_events)) + 1.
Proof.
  eexists. split; [vm_compute; reflexivity|]. split; [reflexivity|].
  apply (@findings_count_bound sample_format
           (ReconstructedSession.__init__ 0 "s1" reversal_events)
           FrictionClassifier.__init__).
  vm_compute. reflexivity.
Defined.

(** ** History of the classifier *)

Section History.
Context `{PyFormat}.

(** X15. The history of the classifier is cumulative over calls and
    sessions: after two analyses that return, it holds what it held
    before, then the findings of the first call, then those of the second,
    and the count of the severity summary has grown by their number. *)
Theorem history_accumulates (first second : ReconstructedSession.t)
    (self : FrictionClassifier.t) (found1 found2 : list FrictionPattern.t) :
  (FrictionClassifier.analyze_session first self).1 = Ok found1 →
  (FrictionClassifier.analyze_session second
     (FrictionClassifier.analyze_session first self).2).1 = Ok found2 →
  let final :=
    (FrictionClassifier.analyze_session second
       (FrictionClassifier.analyze_session first self).2).2 in
  FrictionClassifier.patterns final
  = FrictionClassifier.patterns self ++ found1 ++ found2 ∧
  FrictionClassifier.count (FrictionClassifier.get_severity_summary final)
  = FrictionClassifier.count (FrictionClassifier.get_severity_summary self)
    + length found1 + length found2.
Proof.
  intros (_ & _ & _ & _ & _ & _ & _ & _ & _ & Hfirst)%analyze_session_Ok
         (_ & _ & _ & _ & _ & _ & _ & _ & _ & Hsecond)%analyze_session_Ok final.
  subst final. rewrite Hsecond, Hfirst, <- app_assoc. split; [done|].
  assert (Hcount : ∀ c, FrictionClassifier.count (FrictionClassifier.get_severity_summary c)
                        = length (FrictionClassifier.patterns c)).
  { intros c. unfold FrictionClassifier.get_severity_summary.
    destruct (FrictionClassifier.patterns c); [done|]. cbn. by rewrite length_fmap. }
  rewrite !Hcount, Hsecond, Hfirst, !length_app. lia.
Qed.
End History.

Lemma history_accumulates_witness :
  FrictionPattern.event_id <$>
    FrictionClassifier.patterns
      (@FrictionClassifier.analyze_session sample_format affordance_session
         (@FrictionClassifier.analyze_session sample_format loads_session
            FrictionClassifier.__init__).2).2
  = ["l2"; "t1"; "burst"; "quick"].
Proof.
  edestruct (@history_accumulates sample_format loads_session affordance_session
               FrictionClassifier.__init__)
    as [Hhistory _]; [vm_compute; reflexivity..|].
  rewrite Hhistory. reflexivity.
Defined.

(** X16. The severity summary is taken over the whole history. For an
    empty history it is average 0, maximum 0, count 0. Otherwise the count
    is the number of findings, and the maximum is the severity of one of
    them and no severity exceeds it. *)
Theorem severity_summary_of_history (self : FrictionClassifier.t) :
  let summary := FrictionClassifier.get_severity_summary self in
  let severities := FrictionPattern.severity <$> FrictionClassifier.patterns self in
  FrictionClassifier.count summary = length (FrictionClassifier.patterns self) ∧
  (FrictionClassifier.patterns self = [] →
     FrictionClassifier.average summary = 0%Q ∧ FrictionClassifier.max summary = 0%Q) ∧
  (FrictionClassifier.patterns self ≠ [] →
     FrictionClassifier.max summary ∈ severities ∧
     (∀ s, s ∈ severities → (s <= FrictionClassifier.max summary)%Q)).
Proof.
  intros summary severities. subst summary severities.
  unfold FrictionClassifier.get_severity_summary.
  destruct (FrictionClassifier.patterns self) as [|p ps]; [by split_and!|].
  rewrite fmap_cons. set (s := FrictionPattern.severity p).
  set (rest := FrictionPattern.severity <$> ps).
  cbn [FrictionClassifier.count FrictionClassifier.average FrictionClassifier.max].
  assert (rest_length : length rest = length ps) by apply length_fmap.
  split_and!; [cbn; by rewrite rest_length|done|]. intros _.
  apply py_max_spec.
Qed.

Lemma severity_summary_of_history_witness :
  (0.3 <= FrictionClassifier.max
            (FrictionClassifier.get_severity_summary
               (FrictionClassifier.mk
                  [FrictionPattern.mk "performance_degradation" 0.3 10 "Slow" "a";
                   FrictionPattern.mk "expectation_mismatch" 0.9 20 "Error" "b"])))%Q.
Proof.
  destruct (severity_summary_of_history
              (FrictionClassifier.mk
                 [FrictionPattern.mk "performance_degradation" 0.3 10 "Slow" "a";
                  FrictionPattern.mk "expectation_mismatch" 0.9 20 "Error" "b"]))
    as (_ & _ & Hfull).
  destruct Hfull as [_ Hmax]; [discriminate|].
  apply Hmax, list_elem_of_here.
Defined.

(** ** Intent inferrer *)

Lemma client_usable (self : IntentInferrer.t) :
  IntentInferrer.client self
  = if usable_key (IntentInferrer._api_key self)
    then Ok (IntentInferrer.completions self)
    else Raise (ValueError "Valid OPENAI_API_KEY required for intent inference").
Proof.
  unfold IntentInferrer.client, usable_key.
  destruct (IntentInferrer._api_key self) as [k|]; [|done].
  by repeat case_bool_decide.
Qed.

(** X17. For a session that has an event [infer_intent] raises the
    AttributeError of the narrative, whatever the key, and the service is
    not asked. For a session made of no events and with a usable key it
    asks the service once, with a prompt of duration 0, no page views, no
    interactions, the empty narrative and the friction patterns, and turns
    a reply into one hypothesis per entry, in the order of the reply, with
    intent, confidence and evidence as the service gave them (a
    confidence outside 0..1 is passed on) and the session's start time as
    timestamp. When the service fails the answer is the single fallback
    hypothesis of confidence 0. *)
Theorem infer_intent_of_reply (self : IntentInferrer.t)
    (session : ReconstructedSession.t) (patterns : list FrictionPattern.t)
    (now : Z) (sid : string) :
  let no_events := ReconstructedSession.__init__ now sid [] in
  (ReconstructedSession.events session ≠ [] →
   IntentInferrer.infer_intent self session patterns = Raise no_value_error) ∧
  (usable_key (IntentInferrer._api_key self) →
   IntentInferrer.infer_intent self no_events patterns
   = match IntentInferrer.completions self (prompt_of no_events patterns "") with
     | Ok replies => Ok (hypothesis_of_reply no_events <$> replies)
     | Raise _ => Ok [inferrer_fallback no_events]
     end) ∧
  prompt_of no_events patterns ""
  = IntentInferrer.mkPrompt 0 0 0 (length patterns) ""
      (IntentInferrer._prepare_friction_summary patterns) ∧
  end_or_start no_events = now.
Proof.
  intros no_events. split_and!; [apply infer_intent_raises| |done..].
  intros Hkey%Is_true_true. unfold IntentInferrer.infer_intent.
  rewrite prepare_event_summary_empty by done.
  rewrite client_usable, Hkey. fold (prompt_of no_events patterns ""). run_result.
  destruct (IntentInferrer.completions self _) as [replies|err]; [|done].
  rewrite (for_fold_emit replies [] _ (λ reply, [hypothesis_of_reply no_events reply]))
    by done.
  by rewrite bind_singleton_fmap.
Qed.

Lemma infer_intent_of_reply_witness :
  IntentHypothesis.confidence <$>
    default [] (match IntentInferrer.infer_intent overconfident_inferrer empty_session [] with
                | Ok hypotheses => Some hypotheses
                | Raise _ => None
                end)
  = [1.5%Q; 0.2%Q].
Proof.
  destruct (infer_intent_of_reply overconfident_inferrer smooth_session [] 0 "s1")
    as (_ & Hreply & _).
  unfold empty_session. rewrite Hreply; reflexivity.
Defined.

(** X18. The key in force is the one handed to the constructor unless
    that is missing or empty, in which case it is the one of the
    environment; [client] gives a handle exactly when the key in force is
    not missing, not empty and not the test key "sk-dummy-key-for-testing",
    and raises a ValueError otherwise. *)
Theorem client_needs_usable_key (api_key env_api_key : option string)
    (completions : IntentInferrer.Prompt → result (list IntentInferrer.Reply)) :
  let self := IntentInferrer.__init__ api_key env_api_key completions in
  IntentInferrer._api_key self = effective_key api_key env_api_key ∧
  (usable_key (effective_key api_key env_api_key) →
     IntentInferrer.client self = Ok completions) ∧
  (¬ usable_key (effective_key api_key env_api_key) →
     IntentInferrer.client self
     = Raise (ValueError "Valid OPENAI_API_KEY required for intent inference")).
Proof.
  intros self.
  assert (Hkey : IntentInferrer._api_key self = effective_key api_key env_api_key).
  { subst self. cbn. destruct api_key as [k|]; [|done].
    case_bool_decide as Hk; [by subst k|]. by destruct k. }
  split_and!; [done|..]; intros Husable; rewrite client_usable, Hkey.
  - by rewrite (Is_true_true_1 _ Husable).
  - by rewrite (Is_true_false_1 _ Husable).
Qed.

Lemma client_needs_usable_key_witness :
  IntentInferrer.client
    (IntentInferrer.__init__ (Some "") (Some "sk-dummy-key-for-testing") (λ _, Ok []))
  = Raise (ValueError "Valid OPENAI_API_KEY required for intent inference").
Proof.
  destruct (client_needs_usable_key (Some "") (Some "sk-dummy-key-for-testing") (λ _, Ok []))
    as (_ & _ & Hraise).
  apply Hraise. vm_compute. intros [].
Defined.

(** ** Insight generator: recommendations *)

Section TypeRecommendations.
Implicit Types (fps : list FrictionPattern.t) (hs : list IntentHypothesis.t).

Lemma group_by_type_from (groups : gmap string (list FrictionPattern.t)) fps
    (pattern_type : string) :
  foldl (λ friction_by_type pattern,
      let key := FrictionPattern.pattern_type pattern in
      let friction_by_type :=
        if bool_decide (is_Some (friction_by_type !! key)) then friction_by_type
        else <[key := []]> friction_by_type in
      alter (λ group, group ++ [pattern]) key friction_by_type) groups fps
    !! pattern_type
  = match of_type pattern_type fps with
    | [] => groups !! pattern_type
    | added => Some (dict_get groups pattern_type [] ++ added)
    end.
Proof.
  unfold of_type.
  revert groups. induction fps as [|p fps IH]; intros groups; [done|].
  cbn [foldl]. rewrite IH, filter_cons. clear IH.
  set (key := FrictionPattern.pattern_type p).
  assert (Hstep : ∀ k,
    alter (λ group, group ++ [p]) key
      (if bool_decide (is_Some (groups !! key)) then groups else <[key := []]> groups) !! k
    = if decide (key = k) then Some (dict_get groups key [] ++ [p]) else groups !! k).
  { intros k. unfold dict_get. case_decide as Hk.
    - subst k. rewrite lookup_alter_eq. case_bool_decide as Hknown.
      + destruct Hknown as [g Hg]. by rewrite Hg.
      + apply eq_None_not_Some in Hknown. by rewrite lookup_insert_eq, Hknown.
    - rewrite lookup_alter_ne by done. case_bool_decide; [done|].
      by rewrite lookup_insert_ne. }
  unfold dict_get at 1. rewrite !Hstep.
  destruct (decide (key = pattern_type)) as [<-|Hkey].
  - destruct (filter _ fps); cbn; by rewrite <- ?app_assoc.
  - by destruct (filter _ fps).
Qed.

Lemma group_lookup fps (pattern_type : string) :
  InsightGenerator.group_by_type fps !! pattern_type
  = match of_type pattern_type fps with
    | [] => None
    | group => Some group
    end.
Proof.
  unfold InsightGenerator.group_by_type. rewrite group_by_type_from.
  destruct (of_type pattern_type fps); [apply lookup_empty|].
  unfold dict_get. by rewrite lookup_empty.
Qed.

Lemma is_Some_group fps (pattern_type recommendation : string) (recs : list string) :
  (if bool_decide (is_Some (InsightGenerator.group_by_type fps !! pattern_type))
   then recs ++ [recommendation] else recs)
  = recs ++ recommend_if_present pattern_type recommendation fps.
Proof.
  unfold recommend_if_present. rewrite group_lookup.
  destruct (of_type pattern_type fps).
  - rewrite bool_decide_false by (by intros [? ?]). by rewrite app_nil_r.
  - by rewrite bool_decide_true by by eexists.
Qed.

(** The whole list, part by part *)
Lemma generate_recommendations_parts session fps hs :
  InsightGenerator._generate_recommendations session fps hs
  = performance_recommendation fps
    ++ recommend_if_present "affordance_confusion" InsightGenerator.rec_visual_feedback fps
    ++ recommend_if_present "cognitive_overload" InsightGenerator.rec_simplify_forms fps
    ++ recommend_if_present "expectation_mismatch" InsightGenerator.rec_align_ui fps
    ++ struggling_recommendations hs
    ++ general_recommendation fps.
Proof.
  unfold InsightGenerator._generate_recommendations. cbn zeta.
  rewrite intent_loop_appends, !is_Some_group, group_lookup.
  unfold performance_recommendation, general_recommendation, mean_severity.
  destruct (of_type "performance_degradation" fps) as [|p group]; cbn [app].
  - repeat case_bool_decide; by rewrite <- ?app_assoc, ?app_nil_r.
  - destruct (Qltb _ _); cbn [app];
      repeat case_bool_decide; by rewrite <- ?app_assoc, ?app_nil_r.
Qed.

Lemma of_type_nonempty (pattern_type : string) fps :
  of_type pattern_type fps ≠ []
  ↔ ∃ p, p ∈ fps ∧ FrictionPattern.pattern_type p = pattern_type.
Proof.
  unfold of_type. split.
  - destruct (filter _ fps) as [|p group] eqn:Hgroup; [done|]. intros _.
    assert (p ∈ filter (λ p, FrictionPattern.pattern_type p = pattern_type) fps) as Hp
      by (rewrite Hgroup; apply list_elem_of_here).
    apply list_elem_of_filter in Hp as [? ?]. by exists p.
  - intros (p & Hin & Htype) Hempty.
    by eapply (filter_nil_not_elem_of _ fps p).
Qed.

(** X19. The grouping of friction patterns by type puts under each type
    exactly the patterns of that type, in their order in the list, and
    has an entry for a type exactly when the list holds a pattern of that
    type. *)
Theorem group_by_type_lookup fps (pattern_type : string) :
  InsightGenerator.group_by_type fps !! pattern_type
  = match of_type pattern_type fps with
    | [] => None
    | group => Some group
    end ∧
  (is_Some (InsightGenerator.group_by_type fps !! pattern_type)
   ↔ ∃ p, p ∈ fps ∧ FrictionPattern.pattern_type p = pattern_type).
Proof.
  split; [apply group_lookup|].
  rewrite group_lookup, <- of_type_nonempty.
  destruct (of_type pattern_type fps); split; try done; try (by intros [? ?]);
    by eexists.
Qed.

(** Decides whether a recommendation text is one of a short list of
    texts, by comparing the texts. *)
Ltac text_in_parts :=
  unfold recommend_if_present, performance_recommendation, general_recommendation,
    struggling_recommendations;
  rewrite ?elem_of_app;
  repeat match goal with
  | |- context [of_type ?ty ?fps] =>
      let g := fresh "group" in
      let Hg := fresh "Hgroup" in
      destruct (of_type ty fps) as [|? g] eqn:Hg
  | |- context [Qltb ?a ?b] => destruct (Qltb a b)
  | |- context [bool_decide ?P] => destruct (bool_decide P)
  end;
  rewrite ?list_elem_of_singleton, ?elem_of_nil, ?list_elem_of_fmap.

(** X20. The recommendations come in a fixed order: performance, visual
    feedback, form simplification, UI alignment, struggling users, general.
    The three recommendations for affordance confusion, cognitive overload
    and expectation mismatch are in the list exactly when a pattern of
    their type is; for performance degradation the list starts with
    exactly one of the two performance recommendations when such a pattern
    is present, and holds neither when none is. *)
Theorem recommendations_by_type (session : ReconstructedSession.t) fps hs :
  let recs := InsightGenerator._generate_recommendations session fps hs in
  let present pattern_type :=
    ∃ p, p ∈ fps ∧ FrictionPattern.pattern_type p = pattern_type in
  (∃ performance,
     recs
     = performance
       ++ recommend_if_present "affordance_confusion" InsightGenerator.rec_visual_feedback fps
       ++ recommend_if_present "cognitive_overload" InsightGenerator.rec_simplify_forms fps
       ++ recommend_if_present "expectation_mismatch" InsightGenerator.rec_align_ui fps
       ++ struggling_recommendations hs
       ++ general_recommendation fps ∧
     (present "performance_degradation" →
        performance = [InsightGenerator.rec_critical_performance]
        ∨ performance = [InsightGenerator.rec_monitor_performance]) ∧
     (¬ present "performance_degradation" → performance = [])) ∧
  (InsightGenerator.rec_visual_feedback ∈ recs ↔ present "affordance_confusion") ∧
  (InsightGenerator.rec_simplify_forms ∈ recs ↔ present "cognitive_overload") ∧
  (InsightGenerator.rec_align_ui ∈ recs ↔ present "expectation_mismatch") ∧
  (InsightGenerator.rec_critical_performance ∈ recs
   ∨ InsightGenerator.rec_monitor_performance ∈ recs
   ↔ present "performance_degradation") ∧
  ¬ (InsightGenerator.rec_critical_performance ∈ recs
     ∧ InsightGenerator.rec_monitor_performance ∈ recs).
Proof.
  intros recs present. subst recs present. cbn beta.
  rewrite generate_recommendations_parts. split.
  { exists (performance_recommendation fps). split; [done|].
    rewrite <- !of_type_nonempty. unfold performance_recommendation.
    destruct (of_type "performance_degradation" fps) as [|p group].
    - split; [done|]. by intros _.
    - split; [|intros Hnone; by destruct Hnone].
      intros _. destruct (Qltb _ _); [by left|by right]. }
  rewrite <- !of_type_nonempty.
  split_and!.
  all: text_in_parts.
  all: try (split;
    [intros Hin;
     repeat (destruct Hin as [Hin|Hin]); try done; try discriminate Hin;
     try (destruct Hin as (? & Hin & _); cbn in Hin; discriminate Hin)
    |try (intros Hne); try done; try congruence; try (by auto 10)]).
  all: intros [Hcritical Hmonitor];
    repeat (destruct Hcritical as [Hcritical|Hcritical]); try done;
    try discriminate Hcritical;
    try (destruct Hcritical as (? & Hcritical & _); cbn in Hcritical;
         discriminate Hcritical);
    repeat (destruct Hmonitor as [Hmonitor|Hmonitor]); try done;
    try discriminate Hmonitor;
    try (destruct Hmonitor as (? & Hmonitor & _); cbn in Hmonitor;
         discriminate Hmonitor).
Qed.
End TypeRecommendations.

(** ** Insight generator: score and effects *)

Lemma round_half_even_range (x : Q) (low high : Z) :
  (inject_Z low <= x)%Q → (x <= inject_Z high)%Q →
  (low ≤ round_half_even x ≤ high)%Z.
Proof.
  intros Hlow Hhigh.
  destruct (round_half_even_near x) as [Hnear_low Hnear_high].
  split.
  - destruct (Z_lt_le_dec (round_half_even x) low) as [Hlt|]; [|done].
    assert (round_half_even x + 1 ≤ low)%Z as Hle by lia.
    rewrite Zle_Qle, inject_Z_plus in Hle.
    change (inject_Z 1) with 1%Q in Hle. lra.
  - destruct (Z_lt_le_dec high (round_half_even x)) as [Hlt|]; [|done].
    assert (high + 1 ≤ round_half_even x)%Z as Hle by lia.
    rewrite Zle_Qle, inject_Z_plus in Hle.
    change (inject_Z 1) with 1%Q in Hle. lra.
Qed.

Lemma py_round2_unit_interval (x : Q) :
  in_unit_interval x → in_unit_interval (py_round2 x).
Proof.
  intros [Hlow Hhigh]. unfold py_round2.
  destruct (round_half_even_range (x * 100) 0 100) as [Hk_low Hk_high].
  - change (inject_Z 0) with 0%Q. lra.
  - change (inject_Z 100) with 100%Q. lra.
  - rewrite Zle_Qle in Hk_low, Hk_high.
    change (inject_Z 0) with 0%Q in Hk_low. change (inject_Z 100) with 100%Q in Hk_high.
    split.
    + apply Qle_shift_div_l; [done|]. lra.
    + apply Qle_shift_div_r; [done|]. lra.
Qed.

(** X21. When every hypothesis has its confidence between 0 and 1, so has
    the overall score, whatever the number of friction patterns; and from
    ten friction patterns on the score no longer depends on their
    number. *)
Theorem confidence_score_in_unit_interval (hs : list IntentHypothesis.t)
    (fps fps' : list FrictionPattern.t) :
  Forall (λ h, in_unit_interval (IntentHypothesis.confidence h)) hs →
  in_unit_interval (InsightGenerator._calculate_confidence hs fps) ∧
  (10 ≤ length fps → 10 ≤ length fps' →
   InsightGenerator._calculate_confidence hs fps
   = InsightGenerator._calculate_confidence hs fps').
Proof.
  intros Hconf.
  unfold InsightGenerator._calculate_confidence. cbn zeta.
  set (intent_confidence :=
         match IntentHypothesis.confidence <$> hs with
         | c :: rest => py_max c rest
         | [] => 0%Q
         end).
  assert (Hm : in_unit_interval intent_confidence).
  { subst intent_confidence.
    destruct (IntentHypothesis.confidence <$> hs) as [|c cs] eqn:Hcs; [by split|].
    destruct (py_max_spec c cs) as [Hin _]. rewrite <- Hcs in Hin.
    apply list_elem_of_fmap in Hin as (h & -> & Hh).
    by eapply Forall_forall in Hconf. }
  assert (Hfactor : ∀ n : nat,
            in_unit_interval (py_min 1 (inject_Z (Z.of_nat n) / 10))).
  { intros n. apply clamped_in_unit_interval; [done|].
    change 0%Q with (inject_Z 0). rewrite <- Zle_Qle. lia. }
  split.
  - apply py_round2_unit_interval.
    destruct Hm as [? ?]. destruct (Hfactor (length fps)) as [? ?]. split; lra.
  - intros Hmany Hmany'. apply py_round2_proper.
    assert (Hsat : ∀ n : nat, 10 ≤ n → (py_min 1 (inject_Z (Z.of_nat n) / 10) == 1)%Q).
    { intros n Hn. rewrite py_min_Qmin. apply Q.min_l. apply Qle_shift_div_l; [done|].
      rewrite Qmult_1_l. change 10%Q with (inject_Z 10). rewrite <- Zle_Qle. lia. }
    by rewrite !Hsat.
Qed.

Lemma confidence_score_in_unit_interval_witness :
  in_unit_interval
    (InsightGenerator._calculate_confidence
       [IntentHypothesis.mk "Checkout" 0.9 ["cart"] 0; IntentHypothesis.mk "Browse" 1 [] 0]
       (replicate 12 (FrictionPattern.mk "expectation_mismatch" 0.8 0 "Error" "e"))).
Proof.
  apply (confidence_score_in_unit_interval _ _ []).
  repeat constructor; cbn; discriminate.
Defined.

Section GenerateInsights.
Context `{PyFormat} {I : Type} `{Inferrer I}.

(** X22. [generate_insights] classifies first. When the classification
    returns, its findings are added to the history of the generator's
    classifier whether or not the inference or its fallback then raises,
    and the inferrer of the generator is left as it was; a summary that is
    returned carries the session's id, the session's end time (its start
    time if it has none) as timestamp, and exactly these findings. When
    the classification raises, that exception is what the caller gets, the
    inferrer is not consulted, and the generator is unchanged. *)
Theorem generate_insights_effects (session : ReconstructedSession.t)
    (gen : InsightGenerator.t I) :
  match (FrictionClassifier.analyze_session session
           (InsightGenerator.friction_classifier gen)).1 with
  | Ok found =>
      FrictionClassifier.patterns
        (InsightGenerator.friction_classifier
           (InsightGenerator.generate_insights session gen).2)
      = FrictionClassifier.patterns (InsightGenerator.friction_classifier gen) ++ found ∧
      InsightGenerator.intent_inferrer (InsightGenerator.generate_insights session gen).2
      = InsightGenerator.intent_inferrer gen ∧
      ∀ summary,
        (InsightGenerator.generate_insights session gen).1 = Ok summary →
        InsightSummary.session_id summary = ReconstructedSession.session_id session ∧
        InsightSummary.timestamp summary = end_or_start session ∧
        InsightSummary.friction_patterns summary = found
  | Raise e =>
      InsightGenerator.generate_insights session gen = (Raise e, gen)
  end.
Proof.
  destruct (FrictionClassifier.analyze_session session
              (InsightGenerator.friction_classifier gen)) as [[found|e] classifier] eqn:Hrun.
  - cbn [fst].
    assert (Hhistory : FrictionClassifier.patterns classifier
              = FrictionClassifier.patterns (InsightGenerator.friction_classifier gen)
                ++ found).
    { destruct (analyze_session_Ok session (InsightGenerator.friction_classifier gen) found)
        as (_ & _ & _ & _ & _ & _ & _ & _ & _ & Hpatterns); [by rewrite Hrun|].
      by rewrite Hrun in Hpatterns. }
    unfold InsightGenerator.generate_insights. rewrite Hrun. cbn.
    split_and!; [done..|].
    intros summary. run_result.
    destruct (try_except _ _) as [hs|err]; [|done].
    by intros [= <-].
  - cbn [fst].
    destruct (analyze_session_Raise session (InsightGenerator.friction_classifier gen) e)
      as [_ Hsame]; [by rewrite Hrun|].
    rewrite Hrun in Hsame. cbn in Hsame. subst classifier.
    unfold InsightGenerator.generate_insights. rewrite Hrun. cbn. by destruct gen.
Qed.
End GenerateInsights.

(** X23. Around the repository's own inferrer [generate_insights]
    returns a summary for no session that has an event: when the
    classification raises, its TypeError or OverflowError is what the
    caller gets, and when it returns, the caller gets the AttributeError
    of the handler. For a session without events it returns a summary
    without findings, with the hypotheses [infer_intent] returned. *)
Theorem generate_insights_with_intent_inferrer `{PyFormat}
    (session : ReconstructedSession.t) (gen : InsightGenerator.t IntentInferrer.t) :
  match ReconstructedSession.events session with
  | [] =>
      ∃ summary,
        (InsightGenerator.generate_insights session gen).1 = Ok summary ∧
        InsightSummary.friction_patterns summary = [] ∧
        infer_intent (InsightGenerator.intent_inferrer gen) session []
        = Ok (InsightSummary.intent_hypotheses summary)
  | _ :: _ =>
      match (FrictionClassifier.analyze_session session
               (InsightGenerator.friction_classifier gen)).1 with
      | Ok found => (InsightGenerator.generate_insights session gen).1 = Raise no_metrics_error
      | Raise e =>
          (InsightGenerator.generate_insights session gen).1 = Raise e ∧ is_payload_error e
      end
  end.
Proof.
  destruct (ReconstructedSession.events session) as [|ev evs] eqn:Hevents.
  - unfold InsightGenerator.generate_insights.
    rewrite analyze_session_no_events by done.
    run_result.
    destruct (infer_intent_empty_returns (InsightGenerator.intent_inferrer gen) session []
                Hevents) as [hs Hhs].
    unfold infer_intent, IntentInferrer_Inferrer. rewrite Hhs. cbn. by eexists.
  - destruct (FrictionClassifier.analyze_session session
                (InsightGenerator.friction_classifier gen)) as [[found|e] classifier] eqn:Hrun.
    + cbn [fst]. eapply generate_insights_inference_raises; [by rewrite Hrun|].
      apply infer_intent_raises. by rewrite Hevents.
    + cbn [fst].
      destruct (analyze_session_Raise session (InsightGenerator.friction_classifier gen) e)
        as [Htype _]; [by rewrite Hrun|].
      unfold InsightGenerator.generate_insights. by rewrite Hrun.
Qed.

Lemma generate_insights_with_intent_inferrer_witness :
  (@InsightGenerator.generate_insights sample_format _ _ smooth_session
     (InsightGenerator.__init__ unconfigured_inferrer)).1 = Raise no_metrics_error.
Proof.
  exact (@generate_insights_with_intent_inferrer sample_format smooth_session
           (InsightGenerator.__init__ unconfigured_inferrer)).
Defined.

(** ** Routes *)

Section Routes.
Context `{PyFormat} `{ExceptionFormat} {I : Type} `{Inferrer I}.

(** X24. Asking for the insights of a session id that is not buffered, or
    is buffered without events, is answered with status 404 and the detail
    "Session not found"; the classifier is not run, and the reconstructor
    and the generator are as before. *)
Theorem insights_of_unknown_session (globals : Globals.t I) (now : Z)
    (session_id : string) :
  dict_get (SessionReconstructor.sessions (Globals.session_reconstructor globals))
    session_id [] = [] →
  routes_insights.get_session_insights now session_id globals
  = (Abort (HTTPException.mk 404 "Session not found"), globals).
Proof.
  intros Hnone. unfold routes_insights.get_session_insights.
  destruct (SessionReconstructor.get_session now session_id _)
    as [session reconstructor] eqn:Hsession.
  assert (session = ReconstructedSession.__init__ now session_id []
          ∧ reconstructor = Globals.session_reconstructor globals) as [-> ->].
  { revert Hsession. unfold SessionReconstructor.get_session. run_state.
    rewrite Hnone. by intros [= <- <-]. }
  cbn. by destruct globals.
Qed.

(** X25. For a session id with buffered events the answer is never 404:
    it is the summary [generate_insights] returns for the reconstructed
    session, or status 500 with a detail that starts "Failed to generate
    insights: " and ends with the text of what [generate_insights]
    raised. In both cases the reconstructor is as before. *)
Theorem insights_of_buffered_session (globals : Globals.t I) (now : Z)
    (session_id : string) :
  dict_get (SessionReconstructor.sessions (Globals.session_reconstructor globals))
    session_id [] ≠ [] →
  let session :=
    (SessionReconstructor.get_session now session_id
       (Globals.session_reconstructor globals)).1 in
  let answer := routes_insights.get_session_insights now session_id globals in
  match (InsightGenerator.generate_insights session (Globals.insight_generator globals)).1
  with
  | Ok summary => answer.1 = Return summary
  | Raise e =>
      answer.1
      = Abort (HTTPException.mk 500 ("Failed to generate insights: " +:+ exc_str e))
  end ∧
  Globals.session_reconstructor answer.2 = Globals.session_reconstructor globals ∧
  Globals.insight_generator answer.2
  = (InsightGenerator.generate_insights session (Globals.insight_generator globals)).2.
Proof.
  intros Hsome session answer. subst session answer.
  unfold routes_insights.get_session_insights, SessionReconstructor.get_session.
  run_state.
  rewrite bool_decide_false.
  - destruct (InsightGenerator.generate_insights _ _) as [[summary|e] generator]; by cbn.
  - intros Hempty%sorted_nil_inv. done.
Qed.
End Routes.

Lemma insights_of_unknown_session_witness :
  (@routes_insights.get_session_insights sample_format sample_exception_format _ _
     0 "other" sample_globals).1
  = Abort (HTTPException.mk 404 "Session not found").
Proof.
  rewrite (@insights_of_unknown_session sample_format sample_exception_format);
    reflexivity.
Defined.

Lemma insights_of_buffered_session_witness :
  (@routes_insights.get_session_insights sample_format sample_exception_format _ _
     0 "s1" failing_globals).1
  = Abort (HTTPException.mk 500
             "Failed to generate insights: 'ReconstructedSession' object has no attribute 'metrics'").
Proof.
  destruct (@insights_of_buffered_session sample_format sample_exception_format _ _
              failing_globals 0 "s1") as [Hanswer _].
  - vm_compute. discriminate.
  - exact Hanswer.
Defined.

Section Ingestion.
Context `{ExceptionFormat}.

(** X26. [ingest_batch] always answers with status "success", the id of
    the batch, the number of its events and the session count after
    adding them, never with status 400; the reconstructor it leaves is the
    one [add_events] leaves for the events of the batch. *)
Theorem ingest_batch_succeeds (batch : EventBatch.t)
    (session_reconstructor : SessionReconstructor.t) :
  let after :=
    (SessionReconstructor.add_events (EventBatch.events batch) session_reconstructor).2 in
  routes_events.ingest_batch batch session_reconstructor
  = (Return {| routes_events.status := "success";
               routes_events.batch_id := EventBatch.batchId batch;
               routes_events.events_received := length (EventBatch.events batch);
               routes_events.total_sessions :=
                 size (dom (SessionReconstructor.sessions session_reconstructor)
                       ∪ list_to_set (C := gset string)
                           (TelemetryEvent.sessionId <$> EventBatch.events batch)) |},
     after).
Proof.
  intros after. subst after. unfold routes_events.ingest_batch.
  destruct (SessionReconstructor.add_events _ _) as [[] reconstructor] eqn:Hadd.
  unfold SessionReconstructor.get_session_count, gets. cbn.
  replace reconstructor
    with (SessionReconstructor.add_events (EventBatch.events batch) session_reconstructor).2
    by by rewrite Hadd.
  by rewrite <- size_dom, add_events_dom.
Qed.
End Ingestion.

Section IngestThenAsk.
Context `{PyFormat} `{ExceptionFormat} {I : Type} `{Inferrer I}.

(** X27. Once a batch is ingested, asking for the insights of the session
    of any of its events is not answered with 404: the answer is a summary
    or status 500. *)
Theorem ingested_session_is_found (batch : EventBatch.t) (globals : Globals.t I)
    (now : Z) (e : TelemetryEvent.t) :
  e ∈ EventBatch.events batch →
  let reconstructor :=
    (routes_events.ingest_batch batch (Globals.session_reconstructor globals)).2 in
  let answer :=
    (routes_insights.get_session_insights now (TelemetryEvent.sessionId e)
       (Globals.mk reconstructor (Globals.insight_generator globals))).1 in
  (∃ summary, answer = Return summary) ∨
  (∃ detail, answer = Abort (HTTPException.mk 500 detail)).
Proof.
  intros Hin reconstructor answer. subst reconstructor answer.
  assert (Hbuffered :
    dict_get (SessionReconstructor.sessions
                (SessionReconstructor.add_events (EventBatch.events batch)
                   (Globals.session_reconstructor globals)).2)
      (TelemetryEvent.sessionId e) [] ≠ []).
  { rewrite add_events_buffer. intros [_ Hnone]%app_eq_nil.
    eapply (filter_nil_not_elem_of _ _ e); [exact Hnone|done|done]. }
  unfold routes_events.ingest_batch.
  destruct (SessionReconstructor.add_events _ _) as [[] added] eqn:Hadd.
  cbn in Hbuffered. unfold SessionReconstructor.get_session_count, gets. cbn.
  unfold routes_insights.get_session_insights, SessionReconstructor.get_session.
  run_state. rewrite bool_decide_false.
  - destruct (InsightGenerator.generate_insights _ _) as [[summary|err] generator];
      cbn; [left|right]; by eexists.
  - by intros Hempty%sorted_nil_inv.
Qed.
End IngestThenAsk.

Lemma ingested_session_is_found_witness :
  (∃ summary,
     (@routes_insights.get_session_insights sample_format sample_exception_format _ _
        0 "s1"
        (Globals.mk
           (@routes_events.ingest_batch sample_exception_format sample_batch
              SessionReconstructor.__init__).2
           (InsightGenerator.__init__ unconfigured_inferrer))).1 = Return summary) ∨
  (∃ detail,
     (@routes_insights.get_session_insights sample_format sample_exception_format _ _
        0 "s1"
        (Globals.mk
           (@routes_events.ingest_batch sample_exception_format sample_batch
              SessionReconstructor.__init__).2
           (InsightGenerator.__init__ unconfigured_inferrer))).1
     = Abort (HTTPException.mk 500 detail)).
Proof.
  apply (@ingested_session_is_found sample_format sample_exception_format _ _
           sample_batch
           (Globals.mk SessionReconstructor.__init__
              (InsightGenerator.__init__ unconfigured_inferrer))
           0 (sample_event VIEW_TRANSITION "a" 10 1 [])).
  vm_compute. apply list_elem_of_here.
Defined.

(** ** Narrative of friction *)

Lemma severity_label_cases (severity : Q) :
  IntentInferrer.severity_label severity
  = if decide (0.7 < severity)%Q then "High"
    else if decide (0.4 < severity)%Q then "Medium" else "Low".
Proof.
  unfold IntentInferrer.severity_label. rewrite !Qltb_decide.
  by repeat case_bool_decide; repeat case_decide.
Qed.

Ltac label_cases :=
  let s := fresh "s" in
  let H7 := fresh "H7" in
  let H4 := fresh "H4" in
  let Hx := fresh "Hx" in
  intros s; rewrite severity_label_cases;
  destruct (decide (0.7 < s)%Q) as [H7|H7%Qnot_lt_le];
  destruct (decide (0.4 < s)%Q) as [H4|H4%Qnot_lt_le];
  (split; intros Hx); try discriminate Hx; try done; try lra;
  try (split; lra); try (destruct Hx; lra).

(** X28. The friction narrative is the text "No friction detected" exactly
    when there are no patterns; a single pattern gives the one line
    "1. [label] type: description"; and the label is "High" for a severity
    above 0.7, "Medium" for one above 0.4 and up to 0.7, and "Low" for
    0.4 and below, negative severities included. *)
Theorem friction_summary_labels :
  (∀ fps, IntentInferrer._prepare_friction_summary fps = "No friction detected"
          ↔ fps = []) ∧
  (∀ p, IntentInferrer._prepare_friction_summary [p]
        = "1. [" +:+ IntentInferrer.severity_label (FrictionPattern.severity p)
          +:+ "] " +:+ FrictionPattern.pattern_type p +:+ ": "
          +:+ FrictionPattern.description p) ∧
  (∀ s, IntentInferrer.severity_label s = "High" ↔ (0.7 < s)%Q) ∧
  (∀ s, IntentInferrer.severity_label s = "Medium" ↔ (0.4 < s)%Q ∧ (s <= 0.7)%Q) ∧
  (∀ s, IntentInferrer.severity_label s = "Low" ↔ (s <= 0.4)%Q).
Proof.
  split_and!.
  - intros fps. split; [|by intros ->].
    destruct fps as [|p rest]; [done|]. intros Hsame. exfalso. revert Hsame.
    unfold IntentInferrer._prepare_friction_summary.
    change (imap ?f (p :: rest)) with (f 0 p :: imap (f ∘ S) rest).
    cbn [str_join]. change (pretty (0 + 1)) with "1".
    destruct (imap _ rest); cbn; discriminate.
  - intros p. unfold IntentInferrer._prepare_friction_summary. cbn.
    by change (pretty 1) with "1".
  - label_cases.
  - label_cases.
  - label_cases.
Qed.
